(** * Stock assistant: the tool-calling turn of [main.py]

    A shallow embedding of [get_stock_info] and [get_agent_response]
    together with the Python built-ins they rely on (dynamic values,
    truthiness, [dict.get], subscripting, string formatting, [json.dumps]
    and [json.loads]), followed by the properties of the specification.

    Conventions of the model.
    - A Python [str] is a [string] whose characters are code points below
      256; Unicode upper-casing is a parameter of the environment.
    - A Python [float] is kept as the decimal literal that [repr] prints
      for it, which is also what [json.dumps] writes.
    - A [dict] is an association list in insertion order.
    - The completion endpoint ([requests.post]) and the market-data provider
      ([yfinance]) are arbitrary functions of an abstract world state; the
      provider's data are JSON data (numbers, strings, lists, dicts).
    - The Streamlit calls [st.info] and [st.error] leave their message in
      the trace of the turn and do not raise.
    - Only [Exception] and its subclasses are modelled. *)

From Stdlib Require Import String Ascii List ZArith NArith Bool Lia.
From Stdlib Require Import Decimal DecimalString DecimalFacts DecimalN DecimalPos.
Import ListNotations.

Set Warnings "-register-all".

#[local] Open Scope list_scope.
#[local] Open Scope string_scope.

(* ================================================================= *)
(** * Part I: definitions *)

(* ----------------------------------------------------------------- *)
(** ** Python values *)

(** A float, by the literal [repr] prints: an optional sign, the integer
    digits, the fraction digits (empty when the literal has none) and the
    exponent (absent in positional notation). *)
Inductive pyfloat : Type :=
| FNan
| FInf (neg : bool)
| FFin (neg : bool) (ip : N) (fp : uint) (ex : option Z).

Inductive pyval : Type :=
| PNone
| PBool (b : bool)
| PInt (z : Z)
| PFloat (f : pyfloat)
| PStr (s : string)
| PList (l : list pyval)
| PDict (d : list (string * pyval)).

(** Exceptions, all subclasses of [Exception].  [RequestException] stands
    for [requests.exceptions.RequestException] and its subclasses
    ([ConnectionError], [Timeout], [HTTPError], ...); it carries [str(e)]. *)
Inductive exn : Type :=
| RequestException (msg : string)
| AttributeError (msg : string)
| KeyError (msg : string)
| IndexError (msg : string)
| TypeError (msg : string)
| OtherException (msg : string).

Inductive res (A : Type) : Type :=
| Ok (a : A)
| Raise (e : exn).
Arguments Ok {A} a.
Arguments Raise {A} e.

Definition res_bind {A B : Type} (m : res A) (k : A -> res B) : res B :=
  match m with
  | Ok a => k a
  | Raise e => Raise e
  end.

Declare Scope res_scope.
Delimit Scope res_scope with res.
Notation "x <- m ;; k" := (res_bind m (fun x => k))
  (at level 61, m at next level, right associativity) : res_scope.

(** [str(e)] *)
Definition exn_str (e : exn) : string :=
  match e with
  | RequestException m | AttributeError m | KeyError m
  | IndexError m | TypeError m | OtherException m => m
  end.

(** [isinstance(e, requests.exceptions.RequestException)] *)
Definition is_request_exception (e : exn) : bool :=
  match e with
  | RequestException _ => true
  | _ => false
  end.

(* ----------------------------------------------------------------- *)
(** ** Decimal text *)

Definition nl : string := String (ascii_of_nat 10) "".

(** The double quote character. *)
Definition dq : ascii := "034"%char.

Definition str_of_N (n : N) : string :=
  NilZero.string_of_uint (N.to_uint n).

(** [str(z)] for an [int] *)
Definition str_of_Z (z : Z) : string :=
  match z with
  | Z0 => "0"
  | Zpos p => str_of_N (Npos p)
  | Zneg p => String "-" (str_of_N (Npos p))
  end.

(** The exponent as [repr] writes it: a sign and at least two digits. *)
Definition str_of_exp (e : Z) : string :=
  (if (e <? 0)%Z then "-" else "+") ++
  (if (Z.abs e <? 10)%Z then "0" else "") ++ str_of_N (Z.abs_N e).

Fixpoint uint_all_zero (d : uint) : bool :=
  match d with
  | Nil => true
  | D0 d' => uint_all_zero d'
  | _ => false
  end.

(** The digits and exponent of a finite float, shared by [repr] and
    [json.dumps]. *)
Definition str_of_fin (neg : bool) (ip : N) (fp : uint) (ex : option Z) : string :=
  (if neg then "-" else "") ++ str_of_N ip ++
  match fp, ex with
  | Nil, None => ".0"
  | Nil, Some e => "e" ++ str_of_exp e
  | _, None => "." ++ NilEmpty.string_of_uint fp
  | _, Some e => "." ++ NilEmpty.string_of_uint fp ++ "e" ++ str_of_exp e
  end.

(** [repr(f)] for a float *)
Definition float_repr (f : pyfloat) : string :=
  match f with
  | FNan => "nan"
  | FInf false => "inf"
  | FInf true => "-inf"
  | FFin neg ip fp ex => str_of_fin neg ip fp ex
  end.

(** [f != 0.0] *)
Definition float_nonzero (f : pyfloat) : bool :=
  match f with
  | FFin _ ip fp _ => negb (N.eqb ip 0 && uint_all_zero fp)
  | _ => true
  end.

(* ----------------------------------------------------------------- *)
(** ** Built-ins on values *)

(** [bool(v)] *)
Definition py_truthy (v : pyval) : bool :=
  match v with
  | PNone => false
  | PBool b => b
  | PInt z => negb (Z.eqb z 0)
  | PFloat f => float_nonzero f
  | PStr s => negb (String.eqb s "")
  | PList l => match l with [] => false | _ => true end
  | PDict d => match d with [] => false | _ => true end
  end.

(** [type(v).__name__] *)
Definition type_name (v : pyval) : string :=
  match v with
  | PNone => "NoneType"
  | PBool _ => "bool"
  | PInt _ => "int"
  | PFloat _ => "float"
  | PStr _ => "str"
  | PList _ => "list"
  | PDict _ => "dict"
  end.

Fixpoint dict_get (d : list (string * pyval)) (k : string) : option pyval :=
  match d with
  | [] => None
  | (k', v) :: d' => if String.eqb k' k then Some v else dict_get d' k
  end.

(** [d[k] = v]: replaces the value of an existing key in place, appends a
    new key. *)
Fixpoint dict_set (d : list (string * pyval)) (k : string) (v : pyval)
  : list (string * pyval) :=
  match d with
  | [] => [(k, v)]
  | (k', v') :: d' =>
      if String.eqb k' k then (k', v) :: d' else (k', v') :: dict_set d' k v
  end.

Definition dict_keys (d : list (string * pyval)) : list string := map fst d.

Definition no_attribute (v : pyval) (attr : string) : exn :=
  AttributeError ("'" ++ type_name v ++ "' object has no attribute '" ++ attr ++ "'").

(** [v.get(k, default)] *)
Definition py_get (v : pyval) (k : string) (default : pyval) : res pyval :=
  match v with
  | PDict d => Ok match dict_get d k with Some x => x | None => default end
  | _ => Raise (no_attribute v "get")
  end.

Definition hex_digit (n : N) : ascii :=
  match n with
  | 0 => "0" | 1 => "1" | 2 => "2" | 3 => "3" | 4 => "4" | 5 => "5"
  | 6 => "6" | 7 => "7" | 8 => "8" | 9 => "9" | 10 => "a" | 11 => "b"
  | 12 => "c" | 13 => "d" | 14 => "e" | _ => "f"
  end%N%char.

(** The two lower-case hexadecimal digits of a character code. *)
Definition hex2 (c : ascii) : string :=
  let n := N_of_ascii c in
  String (hex_digit (n / 16)) (String (hex_digit (n mod 16)) "").

(** [str.isprintable] on one code point below 256. *)
Definition printable (c : ascii) : bool :=
  let n := N_of_ascii c in
  ((32 <=? n) && (n <? 127) || (161 <=? n) && negb (n =? 173))%N.

Fixpoint contains_char (c : ascii) (s : string) : bool :=
  match s with
  | EmptyString => false
  | String a s' => Ascii.eqb a c || contains_char c s'
  end.

Fixpoint repr_chars (q : ascii) (s : string) : string :=
  match s with
  | EmptyString => EmptyString
  | String c s' =>
      (if Ascii.eqb c q || Ascii.eqb c "\" then String "\" (String c "")
       else if Ascii.eqb c (ascii_of_nat 9) then "\t"
       else if Ascii.eqb c (ascii_of_nat 10) then "\n"
       else if Ascii.eqb c (ascii_of_nat 13) then "\r"
       else if printable c then String c ""
       else "\x" ++ hex2 c) ++ repr_chars q s'
  end.

(** [repr(s)] for a [str]: single quotes, unless the text has a single
    quote and no double quote. *)
Definition str_repr (s : string) : string :=
  let q := if contains_char "'" s && negb (contains_char dq s)
           then dq else "'"%char in
  String q (repr_chars q s ++ String q "").

(** [sep.join(l)] *)
Fixpoint join (sep : string) (l : list string) : string :=
  match l with
  | [] => ""
  | x :: l' =>
      match l' with
      | [] => x
      | _ => x ++ sep ++ join sep l'
      end
  end.

(** [repr(v)] *)
Fixpoint py_repr (v : pyval) : string :=
  match v with
  | PNone => "None"
  | PBool true => "True"
  | PBool false => "False"
  | PInt z => str_of_Z z
  | PFloat f => float_repr f
  | PStr s => str_repr s
  | PList l => "[" ++ join ", " (map py_repr l) ++ "]"
  | PDict d =>
      "{" ++ join ", " (map (fun kv => str_repr (fst kv) ++ ": " ++ py_repr (snd kv)) d) ++ "}"
  end.

(** [str(v)], which is what an f-string field [{v}] inserts. *)
Definition py_str (v : pyval) : string :=
  match v with
  | PStr s => s
  | _ => py_repr v
  end.

(** [v[k]] for a string key *)
Definition py_item (v : pyval) (k : string) : res pyval :=
  match v with
  | PDict d =>
      match dict_get d k with
      | Some x => Ok x
      | None => Raise (KeyError (str_repr k))
      end
  | PList _ => Raise (TypeError "list indices must be integers or slices, not str")
  | PStr _ => Raise (TypeError "string indices must be integers, not 'str'")
  | _ => Raise (TypeError ("'" ++ type_name v ++ "' object is not subscriptable"))
  end.

(** [v[0]] *)
Definition py_first (v : pyval) : res pyval :=
  match v with
  | PList (x :: _) => Ok x
  | PList [] => Raise (IndexError "list index out of range")
  | PStr (String c _) => Ok (PStr (String c ""))
  | PStr EmptyString => Raise (IndexError "string index out of range")
  | PDict _ => Raise (KeyError "0")
  | _ => Raise (TypeError ("'" ++ type_name v ++ "' object is not subscriptable"))
  end.

(** [v == s] for a string literal [s] *)
Definition py_eq_str (v : pyval) (s : string) : bool :=
  match v with
  | PStr s' => String.eqb s' s
  | _ => false
  end.

(* ----------------------------------------------------------------- *)
(** ** [json.dumps] *)

(** One character of a string as the encoder writes it
    ([ensure_ascii=True]): short escapes for the quote, the backslash and
    five control characters, the character itself from space to tilde,
    and a [\u00XX] escape otherwise. *)
Definition json_escape_char (c : ascii) : string :=
  let n := N_of_ascii c in
  if Ascii.eqb c dq then String "\" (String dq "")
  else if Ascii.eqb c "\" then "\\"
  else if (n =? 8)%N then "\b"
  else if (n =? 12)%N then "\f"
  else if (n =? 10)%N then "\n"
  else if (n =? 13)%N then "\r"
  else if (n =? 9)%N then "\t"
  else if ((32 <=? n) && (n <? 127))%N then String c ""
  else "\u00" ++ hex2 c.

Fixpoint json_escape (s : string) : string :=
  match s with
  | EmptyString => EmptyString
  | String c s' => json_escape_char c ++ json_escape s'
  end.

Definition json_quote (s : string) : string :=
  String dq (json_escape s ++ String dq "").

Definition json_float (f : pyfloat) : string :=
  match f with
  | FNan => "NaN"
  | FInf false => "Infinity"
  | FInf true => "-Infinity"
  | FFin neg ip fp ex => str_of_fin neg ip fp ex
  end.

(** [json.dumps(v)] with the default separators [", "] and [": "]. *)
Fixpoint json_dumps (v : pyval) : string :=
  match v with
  | PNone => "null"
  | PBool true => "true"
  | PBool false => "false"
  | PInt z => str_of_Z z
  | PFloat f => json_float f
  | PStr s => json_quote s
  | PList l => "[" ++ join ", " (map json_dumps l) ++ "]"
  | PDict d =>
      "{" ++ join ", " (map (fun kv => json_quote (fst kv) ++ ": " ++ json_dumps (snd kv)) d) ++ "}"
  end.

(* ----------------------------------------------------------------- *)
(** ** [json.loads] *)

Definition is_ws (c : ascii) : bool :=
  let n := N_of_ascii c in ((n =? 32) || (n =? 9) || (n =? 10) || (n =? 13))%N.

Fixpoint skip_ws (s : string) : string :=
  match s with
  | EmptyString => EmptyString
  | String c r => if is_ws c then skip_ws r else s
  end.

(** Consumes the character [c] at the head of [s]. *)
Definition eat (c : ascii) (s : string) : option string :=
  match s with
  | EmptyString => None
  | String a r => if Ascii.eqb a c then Some r else None
  end.

Fixpoint strip_prefix (p s : string) : option string :=
  match p with
  | EmptyString => Some s
  | String a p' =>
      match s with
      | EmptyString => None
      | String b s' => if Ascii.eqb a b then strip_prefix p' s' else None
      end
  end.

Definition digit_of (c : ascii) : option (uint -> uint) :=
  match c with
  | "0" => Some D0 | "1" => Some D1 | "2" => Some D2 | "3" => Some D3
  | "4" => Some D4 | "5" => Some D5 | "6" => Some D6 | "7" => Some D7
  | "8" => Some D8 | "9" => Some D9
  | _ => None
  end%char.

Definition is_digit (c : ascii) : bool :=
  match digit_of c with Some _ => true | None => false end.

(** The longest run of digits at the head of [s]. *)
Fixpoint scan_digits (s : string) : uint * string :=
  match s with
  | EmptyString => (Nil, EmptyString)
  | String c r =>
      match digit_of c with
      | Some d => let (u, r') := scan_digits r in (d u, r')
      | None => (Nil, s)
      end
  end.

(** The integer part, [0|[1-9][0-9]*]. *)
Definition scan_int (s : string) : option (N * string) :=
  match s with
  | EmptyString => None
  | String c r =>
      if Ascii.eqb c "0" then Some (0%N, r)
      else if is_digit c then let (u, r') := scan_digits s in Some (N.of_uint u, r')
      else None
  end.

(** The fraction, [(\.[0-9]+)?]; [Nil] when there is none. *)
Definition scan_frac (s : string) : uint * string :=
  match s with
  | String "." (String c r) =>
      if is_digit c then scan_digits (String c r) else (Nil, s)
  | _ => (Nil, s)
  end.

Definition scan_exp_digits (neg : bool) (s whole : string) : option Z * string :=
  match s with
  | String c _ =>
      if is_digit c then
        let (u, r') := scan_digits s in
        (Some (if neg then (- Z.of_N (N.of_uint u))%Z else Z.of_N (N.of_uint u)), r')
      else (None, whole)
  | EmptyString => (None, whole)
  end.

(** The exponent, [([eE][-+]?[0-9]+)?]. *)
Definition scan_exp (s : string) : option Z * string :=
  match s with
  | String c r =>
      if Ascii.eqb c "e" || Ascii.eqb c "E" then
        match r with
        | String sg r' =>
            if Ascii.eqb sg "-" then scan_exp_digits true r' s
            else if Ascii.eqb sg "+" then scan_exp_digits false r' s
            else scan_exp_digits false r s
        | EmptyString => (None, s)
        end
      else (None, s)
  | EmptyString => (None, s)
  end.

(** A number: an [int] when it has neither fraction nor exponent, a
    [float] otherwise. *)
Definition scan_number (s : string) : option (pyval * string) :=
  let (neg, s1) := match eat "-" s with Some r => (true, r) | None => (false, s) end in
  match scan_int s1 with
  | None => None
  | Some (ip, s2) =>
      let (fp, s3) := scan_frac s2 in
      let (ex, s4) := scan_exp s3 in
      match fp, ex with
      | Nil, None => Some (PInt (if neg then (- Z.of_N ip)%Z else Z.of_N ip), s4)
      | _, _ => Some (PFloat (FFin neg ip fp ex), s4)
      end
  end.

(** The value of a hexadecimal digit, in either case. *)
Definition hex_val (c : ascii) : option N :=
  let n := N_of_ascii c in
  if ((48 <=? n) && (n <=? 57))%N then Some (n - 48)%N
  else if ((97 <=? n) && (n <=? 102))%N then Some (n - 87)%N
  else if ((65 <=? n) && (n <=? 70))%N then Some (n - 55)%N
  else None.

(** The character of a [\uXXXX] escape; code points from 256 on are
    outside the strings of this model. *)
Definition unicode_escape (h1 h2 h3 h4 : ascii) : option ascii :=
  match hex_val h1, hex_val h2, hex_val h3, hex_val h4 with
  | Some a, Some b, Some c, Some d =>
      if ((a =? 0) && (b =? 0))%N then Some (ascii_of_N (c * 16 + d)) else None
  | _, _, _, _ => None
  end.

Definition short_escape (c : ascii) : option ascii :=
  if Ascii.eqb c dq then Some dq
  else if Ascii.eqb c "\" then Some "\"%char
  else if Ascii.eqb c "/" then Some "/"%char
  else if Ascii.eqb c "b" then Some (ascii_of_nat 8)
  else if Ascii.eqb c "f" then Some (ascii_of_nat 12)
  else if Ascii.eqb c "n" then Some (ascii_of_nat 10)
  else if Ascii.eqb c "r" then Some (ascii_of_nat 13)
  else if Ascii.eqb c "t" then Some (ascii_of_nat 9)
  else None.

Definition cons_char (c : ascii) (r : option (string * string)) : option (string * string) :=
  match r with
  | Some (t, rest) => Some (String c t, rest)
  | None => None
  end.

(** The body of a string after its opening quote, up to and including the
    closing quote (strict mode: raw control characters are refused). *)
Fixpoint scan_string (s : string) : option (string * string) :=
  match s with
  | EmptyString => None
  | String c r =>
      if Ascii.eqb c dq then Some (EmptyString, r)
      else if Ascii.eqb c "\" then
        match r with
        | EmptyString => None
        | String e r1 =>
            if Ascii.eqb e "u" then
              match r1 with
              | String h1 (String h2 (String h3 (String h4 r2))) =>
                  match unicode_escape h1 h2 h3 h4 with
                  | Some a => cons_char a (scan_string r2)
                  | None => None
                  end
              | _ => None
              end
            else
              match short_escape e with
              | Some a => cons_char a (scan_string r1)
              | None => None
              end
        end
      else if (N_of_ascii c <? 32)%N then None
      else cons_char c (scan_string r)
  end.

(** The literals and numbers, tried in the order of the scanner. *)
Definition scan_atom (s : string) : option (pyval * string) :=
  match strip_prefix "null" s with
  | Some r => Some (PNone, r)
  | None =>
  match strip_prefix "true" s with
  | Some r => Some (PBool true, r)
  | None =>
  match strip_prefix "false" s with
  | Some r => Some (PBool false, r)
  | None =>
  match scan_number s with
  | Some x => Some x
  | None =>
  match strip_prefix "NaN" s with
  | Some r => Some (PFloat FNan, r)
  | None =>
  match strip_prefix "Infinity" s with
  | Some r => Some (PFloat (FInf false), r)
  | None =>
  match strip_prefix "-Infinity" s with
  | Some r => Some (PFloat (FInf true), r)
  | None => None
  end end end end end end end.

(** [dict(pairs)]: a repeated key keeps its first position and takes the
    last value. *)
Definition dict_of_pairs (l : list (string * pyval)) : list (string * pyval) :=
  fold_left (fun d kv => dict_set d (fst kv) (snd kv)) l [].

(** The decoder.  Every recursive call spends one unit of [fuel];
    [json_loads] gives it the length of the text, which is enough for
    every text [json_dumps] writes ([loads_dumps]). *)
Fixpoint scan_value (fuel : nat) (s : string) {struct fuel} : option (pyval * string) :=
  match fuel with
  | O => None
  | S n =>
      match s with
      | EmptyString => None
      | String c r =>
          if Ascii.eqb c dq then
            match scan_string r with
            | Some (t, r') => Some (PStr t, r')
            | None => None
            end
          else if Ascii.eqb c "{" then
            match eat "}" (skip_ws r) with
            | Some r' => Some (PDict [], r')
            | None =>
                match scan_members n (skip_ws r) with
                | Some (d, r') => Some (PDict (dict_of_pairs d), r')
                | None => None
                end
            end
          else if Ascii.eqb c "[" then
            match eat "]" (skip_ws r) with
            | Some r' => Some (PList [], r')
            | None =>
                match scan_elems n (skip_ws r) with
                | Some (l, r') => Some (PList l, r')
                | None => None
                end
            end
          else scan_atom s
      end
  end
with scan_elems (fuel : nat) (s : string) {struct fuel} : option (list pyval * string) :=
  match fuel with
  | O => None
  | S n =>
      match scan_value n s with
      | None => None
      | Some (v, r) =>
          match eat "]" (skip_ws r) with
          | Some r' => Some ([v], r')
          | None =>
              match eat "," (skip_ws r) with
              | Some r' =>
                  match scan_elems n (skip_ws r') with
                  | Some (l, r'') => Some (v :: l, r'')
                  | None => None
                  end
              | None => None
              end
          end
      end
  end
with scan_members (fuel : nat) (s : string) {struct fuel}
  : option (list (string * pyval) * string) :=
  match fuel with
  | O => None
  | S n =>
      match eat dq s with
      | None => None
      | Some r =>
          match scan_string r with
          | None => None
          | Some (k, r1) =>
              match eat ":" (skip_ws r1) with
              | None => None
              | Some r2 =>
                  match scan_value n (skip_ws r2) with
                  | None => None
                  | Some (v, r3) =>
                      match eat "}" (skip_ws r3) with
                      | Some r4 => Some ([(k, v)], r4)
                      | None =>
                          match eat "," (skip_ws r3) with
                          | Some r4 =>
                              match scan_members n (skip_ws r4) with
                              | Some (d, r5) => Some ((k, v) :: d, r5)
                              | None => None
                              end
                          | None => None
                          end
                      end
                  end
              end
          end
      end
  end.

(** [json.loads(s)]: one value, surrounded by white space only.  A text
    that is not JSON raises [JSONDecodeError] (its message is not
    modelled). *)
Definition json_loads (s : string) : res pyval :=
  match scan_value (S (String.length s)) (skip_ws s) with
  | Some (v, r) =>
      match skip_ws r with
      | EmptyString => Ok v
      | _ => Raise (OtherException "JSONDecodeError: Extra data")
      end
  | None => Raise (OtherException "JSONDecodeError: Expecting value")
  end.

(* ----------------------------------------------------------------- *)
(** ** The environment and the effects of a turn *)

(** What [requests.post] hands back when it does not raise: the status
    line and the outcome of [response.json()]. *)
Record http_response : Type := {
  status_code : Z;
  reason : string;
  json_body : res pyval
}.

(** The outside world: [str.upper], the completion endpoint
    ([requests.post(url, data=body)]) and the market-data provider
    ([yf.Ticker(ticker).info]).  Either call may raise any exception and
    may change the world. *)
Record Env : Type := {
  World : Type;
  str_upper : string -> string;
  requests_post : string -> string -> World -> res http_response * World;
  yf_info : pyval -> World -> res pyval * World
}.

(** What a turn does to the outside, in order. *)
Inductive event : Type :=
| EvPost (url body : string)
| EvFetch (ticker : pyval)
| EvInfo (msg : string)
| EvError (msg : string).

Definition is_post (ev : event) : bool :=
  match ev with EvPost _ _ => true | _ => false end.

Definition is_fetch (ev : event) : bool :=
  match ev with EvFetch _ => true | _ => false end.

Definition count_posts (t : list event) : nat := List.length (filter is_post t).

Definition count_fetches (t : list event) : nat := List.length (filter is_fetch t).

(** [response.raise_for_status()]: [HTTPError] for a status from 400 to
    599. *)
Definition raise_for_status (url : string) (r : http_response) : res unit :=
  let st := status_code r in
  if ((400 <=? st) && (st <? 500))%Z then
    Raise (RequestException
             (str_of_Z st ++ " Client Error: " ++ reason r ++ " for url: " ++ url))
  else if ((500 <=? st) && (st <? 600))%Z then
    Raise (RequestException
             (str_of_Z st ++ " Server Error: " ++ reason r ++ " for url: " ++ url))
  else Ok tt.

Declare Scope turn_scope.
Delimit Scope turn_scope with turn.

Section Turn.

Variable E : Env.

(** A computation that may raise, changes the world and leaves a trace. *)
Definition M (A : Type) : Type := World E -> res A * World E * list event.

Definition ret {A : Type} (a : A) : M A := fun w => (Ok a, w, []).

Definition bind {A B : Type} (m : M A) (k : A -> M B) : M B := fun w =>
  match m w with
  | (Ok a, w1, t1) =>
      match k a w1 with
      | (r, w2, t2) => (r, w2, (t1 ++ t2)%list)
      end
  | (Raise e, w1, t1) => (Raise e, w1, t1)
  end.

Definition lift {A : Type} (r : res A) : M A := fun w => (r, w, []).

Definition emit (ev : event) : M unit := fun w => (Ok tt, w, [ev]).

(** [try: m  except Exception as e: h e] *)
Definition try_except {A : Type} (m : M A) (h : exn -> M A) : M A := fun w =>
  match m w with
  | (Ok a, w1, t1) => (Ok a, w1, t1)
  | (Raise e, w1, t1) =>
      match h e w1 with
      | (r, w2, t2) => (r, w2, (t1 ++ t2)%list)
      end
  end.

Definition post (url body : string) : M http_response := fun w =>
  let (r, w') := requests_post E url body w in (r, w', [EvPost url body]).

Definition ticker_info (ticker : pyval) : M pyval := fun w =>
  let (r, w') := yf_info E ticker w in (r, w', [EvFetch ticker]).

Definition st_info (msg : string) : M unit := emit (EvInfo msg).

Definition st_error (msg : string) : M unit := emit (EvError msg).

Notation "x <- m ;; k" := (bind m (fun x => k))
  (at level 61, m at next level, right associativity) : turn_scope.

(** [v.upper()] *)
Definition py_upper (v : pyval) : res pyval :=
  match v with
  | PStr s => Ok (PStr (str_upper E s))
  | _ => Raise (no_attribute v "upper")
  end.

(* ----------------------------------------------------------------- *)
(** ** [main.py] *)

Definition AGENT_MODEL : string := "gemini-2.0-flash".

Definition AGENT_INSTRUCTION : string :=
  "You are a helpful stock market assistant." ++ nl ++
  "You have access to a tool called `get_stock_info` that can fetch real-time stock data." ++ nl ++
  "Use this tool when the user asks for current stock prices or information about a specific stock ticker." ++ nl ++
  "When using the tool, provide the ticker symbol (e.g., 'AAPL', 'GOOGL')." ++ nl ++
  "If you don't know something, just say so." ++ nl ++
  "Be concise and answer directly based on the information provided by the tool or your knowledge." ++ nl.

Definition not_found_message (ticker : pyval) : string :=
  "Could not find information for ticker: " ++ py_str ticker ++ ". Please check the symbol.".

Definition fetch_error_message (ticker : pyval) (e : exn) : string :=
  "An error occurred while fetching data for " ++ py_str ticker ++ ": " ++ exn_str e.

Definition error_record (msg : string) : pyval := PDict [("error", PStr msg)].

(** The dict literal of lines 67-79, its entries evaluated in order. *)
Definition quote_record (ticker info : pyval) : res pyval :=
  (t <- py_upper ticker ;;
   longName <- py_get info "longName" (PStr "N/A") ;;
   currency <- py_get info "currency" (PStr "N/A") ;;
   exchange <- py_get info "exchange" (PStr "N/A") ;;
   regular <- py_get info "regularMarketPrice" (PStr "N/A") ;;
   currentPrice <- py_get info "currentPrice" regular ;;
   previousClose <- py_get info "previousClose" (PStr "N/A") ;;
   open <- py_get info "open" (PStr "N/A") ;;
   dayHigh <- py_get info "dayHigh" (PStr "N/A") ;;
   dayLow <- py_get info "dayLow" (PStr "N/A") ;;
   volume <- py_get info "volume" (PStr "N/A") ;;
   marketCap <- py_get info "marketCap" (PStr "N/A") ;;
   Ok (PDict [("ticker", t);
              ("longName", longName);
              ("currency", currency);
              ("exchange", exchange);
              ("currentPrice", currentPrice);
              ("previousClose", previousClose);
              ("open", open);
              ("dayHigh", dayHigh);
              ("dayLow", dayLow);
              ("volume", volume);
              ("marketCap", marketCap)]))%res.

(** [get_stock_info], lines 49-82. *)
Definition get_stock_info (ticker : pyval) : M string :=
  try_except
    (info <- ticker_info ticker ;;
     if negb (py_truthy info) then
       ret (json_dumps (error_record (not_found_message ticker)))
     else
       data <- lift (quote_record ticker info) ;;
       ret (json_dumps data))%turn
    (fun e => ret (json_dumps (error_record (fetch_error_message ticker e)))).

(** [STOCK_INFO_TOOL_SCHEMA], lines 86-99. *)
Definition STOCK_INFO_TOOL_SCHEMA : pyval :=
  PDict [
    ("name", PStr "get_stock_info");
    ("description", PStr "Fetches real-time stock information for a given ticker symbol. Returns current price, previous close, open, high, low, and volume.");
    ("parameters", PDict [
       ("type", PStr "OBJECT");
       ("properties", PDict [
          ("ticker", PDict [
             ("type", PStr "STRING");
             ("description", PStr "The stock ticker symbol (e.g., 'AAPL', 'GOOGL', 'MSFT').")])]);
       ("required", PList [PStr "ticker"])])].

(** The [tools] entry of both payloads. *)
Definition tools : pyval :=
  PList [PDict [("functionDeclarations", PList [STOCK_INFO_TOOL_SCHEMA])]].

Definition user_entry (text : string) : pyval :=
  PDict [("role", PStr "user"); ("parts", PList [PDict [("text", PStr text)]])].

Definition model_entry (function_call : pyval) : pyval :=
  PDict [("role", PStr "model");
         ("parts", PList [PDict [("functionCall", function_call)]])].

Definition function_entry (response : pyval) : pyval :=
  PDict [("role", PStr "function");
         ("parts", PList [PDict [("functionResponse",
            PDict [("name", PStr "get_stock_info"); ("response", response)])]])].

Definition make_payload (contents : list pyval) : pyval :=
  PDict [("contents", PList contents); ("tools", tools)].

(** [not api_key] *)
Definition key_missing (api_key : option string) : bool :=
  match api_key with
  | None => true
  | Some k => String.eqb k ""
  end.

Definition key_text (api_key : option string) : string :=
  match api_key with
  | None => "None"
  | Some k => k
  end.

Definition make_url (api_key : option string) : string :=
  "https://generativelanguage.googleapis.com/v1beta/models/" ++ AGENT_MODEL ++
  ":generateContent?key=" ++ key_text api_key.

(** [result["candidates"][0]["content"]["parts"][0]] *)
Definition first_part (result : pyval) : res pyval :=
  (c <- py_item result "candidates" ;;
   c0 <- py_first c ;;
   ct <- py_item c0 "content" ;;
   ps <- py_item ct "parts" ;;
   py_first ps)%res.

(** The value of the condition of lines 132-134, 169-171 and 179-181:
    [result.get("candidates") and
     result["candidates"][0].get("content") and
     result["candidates"][0]["content"].get("parts") and
     result["candidates"][0]["content"]["parts"][0].get(field)]. *)
Definition part_field (result : pyval) (field : string) : res pyval :=
  (a <- py_get result "candidates" PNone ;;
   if negb (py_truthy a) then Ok a else
   c <- py_item result "candidates" ;;
   c0 <- py_first c ;;
   b <- py_get c0 "content" PNone ;;
   if negb (py_truthy b) then Ok b else
   c <- py_item result "candidates" ;;
   c0 <- py_first c ;;
   ct <- py_item c0 "content" ;;
   p <- py_get ct "parts" PNone ;;
   if negb (py_truthy p) then Ok p else
   pt <- first_part result ;;
   py_get pt field PNone)%res.

Definition missing_key_reply : string :=
  "Gemini API Key is missing. Please provide it to use the assistant.".

Definition no_formulation_reply : string :=
  "I received data from the stock tool, but couldn't formulate a clear response.".

Definition no_clear_reply : string :=
  "I couldn't get a clear response from the model. Please try again.".

Definition unknown_function_reply (function_name : pyval) : string :=
  "Agent tried to call an unknown function: " ++ py_str function_name.

Definition technical_issue_reply (e : exn) : string :=
  "I'm currently unable to provide a response due to a technical issue: " ++
  exn_str e ++
  ". Please ensure your API key is correct and has access to the '" ++
  AGENT_MODEL ++ "' model.".

Definition unexpected_reply : string := "An unexpected error occurred.".

(** The two [except] clauses of lines 186-191. *)
Definition on_exception (e : exn) : M pyval :=
  if is_request_exception e then
    (_ <- st_error ("Error communicating with the Gemini API: " ++ exn_str e) ;;
     ret (PStr (technical_issue_reply e)))%turn
  else
    (_ <- st_error ("An unexpected error occurred: " ++ exn_str e) ;;
     ret (PStr unexpected_reply))%turn.

(** One completion call, lines 127-129 and 165-167: the request, the
    status check and the decoding of the body. *)
Definition completion (api_url : string) (payload : pyval) : M pyval :=
  (response <- post api_url (json_dumps payload) ;;
   _ <- lift (raise_for_status api_url response) ;;
   lift (json_body response))%turn.

(** Lines 169-174. *)
Definition final_answer (result_final : pyval) : M pyval :=
  (text <- lift (part_field result_final "text") ;;
   if py_truthy text then
     lift (p <- first_part result_final ;; py_item p "text")%res
   else ret (PStr no_formulation_reply))%turn.

(** Lines 179-184. *)
Definition direct_answer (result : pyval) : M pyval :=
  (text <- lift (part_field result "text") ;;
   if py_truthy text then
     lift (p <- first_part result ;; py_item p "text")%res
   else ret (PStr no_clear_reply))%turn.

(** Lines 141-174: the tool is run and its output is sent back. *)
Definition tool_round (api_url : string) (chat_history : list pyval)
  (function_call function_args : pyval) : M pyval :=
  (shown <- lift (py_get function_args "ticker" PNone) ;;
   _ <- st_info ("Agent wants to fetch stock info for: " ++ py_str shown) ;;
   ticker <- lift (py_get function_args "ticker" PNone) ;;
   tool_output <- get_stock_info ticker ;;
   let chat_history1 := (chat_history ++ [model_entry function_call])%list in
   parsed <- lift (json_loads tool_output) ;;
   let chat_history2 := (chat_history1 ++ [function_entry parsed])%list in
   let payload_with_tool_output := make_payload chat_history2 in
   result_final <- completion api_url payload_with_tool_output ;;
   final_answer result_final)%turn.

(** The body of the [try], lines 125-184. *)
Definition first_round (prompt : string) (api_url : string) : M pyval :=
  let chat_history := [user_entry AGENT_INSTRUCTION; user_entry prompt] in
  let payload := make_payload chat_history in
  (result <- completion api_url payload ;;
   call <- lift (part_field result "functionCall") ;;
   if py_truthy call then
     function_call <- lift (p <- first_part result ;; py_item p "functionCall")%res ;;
     function_name <- lift (py_item function_call "name") ;;
     function_args <- lift (py_item function_call "args") ;;
     if py_eq_str function_name "get_stock_info" then
       tool_round api_url chat_history function_call function_args
     else ret (PStr (unknown_function_reply function_name))
   else direct_answer result)%turn.

(** [get_agent_response], lines 102-191. *)
Definition get_agent_response (prompt : string) (api_key : option string) : M pyval :=
  if key_missing api_key then ret (PStr missing_key_reply)
  else try_except (first_round prompt (make_url api_key)) on_exception.

End Turn.

Arguments ret {E A} a.
Arguments bind {E A B} m k.
Arguments lift {E A} r.
Arguments try_except {E A} m h.

(* ----------------------------------------------------------------- *)
(** ** Scripted environments, for concrete runs *)

Definition ascii_upper (c : ascii) : ascii :=
  let n := N_of_ascii c in
  if ((97 <=? n) && (n <=? 122))%N then ascii_of_N (n - 32) else c.

Fixpoint upper_ascii (s : string) : string :=
  match s with
  | EmptyString => EmptyString
  | String c s' => String (ascii_upper c) (upper_ascii s')
  end.

(** The endpoint answers the successive requests with the replies of a
    list and refuses the connection once the list is used up; the provider
    is a function of the ticker. *)
Definition scripted (provider : pyval -> res pyval) : Env :=
  {| World := list (res http_response);
     str_upper := upper_ascii;
     requests_post := fun _ _ w =>
       match w with
       | r :: w' => (r, w')
       | [] => (Raise (RequestException "Connection refused"), [])
       end;
     yf_info := fun t w => (provider t, w) |}.

Definition ok_reply (result : pyval) : res http_response :=
  Ok {| status_code := 200; reason := "OK"; json_body := Ok result |}.

(** A completion response whose first candidate has the single part
    [part]. *)
Definition response_with (part : pyval) : pyval :=
  PDict [("candidates",
          PList [PDict [("content",
                         PDict [("parts", PList [part]); ("role", PStr "model")])]])].

Definition text_part (text : pyval) : pyval := PDict [("text", text)].

Definition call_part (name args : pyval) : pyval :=
  PDict [("functionCall", PDict [("name", name); ("args", args)])].

Definition aapl_info : pyval :=
  PDict [("longName", PStr "Apple Inc.");
         ("currency", PStr "USD");
         ("regularMarketPrice", PFloat (FFin false 189 (D5 Nil) None));
         ("volume", PInt 51234000)].

Definition aapl_provider (ticker : pyval) : res pyval :=
  if py_eq_str ticker "AAPL" then Ok aapl_info else Ok (PDict []).

(* ----------------------------------------------------------------- *)
(** ** What the decoder returns on the encoder's output *)

Definition canon_float (f : pyfloat) : pyfloat :=
  match f with
  | FFin neg ip Nil None => FFin neg ip (D0 Nil) None
  | _ => f
  end.

(** The value [json.loads(json.dumps(v))]: repeated keys of a [dict] are
    merged, and a float literal without fraction and exponent gets the
    fraction [.0] it is printed with. *)
Fixpoint canon (v : pyval) : pyval :=
  match v with
  | PFloat f => PFloat (canon_float f)
  | PList l => PList (map canon l)
  | PDict d => PDict (dict_of_pairs (map (fun kv => (fst kv, canon (snd kv))) d))
  | _ => v
  end.

(** The fuel the decoder needs for the text of [v]. *)
Fixpoint size (v : pyval) : nat :=
  match v with
  | PList l => S (fold_right (fun x acc => S (size x + acc)) 0 l)
  | PDict d => S (fold_right (fun kv acc => S (size (snd kv) + acc)) 0 d)
  | _ => 1
  end.

(** Texts that may follow a value inside a document. *)
Definition stopb (rest : string) : bool :=
  match rest with
  | EmptyString => true
  | String c _ => Ascii.eqb c "," || Ascii.eqb c "]" || Ascii.eqb c "}"
  end.

Definition no_digit_head (rest : string) : bool :=
  match rest with
  | EmptyString => true
  | String c _ => negb (is_digit c)
  end.

(** [t] occurs in [s]. *)
Definition occurs_in (t s : string) : Prop :=
  exists pre post, s = pre ++ t ++ post.

(* ----------------------------------------------------------------- *)
(** ** The quote record and the completion interface, as the
       specification words them *)

(** The eleven fields of a quote record. *)
Definition quote_fields : list string :=
  ["ticker"; "longName"; "currency"; "exchange"; "currentPrice";
   "previousClose"; "open"; "dayHigh"; "dayLow"; "volume"; "marketCap"].

(** A provider field, or the marker ["N/A"] when the provider omits it. *)
Definition field_or_na (d : list (string * pyval)) (k : string) : pyval :=
  match dict_get d k with
  | Some x => x
  | None => PStr "N/A"
  end.

(** The current price: the provider's [currentPrice], else its
    [regularMarketPrice], else ["N/A"]. *)
Definition current_price (d : list (string * pyval)) : pyval :=
  match dict_get d "currentPrice" with
  | Some x => x
  | None => field_or_na d "regularMarketPrice"
  end.

(** The quote record for the ticker text [t] and the provider mapping
    [d]. *)
Definition quote_of (E : Env) (t : string) (d : list (string * pyval)) : pyval :=
  PDict [("ticker", PStr (str_upper E t));
         ("longName", field_or_na d "longName");
         ("currency", field_or_na d "currency");
         ("exchange", field_or_na d "exchange");
         ("currentPrice", current_price d);
         ("previousClose", field_or_na d "previousClose");
         ("open", field_or_na d "open");
         ("dayHigh", field_or_na d "dayHigh");
         ("dayLow", field_or_na d "dayLow");
         ("volume", field_or_na d "volume");
         ("marketCap", field_or_na d "marketCap")].

(** The value [get_stock_info] serialises, by the provider's outcome. *)
Definition stock_result (E : Env) (ticker : pyval) (r : res pyval) : pyval :=
  match r with
  | Raise e => error_record (fetch_error_message ticker e)
  | Ok info =>
      if negb (py_truthy info) then error_record (not_found_message ticker)
      else
        match quote_record E ticker info with
        | Ok data => data
        | Raise e => error_record (fetch_error_message ticker e)
        end
  end.

(** The first part of a completion response that has the shape of the
    interface: a [candidates] array whose first entry's [content.parts]
    starts with an object. *)
Definition first_part_dict (result : pyval) : option (list (string * pyval)) :=
  match result with
  | PDict r =>
      match dict_get r "candidates" with
      | Some (PList (PDict c :: _)) =>
          match dict_get c "content" with
          | Some (PDict ct) =>
              match dict_get ct "parts" with
              | Some (PList (PDict part :: _)) => Some part
              | _ => None
              end
          | _ => None
          end
      | _ => None
      end
  | _ => None
  end.

(** [d.get(k)] *)
Definition get_or_none (d : list (string * pyval)) (k : string) : pyval :=
  match dict_get d k with
  | Some x => x
  | None => PNone
  end.

(** The body of the first request of a turn. *)
Definition first_body (prompt : string) : string :=
  json_dumps (PDict [("contents",
                      PList [user_entry AGENT_INSTRUCTION; user_entry prompt]);
                     ("tools", tools)]).

(** The body of the second request: the two entries of the first, the
    function call received and the parsed tool output. *)
Definition second_body (prompt : string) (function_call parsed : pyval) : string :=
  json_dumps (PDict [("contents",
                      PList [user_entry AGENT_INSTRUCTION; user_entry prompt;
                             model_entry function_call; function_entry parsed]);
                     ("tools", tools)]).

Definition outcome {A W : Type} (x : res A * W * list event) : res A := fst (fst x).

Definition trace {A W : Type} (x : res A * W * list event) : list event := snd x.

(** The endpoint answers the request [body] made in world [w] with a
    response that passes the status check and whose body decodes to
    [result], leaving the world [w1]. *)
Definition answers (E : Env) (url body : string) (w : World E)
  (result : pyval) (w1 : World E) : Prop :=
  exists resp,
    requests_post E url body w = (Ok resp, w1) /\
    raise_for_status url resp = Ok tt /\
    json_body resp = Ok result.

(** The request [body] made in world [w] fails at transport level with the
    description [descr]: [requests.post] raises a [RequestException], or
    the response has a 4xx or 5xx status. *)
Definition transport_failure (E : Env) (url body : string) (w : World E)
  (descr : string) (w1 : World E) : Prop :=
  requests_post E url body w = (Raise (RequestException descr), w1) \/
  exists resp,
    requests_post E url body w = (Ok resp, w1) /\
    (400 <= status_code resp < 600)%Z /\
    raise_for_status url resp = Raise (RequestException descr).

(** [result] is the decoded body of some response of the endpoint. *)
Definition from_endpoint (E : Env) (result : pyval) : Prop :=
  exists url body w resp w1,
    requests_post E url body w = (Ok resp, w1) /\ json_body resp = Ok result.

(** [result["candidates"][0]["content"]["parts"][0]["text"]] is [v]. *)
Definition response_text (result v : pyval) : Prop :=
  (p <- first_part result ;; py_item p "text")%res = Ok v.

(** What a turn may return: a non-empty string, or the truthy [text] entry
    of a response of the endpoint. *)
Definition displayable (E : Env) (v : pyval) : Prop :=
  (exists s, v = PStr s /\ s <> "") \/
  (py_truthy v = true /\
   exists result, from_endpoint E result /\ response_text result v).

(** Every value [m] returns satisfies [Q]. *)
Definition yields {E : Env} {A : Type} (m : M E A) (Q : A -> Prop) : Prop :=
  forall w a w1 t, m w = (Ok a, w1, t) -> Q a.

(** [m] makes at most [p] requests and [f] fetches. *)
Definition bounded {E : Env} {A : Type} (m : M E A) (p f : nat) : Prop :=
  forall w, count_posts (trace (m w)) <= p /\ count_fetches (trace (m w)) <= f.

(* ----------------------------------------------------------------- *)
(** ** Notions used in the proofs about the decoder *)

(** The digits of an exponent, with the padding zero. *)
Definition exp_digits (e : Z) : uint :=
  if (Z.abs e <? 10)%Z then D0 (N.to_uint (Z.abs_N e)) else N.to_uint (Z.abs_N e).

(** The first character of a number. *)
Definition num_head (c : ascii) : bool := is_digit c || Ascii.eqb c "-".

(** A first character that is neither white space nor a closing bracket. *)
Definition value_head (c : ascii) : bool :=
  negb (is_ws c) && negb (Ascii.eqb c "]") && negb (Ascii.eqb c "}").

(** [s] is not empty and its first character satisfies [p]. *)
Definition starts_with (p : ascii -> bool) (s : string) : Prop :=
  exists c t, s = String c t /\ p c = true.

(** The decoder returns [canon v] on the text of [v], whatever follows. *)
Definition reads_back (v : pyval) : Prop :=
  forall fuel rest,
    size v <= fuel -> stopb rest = true ->
    scan_value fuel (json_dumps v ++ rest) = Some (canon v, rest).

(** The text of one member of a dict. *)
Definition member_text (kv : string * pyval) : string :=
  json_quote (fst kv) ++ ": " ++ json_dumps (snd kv).

(* ----------------------------------------------------------------- *)
(** ** The chat page, lines 28-46 and 194-209

    One rerun of the script: the warning for a missing key, the stored
    history, and the turn for the text typed in.  The page is recorded from
    line 28 on (the title of lines 25-27 holds a character outside the
    strings of this model); the spinner of line 204 is a transient
    indicator and is not recorded. *)

Definition AGENT_DESCRIPTION : string :=
  "A helpful stock market assistant that can fetch real-time stock prices.".

(** An entry of [st.session_state.messages]. *)
Record message : Type := {
  role : string;
  content : pyval
}.

(** What a chat message container holds. *)
Inductive item : Type :=
| ItemMarkdown (body : pyval)
| ItemInfo (msg : string)
| ItemError (msg : string).

(** What the page shows, from top to bottom. *)
Inductive widget : Type :=
| Warning (msg : string)
| Markdown (body : string)
| ChatMessage (name : string) (items : list item).

(** The outcome of one rerun: the exception that ended it, if any, the
    stored messages, the page, the world and the effects of the turn. *)
Record rerun (W : Type) : Type := {
  raised : option exn;
  messages : list message;
  page : list widget;
  world_after : W;
  effects : list event
}.
Arguments raised {W} r.
Arguments messages {W} r.
Arguments page {W} r.
Arguments world_after {W} r.
Arguments effects {W} r.

(** Lines 28-29 and 35-37. *)
Definition page_head (api_key : option string) : list widget :=
  ([Markdown ("*" ++ AGENT_DESCRIPTION ++ "*"); Markdown "---"] ++
   if key_missing api_key then
     [Warning "Gemini API Key not found. Please create a .env file with GOOGLE_API_KEY=your_api_key, or set it as an environment variable.";
      Markdown "Get your API key from [Google AI Studio](https://aistudio.google.com/app/apikey)"]
   else [])%list.

(** Lines 40-41: the stored messages, empty in a new session. *)
Definition stored (session : option (list message)) : list message :=
  match session with
  | None => []
  | Some ms => ms
  end.

(** Lines 45-46. *)
Definition show_message (m : message) : widget :=
  ChatMessage (role m) [ItemMarkdown (content m)].

(** The alerts [st.info] and [st.error] of a turn, which are drawn inside
    the assistant's container. *)
Fixpoint alerts (t : list event) : list item :=
  match t with
  | [] => []
  | EvInfo msg :: t' => ItemInfo msg :: alerts t'
  | EvError msg :: t' => ItemError msg :: alerts t'
  | _ :: t' => alerts t'
  end.

(** [if prompt := st.chat_input(...)]: the text typed in, when there is
    one and it is not empty. *)
Definition typed (input : option string) : option string :=
  match input with
  | None => None
  | Some prompt => if String.eqb prompt "" then None else Some prompt
  end.

(** One rerun of the script, with the credential of the environment,
    the session state and the chat input of this rerun. *)
Definition run_script (E : Env) (api_key : option string)
  (session : option (list message)) (input : option string) (w : World E)
  : rerun (World E) :=
  let history := stored session in
  let top := (page_head api_key ++ map show_message history)%list in
  match typed input with
  | None =>
      {| raised := None; messages := history; page := top;
         world_after := w; effects := [] |}
  | Some prompt =>
      let history1 := (history ++ [{| role := "user"; content := PStr prompt |}])%list in
      let shown := (top ++ [ChatMessage "user" [ItemMarkdown (PStr prompt)]])%list in
      match get_agent_response E prompt api_key w with
      | (Ok response, w1, t) =>
          {| raised := None;
             messages := (history1 ++ [{| role := "assistant"; content := response |}])%list;
             page := (shown ++ [ChatMessage "assistant"
                                  (alerts t ++ [ItemMarkdown response])])%list;
             world_after := w1; effects := t |}
      | (Raise e, w1, t) =>
          {| raised := Some e; messages := history1;
             page := (shown ++ [ChatMessage "assistant" (alerts t)])%list;
             world_after := w1; effects := t |}
      end
  end.

(** Successive reruns of one session; each rerun reads the credential and
    the chat input anew and starts from the messages the one before left. *)
Fixpoint run_session (E : Env) (session : option (list message))
  (reruns : list (option string * option string)) (w : World E)
  : option (list message) * World E :=
  match reruns with
  | [] => (session, w)
  | (api_key, input) :: rest =>
      let r := run_script E api_key session input w in
      run_session E (Some (messages r)) rest (world_after r)
  end.

(** The inputs of a list of reruns that start a turn. *)
Fixpoint turns (reruns : list (option string * option string)) : nat :=
  match reruns with
  | [] => 0
  | (_, input) :: rest =>
      match typed input with
      | Some _ => S (turns rest)
      | None => turns rest
      end
  end.

(** Messages that come in pairs: a user message, then an assistant
    message. *)
Fixpoint paired (ms : list message) : Prop :=
  match ms with
  | [] => True
  | u :: a :: rest => role u = "user" /\ role a = "assistant" /\ paired rest
  | _ => False
  end.

(* ----------------------------------------------------------------- *)
(** ** Values that [json.loads] gives back unchanged *)

Fixpoint distinct (l : list string) : bool :=
  match l with
  | [] => true
  | k :: l' => negb (existsb (String.eqb k) l') && distinct l'
  end.

Definition plain_float (f : pyfloat) : bool :=
  match f with
  | FFin _ _ Nil None => false
  | _ => true
  end.

(** Every dict has distinct keys and every finite float has a fraction or
    an exponent, as [repr] prints it. *)
Fixpoint plain (v : pyval) : bool :=
  match v with
  | PFloat f => plain_float f
  | PList l => forallb plain l
  | PDict d => distinct (map fst d) && forallb (fun kv => plain (snd kv)) d
  | _ => true
  end.

(* ----------------------------------------------------------------- *)
(** ** Responses without a first part *)

(** A response body that is a dict but lacks a first part: [candidates]
    is missing or falsy (an empty list, [null]); or the first candidate is a
    dict whose [content] is missing or falsy; or that content is a dict
    whose [parts] is missing or falsy. *)
Definition incomplete (result : pyval) : Prop :=
  exists r,
    result = PDict r /\
    (py_truthy (get_or_none r "candidates") = false \/
     exists c rest,
       dict_get r "candidates" = Some (PList (PDict c :: rest)) /\
       (py_truthy (get_or_none c "content") = false \/
        exists ct,
          dict_get c "content" = Some (PDict ct) /\ ct <> [] /\
          py_truthy (get_or_none ct "parts") = false)).

(* ================================================================= *)
(** * Part II: properties *)

(* ----------------------------------------------------------------- *)
(** ** Strings *)

Lemma append_assoc (a b c : string) : (a ++ b) ++ c = a ++ (b ++ c).
Proof.
  induction a as [|x a IH]; simpl; [reflexivity|]. now rewrite IH.
Qed.

Lemma append_nil_r (a : string) : a ++ "" = a.
Proof.
  induction a as [|x a IH]; simpl; [reflexivity|]. now rewrite IH.
Qed.

Lemma length_append (a b : string) :
  String.length (a ++ b) = String.length a + String.length b.
Proof.
  induction a as [|x a IH]; simpl; [reflexivity|]. now rewrite IH.
Qed.

(** Induction on values that reaches the elements of lists and dicts. *)
Lemma pyval_nested_ind (P : pyval -> Prop) :
  P PNone ->
  (forall b, P (PBool b)) ->
  (forall z, P (PInt z)) ->
  (forall f, P (PFloat f)) ->
  (forall s, P (PStr s)) ->
  (forall l, Forall P l -> P (PList l)) ->
  (forall d, Forall (fun kv => P (snd kv)) d -> P (PDict d)) ->
  forall v, P v.
Proof.
  intros HN HB HI HF HS HL HD.
  fix IH 1. intros [ | b | z | f | s | l | d ].
  - exact HN.
  - apply HB.
  - apply HI.
  - apply HF.
  - apply HS.
  - apply HL. induction l as [|x l IHl]; constructor; [apply IH | exact IHl].
  - apply HD. induction d as [|[k x] d IHd]; constructor; [apply IH | exact IHd].
Qed.

(* ----------------------------------------------------------------- *)
(** ** Decimal text read back *)

Lemma scan_digits_print (d : uint) (rest : string) :
  no_digit_head rest = true ->
  scan_digits (NilEmpty.string_of_uint d ++ rest) = (d, rest).
Proof.
  intros H. induction d; simpl; try (rewrite IHd; reflexivity).
  destruct rest as [|c r]; [reflexivity|].
  simpl in *. unfold is_digit in H. destruct (digit_of c); [discriminate|reflexivity].
Qed.

Lemma to_uint_nonnil (n : N) : N.to_uint n <> Nil.
Proof.
  destruct n; simpl; [discriminate|]. apply Unsigned.to_uint_nonnil.
Qed.

Lemma str_of_N_eq (n : N) : str_of_N n = NilEmpty.string_of_uint (N.to_uint n).
Proof.
  unfold str_of_N, NilZero.string_of_uint.
  pose proof (to_uint_nonnil n). destruct (N.to_uint n); congruence.
Qed.

Lemma pos_to_uint_head (p : positive) : forall d', Pos.to_uint p <> D0 d'.
Proof.
  intros d' H.
  pose proof (DecimalPos.Unsigned.to_of (Pos.to_uint p)) as T.
  rewrite DecimalPos.Unsigned.of_to in T. simpl in T.
  unfold unorm in T. rewrite H in T at 2.
  destruct (nzhead (D0 d')) eqn:Hz; try (rewrite H in T; discriminate T).
  - apply (DecimalPos.Unsigned.to_uint_nonzero p). exact T.
  - apply (nzhead_nonzero (D0 d') u). rewrite Hz. congruence.
Qed.

Lemma scan_int_nonzero (c : ascii) (t : string) :
  is_digit c = true -> Ascii.eqb c "0" = false ->
  scan_int (String c t)
  = let (u, r') := scan_digits (String c t) in Some (N.of_uint u, r').
Proof.
  intros H1 H2. unfold scan_int. rewrite H1, H2. reflexivity.
Qed.

Lemma scan_int_print (n : N) (rest : string) :
  no_digit_head rest = true ->
  scan_int (str_of_N n ++ rest) = Some (n, rest).
Proof.
  intros H. destruct n as [|p]; [reflexivity|].
  rewrite str_of_N_eq. simpl N.to_uint.
  pose proof (pos_to_uint_head p) as Hh.
  pose proof (DecimalPos.Unsigned.to_uint_nonnil p) as Hn.
  pose proof (scan_digits_print (Pos.to_uint p) rest H) as Hs.
  pose proof (DecimalPos.Unsigned.of_to p) as Ho.
  remember (Pos.to_uint p) as d eqn:Hd. clear Hd.
  destruct d; try congruence; try (exfalso; eapply Hh; reflexivity);
    cbn [NilEmpty.string_of_uint append] in *;
    (rewrite scan_int_nonzero by reflexivity);
    rewrite Hs; unfold N.of_uint; rewrite Ho; reflexivity.
Qed.

Lemma stop_no_digit (rest : string) : stopb rest = true -> no_digit_head rest = true.
Proof.
  destruct rest as [|c r]; [reflexivity|]. simpl. intros H.
  apply orb_true_iff in H. rewrite orb_true_iff in H.
  destruct H as [[H|H]|H]; apply Ascii.eqb_eq in H; subst; reflexivity.
Qed.

Lemma digit_not_minus (c : ascii) : is_digit c = true -> Ascii.eqb c "-" = false.
Proof.
  intros H. destruct (Ascii.eqb_spec c "-") as [->|]; [discriminate|reflexivity].
Qed.

Lemma uint_head (d : uint) :
  d <> Nil ->
  exists c t, NilEmpty.string_of_uint d = String c t /\ is_digit c = true.
Proof.
  destruct d; intros H; try congruence; simpl; do 2 eexists; split; reflexivity.
Qed.

Lemma str_of_N_head (n : N) :
  exists c t, str_of_N n = String c t /\ is_digit c = true.
Proof.
  rewrite str_of_N_eq. apply uint_head, to_uint_nonnil.
Qed.

Lemma scan_frac_print (fp : uint) (rest : string) :
  fp <> Nil -> no_digit_head rest = true ->
  scan_frac (String "." (NilEmpty.string_of_uint fp ++ rest)) = (fp, rest).
Proof.
  intros Hn Hr. pose proof (scan_digits_print fp rest Hr) as Hs.
  destruct (uint_head _ Hn) as (c & t & Ht & Hc).
  rewrite Ht in *. cbn [append] in *. unfold scan_frac. rewrite Hc. exact Hs.
Qed.

Lemma scan_frac_none (s : string) :
  match s with String c _ => Ascii.eqb c "." = false | EmptyString => True end ->
  scan_frac s = (Nil, s).
Proof.
  destruct s as [|c r]; [reflexivity|]. intros H. unfold scan_frac.
  destruct (Ascii.eqb_spec c "."); [discriminate|].
  destruct c as [[] [] [] [] [] [] [] []]; try reflexivity. congruence.
Qed.

Lemma scan_exp_none (rest : string) :
  stopb rest = true -> scan_exp rest = (None, rest).
Proof.
  destruct rest as [|c r]; [reflexivity|]. simpl stopb. intros H.
  apply orb_true_iff in H. rewrite orb_true_iff in H.
  destruct H as [[H|H]|H]; apply Ascii.eqb_eq in H; subst; reflexivity.
Qed.

Lemma scan_exp_digits_print (neg : bool) (u : uint) (rest whole : string) :
  u <> Nil -> no_digit_head rest = true ->
  scan_exp_digits neg (NilEmpty.string_of_uint u ++ rest) whole
  = (Some (if neg then (- Z.of_N (N.of_uint u))%Z else Z.of_N (N.of_uint u)), rest).
Proof.
  intros Hn Hr. pose proof (scan_digits_print u rest Hr) as Hs.
  destruct (uint_head _ Hn) as (c & t & Ht & Hc).
  rewrite Ht in *. cbn [append] in *. unfold scan_exp_digits.
  rewrite Hc, Hs. reflexivity.
Qed.

Lemma str_of_exp_eq (e : Z) :
  str_of_exp e
  = String (if (e <? 0)%Z then "-" else "+")%char (NilEmpty.string_of_uint (exp_digits e)).
Proof.
  unfold str_of_exp, exp_digits. rewrite str_of_N_eq.
  destruct (e <? 0)%Z; destruct (Z.abs e <? 10)%Z; reflexivity.
Qed.

Lemma exp_digits_value (e : Z) : N.of_uint (exp_digits e) = Z.abs_N e.
Proof.
  unfold exp_digits. destruct (Z.abs e <? 10)%Z.
  - change (N.of_uint (D0 (N.to_uint (Z.abs_N e)))) with (N.of_uint (N.to_uint (Z.abs_N e))).
    apply DecimalN.Unsigned.of_to.
  - apply DecimalN.Unsigned.of_to.
Qed.

Lemma exp_digits_nonnil (e : Z) : exp_digits e <> Nil.
Proof.
  unfold exp_digits. destruct (Z.abs e <? 10)%Z; [discriminate|apply to_uint_nonnil].
Qed.

Lemma scan_exp_print (e : Z) (rest : string) :
  no_digit_head rest = true ->
  scan_exp (String "e" (str_of_exp e ++ rest)) = (Some e, rest).
Proof.
  intros Hr. rewrite str_of_exp_eq. cbn [append]. unfold scan_exp.
  change (Ascii.eqb "e" "e" || Ascii.eqb "e" "E") with true. cbv iota.
  destruct (e <? 0)%Z eqn:He.
  - change (Ascii.eqb "-" "-") with true. cbv iota.
    rewrite scan_exp_digits_print by (auto using exp_digits_nonnil).
    rewrite exp_digits_value. do 2 f_equal.
    apply Z.ltb_lt in He. rewrite N2Z.inj_abs_N. lia.
  - change (Ascii.eqb "+" "-") with false. change (Ascii.eqb "+" "+") with true.
    cbv iota.
    rewrite scan_exp_digits_print by (auto using exp_digits_nonnil).
    rewrite exp_digits_value. do 2 f_equal.
    apply Z.ltb_ge in He. rewrite N2Z.inj_abs_N. lia.
Qed.

Lemma scan_number_signed (neg : bool) (body : string) :
  (exists c t, body = String c t /\ is_digit c = true) ->
  scan_number ((if neg then "-" else "") ++ body)
  = match scan_int body with
    | None => None
    | Some (ip, s2) =>
        let (fp, s3) := scan_frac s2 in
        let (ex, s4) := scan_exp s3 in
        match fp, ex with
        | Nil, None => Some (PInt (if neg then (- Z.of_N ip)%Z else Z.of_N ip), s4)
        | _, _ => Some (PFloat (FFin neg ip fp ex), s4)
        end
    end.
Proof.
  intros (c & t & -> & Hc). unfold scan_number. destruct neg.
  - reflexivity.
  - cbn [append eat]. rewrite (digit_not_minus _ Hc). reflexivity.
Qed.

Lemma str_of_Z_signed (z : Z) :
  str_of_Z z = (if (z <? 0)%Z then "-" else "") ++ str_of_N (Z.abs_N z).
Proof.
  destruct z; reflexivity.
Qed.

Lemma scan_number_int (z : Z) (rest : string) :
  stopb rest = true ->
  scan_number (str_of_Z z ++ rest) = Some (PInt z, rest).
Proof.
  intros Hr. rewrite str_of_Z_signed, append_assoc.
  rewrite scan_number_signed.
  - rewrite scan_int_print by auto using stop_no_digit.
    rewrite scan_frac_none.
    + rewrite scan_exp_none by assumption. do 3 f_equal.
      destruct (z <? 0)%Z eqn:Hz; rewrite N2Z.inj_abs_N;
        [apply Z.ltb_lt in Hz | apply Z.ltb_ge in Hz]; lia.
    + destruct rest as [|c r]; [exact I|]. simpl in Hr.
      apply orb_true_iff in Hr. rewrite orb_true_iff in Hr.
      destruct Hr as [[H|H]|H]; apply Ascii.eqb_eq in H; subst; reflexivity.
  - destruct (str_of_N_head (Z.abs_N z)) as (c & t & Ht & Hc).
    rewrite Ht. cbn [append]. eauto.
Qed.

Lemma scan_number_fin (neg : bool) (ip : N) (fp : uint) (ex : option Z) (rest : string) :
  stopb rest = true ->
  scan_number (str_of_fin neg ip fp ex ++ rest)
  = Some (PFloat (canon_float (FFin neg ip fp ex)), rest).
Proof.
  intros Hr. pose proof (stop_no_digit _ Hr) as Hd.
  unfold str_of_fin. rewrite !append_assoc.
  rewrite scan_number_signed.
  2:{ destruct (str_of_N_head ip) as (c & t & Ht & Hc).
      rewrite Ht. cbn [append]. eauto. }
  rewrite scan_int_print.
  2:{ destruct fp, ex; reflexivity. }
  assert (Hcase : fp = Nil \/ fp <> Nil) by (destruct fp; auto; right; discriminate).
  destruct Hcase as [->|Hn].
  - destruct ex as [e|].
    + rewrite scan_frac_none by reflexivity.
      cbn [append]. rewrite scan_exp_print by assumption. reflexivity.
    + change (".0" ++ rest) with (String "." (NilEmpty.string_of_uint (D0 Nil) ++ rest)).
      rewrite scan_frac_print by (auto; discriminate).
      rewrite scan_exp_none by assumption. reflexivity.
  - destruct ex as [e|].
    + replace (match fp with
               | Nil => "e" ++ str_of_exp e
               | _ => "." ++ NilEmpty.string_of_uint fp ++ "e" ++ str_of_exp e
               end) with ("." ++ NilEmpty.string_of_uint fp ++ "e" ++ str_of_exp e)
        by (destruct fp; try reflexivity; congruence).
      cbn [append]. rewrite !append_assoc. rewrite scan_frac_print by auto.
      cbn [append]. rewrite scan_exp_print by assumption.
      destruct fp; try reflexivity; congruence.
    + replace (match fp with
               | Nil => ".0"
               | _ => "." ++ NilEmpty.string_of_uint fp
               end) with ("." ++ NilEmpty.string_of_uint fp)
        by (destruct fp; try reflexivity; congruence).
      cbn [append]. rewrite scan_frac_print by auto.
      rewrite scan_exp_none by assumption.
      destruct fp; try reflexivity; congruence.
Qed.

(* ----------------------------------------------------------------- *)
(** ** Strings read back *)

Lemma scan_escape_char (c : ascii) (t : string) :
  scan_string (json_escape_char c ++ t) = cons_char c (scan_string t).
Proof.
  destruct c as [[] [] [] [] [] [] [] []]; reflexivity.
Qed.

Lemma scan_string_escape (s rest : string) :
  scan_string (json_escape s ++ String dq rest) = Some (s, rest).
Proof.
  induction s as [|c s IH]; [reflexivity|].
  cbn [json_escape]. rewrite append_assoc, scan_escape_char, IH. reflexivity.
Qed.

(* ----------------------------------------------------------------- *)
(** ** The first character of an encoded value *)

Lemma num_head_value (c : ascii) : num_head c = true -> value_head c = true.
Proof.
  destruct c as [[] [] [] [] [] [] [] []]; intros H; try discriminate H; reflexivity.
Qed.

Lemma starts_with_app (p : ascii -> bool) (s t : string) :
  starts_with p s -> starts_with p (s ++ t).
Proof.
  intros (c & u & -> & H). exists c, (u ++ t). split; [reflexivity|exact H].
Qed.

Lemma str_of_Z_head (z : Z) : starts_with num_head (str_of_Z z).
Proof.
  rewrite str_of_Z_signed. destruct (z <? 0)%Z.
  - do 2 eexists. split; reflexivity.
  - destruct (str_of_N_head (Z.abs_N z)) as (c & t & Ht & Hc).
    exists c, t. split; [exact Ht|]. unfold num_head. now rewrite Hc.
Qed.

Lemma str_of_fin_head neg ip fp ex : starts_with num_head (str_of_fin neg ip fp ex).
Proof.
  unfold str_of_fin. destruct neg.
  - do 2 eexists. split; reflexivity.
  - destruct (str_of_N_head ip) as (c & t & Ht & Hc).
    rewrite Ht. cbn [append]. do 2 eexists. split; [reflexivity|].
    unfold num_head. now rewrite Hc.
Qed.

Lemma dumps_head (v : pyval) : starts_with value_head (json_dumps v).
Proof.
  destruct v as [ | [] | z | [ | [] | neg ip fp ex] | s | l | d ];
    try (do 2 eexists; split; reflexivity).
  - destruct (str_of_Z_head z) as (c & t & Ht & Hc).
    exists c, t. split; [exact Ht|]. now apply num_head_value.
  - destruct (str_of_fin_head neg ip fp ex) as (c & t & Ht & Hc).
    exists c, t. split; [exact Ht|]. now apply num_head_value.
Qed.

Lemma skip_ws_head (s : string) : starts_with value_head s -> skip_ws s = s.
Proof.
  intros (c & t & -> & H). unfold value_head in H.
  apply andb_true_iff in H. destruct H as [H _].
  apply andb_true_iff in H. destruct H as [H _].
  apply negb_true_iff in H. simpl. now rewrite H.
Qed.

Lemma eat_close_head (s : string) :
  starts_with value_head s -> eat "]" s = None /\ eat "}" s = None.
Proof.
  intros (c & t & -> & H). unfold value_head in H.
  apply andb_true_iff in H. destruct H as [H H2].
  apply andb_true_iff in H. destruct H as [_ H1].
  apply negb_true_iff in H1, H2. simpl. now rewrite H1, H2.
Qed.

Lemma join_cons (sep x : string) (l : list string) :
  l <> [] -> join sep (x :: l) = x ++ sep ++ join sep l.
Proof.
  destruct l; [congruence|reflexivity].
Qed.

Lemma join_head (p : ascii -> bool) (sep : string) (l : list string) :
  l <> [] -> Forall (starts_with p) l -> starts_with p (join sep l).
Proof.
  intros Hn Hl. destruct Hl as [|x l Hx Hl]; [congruence|].
  destruct l as [|y l]; [exact Hx|].
  rewrite join_cons by discriminate. now apply starts_with_app.
Qed.

(* ----------------------------------------------------------------- *)
(** ** Atoms read back *)

Lemma scan_value_number (n : nat) (s : string) (x : pyval * string) :
  starts_with num_head s ->
  scan_number s = Some x ->
  scan_value (S n) s = Some x.
Proof.
  intros (c & t & -> & Hc) Hs.
  destruct c as [[] [] [] [] [] [] [] []]; try discriminate Hc;
    cbn -[scan_number]; rewrite Hs; reflexivity.
Qed.

Lemma scan_value_atom (v : pyval) (n : nat) (rest : string) :
  match v with PList _ | PDict _ => False | _ => True end ->
  stopb rest = true ->
  scan_value (S n) (json_dumps v ++ rest) = Some (canon v, rest).
Proof.
  intros Hv Hr.
  destruct v as [ | [] | z | [ | [] | neg ip fp ex] | s | l | d ];
    try contradiction; try reflexivity.
  - apply scan_value_number.
    + apply starts_with_app, str_of_Z_head.
    + now apply scan_number_int.
  - apply scan_value_number.
    + apply starts_with_app, str_of_fin_head.
    + now apply scan_number_fin.
  - cbn [json_dumps json_quote append scan_value].
    change (Ascii.eqb dq dq) with true. cbv iota.
    rewrite append_assoc. cbn [append]. rewrite scan_string_escape. reflexivity.
Qed.

(* ----------------------------------------------------------------- *)
(** ** Lists and dicts read back *)

Lemma skip_ws_space (x : string) : skip_ws (String " " x) = skip_ws x.
Proof. reflexivity. Qed.

Lemma skip_ws_comma (x : string) : skip_ws (String "," x) = String "," x.
Proof. reflexivity. Qed.

Lemma eat_comma (x : string) :
  eat "]" (String "," x) = None /\ eat "}" (String "," x) = None /\
  eat "," (String "," x) = Some x.
Proof. repeat split. Qed.

Lemma eat_bracket (x : string) : eat "]" (skip_ws (String "]" x)) = Some x.
Proof. reflexivity. Qed.

Lemma eat_brace (x : string) : eat "}" (skip_ws (String "}" x)) = Some x.
Proof. reflexivity. Qed.

Lemma eat_colon (x : string) : eat ":" (skip_ws (String ":" x)) = Some x.
Proof. reflexivity. Qed.

Lemma eat_dq (x : string) : eat dq (String dq x) = Some x.
Proof. reflexivity. Qed.

Lemma joined_head (A : Type) (f : A -> string) (l : list A) (rest : string) :
  (forall x, starts_with value_head (f x)) -> l <> [] ->
  starts_with value_head (join ", " (map f l) ++ rest).
Proof.
  intros Hf Hl. apply starts_with_app, join_head.
  - destruct l; [congruence|discriminate].
  - apply Forall_forall. intros x Hx. apply in_map_iff in Hx.
    destruct Hx as (y & <- & _). apply Hf.
Qed.

Lemma scan_elems_dumps (l : list pyval) :
  Forall reads_back l -> l <> [] ->
  forall fuel rest,
    fold_right (fun x acc => S (size x + acc)) 0 l <= fuel ->
    scan_elems fuel (join ", " (map json_dumps l) ++ String "]" rest)
    = Some (map canon l, rest).
Proof.
  induction 1 as [|v l Hv Hl IH]; [congruence|]. intros _ fuel rest Hf.
  cbn [fold_right] in Hf. destruct fuel as [|n]; [lia|].
  cbn [map]. destruct l as [|v2 l].
  - cbn [join map scan_elems].
    rewrite Hv by (try reflexivity; cbn [fold_right] in Hf; lia).
    rewrite eat_bracket. reflexivity.
  - rewrite join_cons by discriminate. rewrite !append_assoc.
    cbn [scan_elems].
    change (", " ++ ?x) with (String "," (String " " x)).
    rewrite Hv by (try reflexivity; lia).
    rewrite skip_ws_comma.
    destruct (eat_comma (String " "
                (join ", " (map json_dumps (v2 :: l)) ++ String "]" rest)))
      as (-> & _ & ->).
    rewrite skip_ws_space.
    rewrite skip_ws_head by (apply joined_head; [apply dumps_head|discriminate]).
    rewrite IH by (try discriminate; lia). reflexivity.
Qed.

Lemma member_head (kv : string * pyval) : starts_with value_head (member_text kv).
Proof.
  do 2 eexists. split; reflexivity.
Qed.

Lemma scan_member (k : string) (v : pyval) (n : nat) (tail : string) :
  reads_back v -> size v <= n -> stopb tail = true ->
  exists r,
    eat dq (member_text (k, v) ++ tail) = Some r /\
    exists r1,
      scan_string r = Some (k, r1) /\
      exists r2,
        eat ":" (skip_ws r1) = Some r2 /\
        scan_value n (skip_ws r2) = Some (canon v, tail).
Proof.
  intros Hv Hn Ht. unfold member_text, json_quote. cbn [fst snd].
  rewrite !append_assoc. cbn [append]. rewrite ?append_assoc. cbn [append].
  eexists. split; [apply eat_dq|].
  eexists. split; [apply scan_string_escape|].
  eexists. split; [apply eat_colon|].
  rewrite skip_ws_space.
  rewrite skip_ws_head by apply starts_with_app, dumps_head.
  now apply Hv.
Qed.

Lemma scan_members_dumps (d : list (string * pyval)) :
  Forall (fun kv => reads_back (snd kv)) d -> d <> [] ->
  forall fuel rest,
    fold_right (fun kv acc => S (size (snd kv) + acc)) 0 d <= fuel ->
    scan_members fuel (join ", " (map member_text d) ++ String "}" rest)
    = Some (map (fun kv => (fst kv, canon (snd kv))) d, rest).
Proof.
  induction 1 as [|[k v] d Hv Hd IH]; [congruence|]. intros _ fuel rest Hf.
  cbn [fold_right snd] in Hf. cbn [snd] in Hv. destruct fuel as [|n]; [lia|].
  cbn [map fst snd].
  destruct d as [|kv2 d].
  - cbn [join map].
    destruct (scan_member k v n (String "}" rest) Hv)
      as (r & Hr & r1 & Hr1 & r2 & Hr2 & Hs); [lia|reflexivity|].
    cbn [scan_members]. rewrite Hr, Hr1, Hr2, Hs.
    rewrite eat_brace. reflexivity.
  - rewrite join_cons by discriminate. rewrite !append_assoc.
    change (", " ++ ?x) with (String "," (String " " x)).
    destruct (scan_member k v n (String "," (String " "
                (join ", " (map member_text (kv2 :: d)) ++ String "}" rest))) Hv)
      as (r & Hr & r1 & Hr1 & r2 & Hr2 & Hs); [lia|reflexivity|].
    cbn [scan_members].
    rewrite Hr, Hr1, Hr2, Hs.
    rewrite skip_ws_comma.
    destruct (eat_comma (String " "
                (join ", " (map member_text (kv2 :: d)) ++ String "}" rest)))
      as (_ & -> & ->).
    rewrite skip_ws_space.
    rewrite skip_ws_head by (apply joined_head; [apply member_head|discriminate]).
    rewrite IH by (try discriminate; lia). reflexivity.
Qed.

Lemma scan_value_dumps (v : pyval) : reads_back v.
Proof.
  induction v as [ | b | z | f | s | l Hl | d Hd ] using pyval_nested_ind;
    intros fuel rest Hf Hr;
    try (destruct fuel as [|n]; [simpl in Hf; lia|];
         apply scan_value_atom; [exact I|exact Hr]).
  - cbn [size] in Hf. destruct fuel as [|n]; [lia|].
    cbn [json_dumps canon]. rewrite !append_assoc. cbn [append scan_value].
    change (Ascii.eqb "[" dq) with false. change (Ascii.eqb "[" "{") with false.
    change (Ascii.eqb "[" "[") with true. cbv iota.
    destruct l as [|v l]; [reflexivity|].
    change ("]" ++ rest) with (String "]" rest).
    assert (Hh : starts_with value_head
                   (join ", " (map json_dumps (v :: l)) ++ String "]" rest))
      by (apply joined_head; [apply dumps_head|discriminate]).
    rewrite skip_ws_head by exact Hh.
    destruct (eat_close_head _ Hh) as [-> _].
    rewrite scan_elems_dumps by (try exact Hl; try discriminate; lia).
    reflexivity.
  - cbn [size] in Hf. destruct fuel as [|n]; [lia|].
    cbn [json_dumps canon].
    change (fun kv0 : string * pyval => json_quote (fst kv0) ++ ": " ++ json_dumps (snd kv0))
      with member_text.
    rewrite !append_assoc. cbn [append scan_value].
    change (Ascii.eqb "{" dq) with false. change (Ascii.eqb "{" "{") with true.
    cbv iota.
    destruct d as [|kv d]; [reflexivity|].
    change ("}" ++ rest) with (String "}" rest).
    assert (Hh : starts_with value_head
                   (join ", " (map member_text (kv :: d)) ++ String "}" rest))
      by (apply joined_head; [apply member_head|discriminate]).
    rewrite skip_ws_head by exact Hh.
    destruct (eat_close_head _ Hh) as [_ ->].
    rewrite scan_members_dumps by (try exact Hd; try discriminate; lia).
    reflexivity.
Qed.

(* ----------------------------------------------------------------- *)
(** ** [json.loads] after [json.dumps] *)

Lemma fold_le_join (A : Type) (sz : A -> nat) (txt : A -> string) (l : list A) :
  Forall (fun x => sz x <= String.length (txt x)) l ->
  fold_right (fun x acc => S (sz x + acc)) 0 l
  <= S (String.length (join ", " (map txt l))).
Proof.
  induction 1 as [|x l Hx Hl IH]; [simpl; lia|].
  destruct l as [|y l].
  - cbn [join fold_right map]. lia.
  - change (map txt (x :: y :: l)) with (txt x :: map txt (y :: l)).
    rewrite join_cons by discriminate. rewrite !length_append.
    change (String.length ", ") with 2.
    change (fold_right (fun x acc => S (sz x + acc)) 0 (x :: y :: l))
      with (S (sz x + fold_right (fun x acc => S (sz x + acc)) 0 (y :: l))).
    lia.
Qed.

Lemma size_le_length (v : pyval) : size v <= String.length (json_dumps v).
Proof.
  induction v as [ | b | z | f | s | l Hl | d Hd ] using pyval_nested_ind;
    try (match goal with
         | |- size ?v <= _ =>
             destruct (dumps_head v) as (c & t & -> & _); simpl; lia
         end).
  - cbn [size json_dumps]. rewrite !length_append.
    pose proof (fold_le_join _ size json_dumps _ Hl).
    change (String.length "[") with 1. change (String.length "]") with 1. lia.
  - cbn [size json_dumps]. rewrite !length_append.
    change (fun kv : string * pyval => json_quote (fst kv) ++ ": " ++ json_dumps (snd kv))
      with member_text.
    assert (Hm : Forall (fun kv => size (snd kv) <= String.length (member_text kv)) d).
    { eapply Forall_impl; [|exact Hd]. intros [k v] H. unfold member_text.
      cbn [fst snd] in *. rewrite !length_append. lia. }
    pose proof (fold_le_join _ (fun kv => size (snd kv)) member_text _ Hm).
    change (String.length "{") with 1. change (String.length "}") with 1. lia.
Qed.

(** [json.loads(json.dumps(v))] never raises and returns [canon v]. *)
Lemma loads_dumps (v : pyval) : json_loads (json_dumps v) = Ok (canon v).
Proof.
  unfold json_loads.
  rewrite skip_ws_head by apply dumps_head.
  pose proof (scan_value_dumps v (S (String.length (json_dumps v))) "") as H.
  rewrite append_nil_r in H. rewrite H; [reflexivity| |reflexivity].
  pose proof (size_le_length v). lia.
Qed.

(* ----------------------------------------------------------------- *)
(** ** [get_stock_info] *)

Lemma get_stock_info_run (E : Env) (ticker : pyval) (w : World E) :
  get_stock_info E ticker w
  = (Ok (json_dumps (stock_result E ticker (fst (yf_info E ticker w)))),
     snd (yf_info E ticker w), [EvFetch ticker]).
Proof.
  unfold get_stock_info, try_except, bind, ticker_info, stock_result.
  destruct (yf_info E ticker w) as [[info|e] w']; cbn [fst snd]; [|reflexivity].
  destruct (py_truthy info); cbn [negb]; [|reflexivity].
  unfold lift, ret. destruct (quote_record E ticker info); reflexivity.
Qed.

Lemma quote_record_ok (E : Env) (ticker info data : pyval) :
  quote_record E ticker info = Ok data ->
  exists t d, ticker = PStr t /\ info = PDict d /\ data = quote_of E t d.
Proof.
  destruct ticker; try discriminate. destruct info; try discriminate.
  intros [= <-]. eauto.
Qed.

Lemma quote_record_str_dict (E : Env) (t : string) (d : list (string * pyval)) :
  quote_record E (PStr t) (PDict d) = Ok (quote_of E t d).
Proof. reflexivity. Qed.

Lemma canon_quote_keys (E : Env) (t : string) (d : list (string * pyval)) :
  exists q, canon (quote_of E t d) = PDict q /\ dict_keys q = quote_fields /\
            q = map (fun kv => (fst kv, canon (snd kv)))
                    match quote_of E t d with PDict l => l | _ => [] end.
Proof.
  eexists. split; [|split]; reflexivity.
Qed.

(** C5. When the ticker is a string and the provider returns a non-empty
    mapping, [get_stock_info] serialises a record with exactly the eleven
    fields ticker, longName, currency, exchange, currentPrice,
    previousClose, open, dayHigh, dayLow, volume and marketCap:
    [currentPrice] is the provider's [currentPrice], else its
    [regularMarketPrice], else ["N/A"]; every other provider field is the
    provider's value, else ["N/A"]; and the text decodes to a dict with the
    same eleven keys. *)
Theorem C5_quote_record_complete
  (E : Env) (t : string) (d : list (string * pyval)) (w w' : World E) :
  d <> [] ->
  yf_info E (PStr t) w = (Ok (PDict d), w') ->
  exists q rec,
    get_stock_info E (PStr t) w
    = (Ok (json_dumps (PDict q)), w', [EvFetch (PStr t)]) /\
    dict_keys q = quote_fields /\
    dict_get q "ticker" = Some (PStr (str_upper E t)) /\
    dict_get q "currentPrice"
    = Some match dict_get d "currentPrice" with
           | Some x => x
           | None =>
               match dict_get d "regularMarketPrice" with
               | Some x => x
               | None => PStr "N/A"
               end
           end /\
    (forall k,
        In k ["longName"; "currency"; "exchange"; "previousClose"; "open";
              "dayHigh"; "dayLow"; "volume"; "marketCap"] ->
        dict_get q k
        = Some match dict_get d k with Some x => x | None => PStr "N/A" end) /\
    json_loads (json_dumps (PDict q)) = Ok (PDict rec) /\
    dict_keys rec = quote_fields.
Proof.
  intros Hd Hy.
  destruct (canon_quote_keys E t d) as (rec & Hc & Hk & _).
  eexists _, rec. split; [|split; [|split; [|split; [|split; [|split]]]]].
  - rewrite get_stock_info_run, Hy. cbn [fst snd stock_result].
    destruct d as [|kv d]; [congruence|]. cbn [py_truthy negb].
    rewrite quote_record_str_dict. reflexivity.
  - reflexivity.
  - reflexivity.
  - reflexivity.
  - intros k Hin. cbn [In] in Hin.
    repeat (destruct Hin as [<-|Hin]; [reflexivity|]). contradiction.
  - rewrite loads_dumps. exact (f_equal Ok Hc).
  - exact Hk.
Qed.

Lemma C5_witness :
  exists q,
    get_stock_info (scripted aapl_provider) (PStr "AAPL") []
    = (Ok (json_dumps (PDict q)), [], [EvFetch (PStr "AAPL")]) /\
    dict_keys q = quote_fields /\
    dict_get q "currentPrice" = Some (PFloat (FFin false 189 (D5 Nil) None)) /\
    dict_get q "exchange" = Some (PStr "N/A").
Proof.
  destruct (C5_quote_record_complete (scripted aapl_provider) "AAPL"
              [("longName", PStr "Apple Inc."); ("currency", PStr "USD");
               ("regularMarketPrice", PFloat (FFin false 189 (D5 Nil) None));
               ("volume", PInt 51234000)] [] [])
    as (q & rec & H1 & H2 & _ & H4 & H5 & _).
  - discriminate.
  - reflexivity.
  - exists q. split; [exact H1|]. split; [exact H2|]. split; [exact H4|].
    apply (H5 "exchange"). simpl. tauto.
Defined.

(** C6. When the provider returns no usable data (a falsy [info]),
    [get_stock_info] returns the error record whose message is
    "Could not find information for ticker: <T>. Please check the symbol.";
    when the fetch raises, it returns the error record whose message embeds
    the ticker and [str(e)].  In both cases nothing is raised, the text
    decodes to that error record, and the ticker text occurs in the
    message. *)
Theorem C6_error_results (E : Env) (ticker : pyval) (w w' : World E) :
  (forall info,
      yf_info E ticker w = (Ok info, w') -> py_truthy info = false ->
      let msg := "Could not find information for ticker: " ++ py_str ticker ++
                 ". Please check the symbol." in
      get_stock_info E ticker w
      = (Ok (json_dumps (PDict [("error", PStr msg)])), w', [EvFetch ticker]) /\
      json_loads (json_dumps (PDict [("error", PStr msg)]))
      = Ok (PDict [("error", PStr msg)]) /\
      occurs_in (py_str ticker) msg) /\
  (forall e,
      yf_info E ticker w = (Raise e, w') ->
      let msg := "An error occurred while fetching data for " ++ py_str ticker ++
                 ": " ++ exn_str e in
      get_stock_info E ticker w
      = (Ok (json_dumps (PDict [("error", PStr msg)])), w', [EvFetch ticker]) /\
      json_loads (json_dumps (PDict [("error", PStr msg)]))
      = Ok (PDict [("error", PStr msg)]) /\
      occurs_in (py_str ticker) msg /\ occurs_in (exn_str e) msg).
Proof.
  split.
  - intros info Hy Ht msg. split; [|split].
    + rewrite get_stock_info_run, Hy. cbn [fst snd stock_result].
      rewrite Ht. reflexivity.
    + rewrite loads_dumps. reflexivity.
    + eexists _, _. reflexivity.
  - intros e Hy msg. split; [|split; [|split]].
    + rewrite get_stock_info_run, Hy. reflexivity.
    + rewrite loads_dumps. reflexivity.
    + eexists _, _. reflexivity.
    + exists ("An error occurred while fetching data for " ++ py_str ticker ++ ": "), "".
      subst msg. rewrite append_nil_r, !append_assoc. reflexivity.
Qed.

Lemma C6_witness :
  get_stock_info (scripted aapl_provider) (PStr "ZZZZ") []
  = (Ok (json_dumps (PDict [("error",
           PStr "Could not find information for ticker: ZZZZ. Please check the symbol.")])),
     [], [EvFetch (PStr "ZZZZ")]) /\
  get_stock_info (scripted (fun _ => Raise (OtherException "HTTP Error 404: "))) (PStr "ZZZZ") []
  = (Ok (json_dumps (PDict [("error",
           PStr "An error occurred while fetching data for ZZZZ: HTTP Error 404: ")])),
     [], [EvFetch (PStr "ZZZZ")]).
Proof.
  split.
  - apply (proj1 (C6_error_results (scripted aapl_provider) (PStr "ZZZZ") [] [])
             (PDict [])); reflexivity.
  - apply (proj2 (C6_error_results
                    (scripted (fun _ => Raise (OtherException "HTTP Error 404: ")))
                    (PStr "ZZZZ") [] [])
             (OtherException "HTTP Error 404: ")); reflexivity.
Defined.

(** C10. For every ticker value ([None] included) and every behaviour of
    the provider, [get_stock_info] returns, without raising, a text that
    [json.loads] decodes to a dict whose keys are either the eleven quote
    fields or the single key [error]; so the [json.loads] of the
    orchestrator never raises on it. *)
Theorem C10_tool_output_is_json (E : Env) (ticker : pyval) (w : World E) :
  exists out w' rec,
    get_stock_info E ticker w = (Ok out, w', [EvFetch ticker]) /\
    json_loads out = Ok (PDict rec) /\
    (dict_keys rec = quote_fields \/ dict_keys rec = ["error"]).
Proof.
  rewrite get_stock_info_run.
  destruct (yf_info E ticker w) as [[info|e] w']; cbn [fst snd stock_result].
  - destruct (py_truthy info); cbn [negb].
    + destruct (quote_record E ticker info) as [data|e] eqn:Hq.
      * apply quote_record_ok in Hq. destruct Hq as (t & d & -> & -> & ->).
        destruct (canon_quote_keys E t d) as (rec & Hc & Hk & _).
        eexists _, _, rec. split; [reflexivity|]. split; [|left; exact Hk].
        rewrite loads_dumps. exact (f_equal Ok Hc).
      * eexists _, _, _. split; [reflexivity|]. split; [rewrite loads_dumps; reflexivity|].
        right. reflexivity.
    + eexists _, _, _. split; [reflexivity|]. split; [rewrite loads_dumps; reflexivity|].
      right. reflexivity.
  - eexists _, _, _. split; [reflexivity|]. split; [rewrite loads_dumps; reflexivity|].
    right. reflexivity.
Qed.

(* ----------------------------------------------------------------- *)
(** ** Responses of the interface's shape *)

Lemma first_part_shape (result : pyval) (part : list (string * pyval)) :
  first_part_dict result = Some part -> first_part result = Ok (PDict part).
Proof.
  unfold first_part_dict, first_part. intros H.
  repeat match type of H with
         | match ?x with _ => _ end = Some _ => destruct x eqn:?; try discriminate H
         end.
  injection H as <-. cbn [py_item res_bind]. rewrite Heqo.
  cbn [py_first res_bind py_item]. rewrite Heqo0.
  cbn [res_bind py_item]. rewrite Heqo1. reflexivity.
Qed.

Lemma part_field_shape (result : pyval) (part : list (string * pyval)) (f : string) :
  first_part_dict result = Some part ->
  part_field result f = Ok (get_or_none part f).
Proof.
  intros H. pose proof (first_part_shape _ _ H) as Hp.
  unfold part_field. rewrite Hp. unfold first_part_dict in H.
  repeat match type of H with
         | match ?x with _ => _ end = Some _ => destruct x eqn:?; try discriminate H
         end.
  injection H as <-. cbn [py_get py_item res_bind]. rewrite Heqo.
  cbn [py_truthy negb py_first res_bind py_get py_item]. rewrite Heqo0.
  assert (Hne : d1 <> []) by (intros ->; discriminate Heqo1).
  destruct d1 as [|kv d1]; [congruence|].
  cbn [py_truthy negb res_bind py_get py_item]. rewrite Heqo1.
  cbn [py_truthy negb res_bind py_get]. reflexivity.
Qed.

(** When the condition of lines 132-134 (169-171, 179-181) holds, the
    subscript chain of the next line returns the value of the condition. *)
Lemma part_field_truthy (result : pyval) (f : string) (v : pyval) :
  part_field result f = Ok v -> py_truthy v = true ->
  (p <- first_part result ;; py_item p f)%res = Ok v.
Proof.
  unfold part_field. intros H Hv.
  repeat match type of H with
         | res_bind ?m _ = Ok _ =>
             destruct m as [?x|?e] eqn:?; cbn [res_bind] in H; [|discriminate H]
         | (if negb (py_truthy ?a) then _ else _) = Ok _ =>
             destruct (py_truthy a) eqn:?; cbn [negb] in H;
             [|injection H as ->; congruence]
         end.
  cbn [res_bind].
  match type of H with
  | py_get ?p _ _ = Ok _ => destruct p as [ | | | | | |d]; try discriminate H
  end.
  cbn [py_get] in H. injection H as <-. cbn [py_item].
  destruct (dict_get d f); [reflexivity|discriminate Hv].
Qed.

(* ----------------------------------------------------------------- *)
(** ** Running a turn *)

Lemma completion_ok (E : Env) (url : string) (payload : pyval)
  (w w1 : World E) (result : pyval) :
  answers E url (json_dumps payload) w result w1 ->
  completion E url payload w = (Ok result, w1, [EvPost url (json_dumps payload)]).
Proof.
  intros (resp & Hp & Hs & Hj). unfold completion, bind, post, lift.
  rewrite Hp, Hs, Hj. reflexivity.
Qed.

Lemma completion_failure (E : Env) (url : string) (payload : pyval)
  (w w1 : World E) (descr : string) :
  transport_failure E url (json_dumps payload) w descr w1 ->
  completion E url payload w
  = (Raise (RequestException descr), w1, [EvPost url (json_dumps payload)]).
Proof.
  intros [Hp|(resp & Hp & _ & Hs)]; unfold completion, bind, post, lift.
  - rewrite Hp. reflexivity.
  - rewrite Hp, Hs. reflexivity.
Qed.

(** A completion call leaves exactly its request in the trace. *)
Lemma completion_trace (E : Env) (url : string) (payload : pyval) (w : World E) :
  trace (completion E url payload w) = [EvPost url (json_dumps payload)].
Proof.
  unfold completion, bind, post, lift, trace.
  destruct (requests_post E url (json_dumps payload) w) as [[resp|e] w1];
    [|reflexivity].
  destruct (raise_for_status url resp); [|reflexivity].
  destruct (json_body resp); reflexivity.
Qed.

(** The two answer steps touch neither the world nor the trace. *)
Lemma final_answer_pure (E : Env) (result : pyval) (w : World E) :
  exists r, final_answer E result w = (r, w, []).
Proof.
  unfold final_answer, bind, lift, ret.
  destruct (part_field result "text") as [text|e]; [|eauto].
  destruct (py_truthy text); eauto.
Qed.

Lemma direct_answer_pure (E : Env) (result : pyval) (w : World E) :
  exists r, direct_answer E result w = (r, w, []).
Proof.
  unfold direct_answer, bind, lift, ret.
  destruct (part_field result "text") as [text|e]; [|eauto].
  destruct (py_truthy text); eauto.
Qed.

Lemma bind_ok (E : Env) (A B : Type) (m : M E A) (k : A -> M E B)
  (w w1 : World E) (a : A) (t1 : list event) :
  m w = (Ok a, w1, t1) ->
  bind m k w = let '(r, w2, t2) := k a w1 in (r, w2, (t1 ++ t2)%list).
Proof.
  intros H. unfold bind. rewrite H. reflexivity.
Qed.

Lemma bind_raise (E : Env) (A B : Type) (m : M E A) (k : A -> M E B)
  (w w1 : World E) (e : exn) (t1 : list event) :
  m w = (Raise e, w1, t1) -> bind m k w = (Raise e, w1, t1).
Proof.
  intros H. unfold bind. rewrite H. reflexivity.
Qed.

Lemma bind_lift (E : Env) (A B : Type) (r : res A) (k : A -> M E B) (w : World E) :
  bind (lift r) k w
  = match r with
    | Ok a => k a w
    | Raise e => (Raise e, w, [])
    end.
Proof.
  unfold bind, lift. destruct r as [a|e]; [|reflexivity].
  destruct (k a w) as [[r w2] t2]. reflexivity.
Qed.

Lemma bind_info (E : Env) (B : Type) (msg : string) (k : unit -> M E B) (w : World E) :
  bind (st_info E msg) k w
  = let '(r, w2, t2) := k tt w in (r, w2, EvInfo msg :: t2).
Proof. reflexivity. Qed.

(** The first round when the response asks for a tool. *)
Lemma first_round_tool_request (E : Env) (prompt url : string) (w w1 : World E)
  (result : pyval) (part fc : list (string * pyval)) (name args : pyval) :
  answers E url (first_body prompt) w result w1 ->
  first_part_dict result = Some part ->
  dict_get part "functionCall" = Some (PDict fc) ->
  dict_get fc "name" = Some name ->
  dict_get fc "args" = Some args ->
  first_round E prompt url w
  = if py_eq_str name "get_stock_info" then
      let '(r, w2, t) :=
        tool_round E url [user_entry AGENT_INSTRUCTION; user_entry prompt]
                   (PDict fc) args w1 in
      (r, w2, EvPost url (first_body prompt) :: t)
    else (Ok (PStr (unknown_function_reply name)), w1, [EvPost url (first_body prompt)]).
Proof.
  intros Ha Hp Hfc Hn Hargs.
  pose proof (completion_ok E url
                (make_payload [user_entry AGENT_INSTRUCTION; user_entry prompt])
                w w1 result Ha) as Hc.
  unfold first_round. cbv zeta. rewrite (bind_ok _ _ _ _ _ _ _ _ _ Hc).
  rewrite bind_lift, (part_field_shape _ _ _ Hp).
  unfold get_or_none. rewrite Hfc.
  assert (Ht : py_truthy (PDict fc) = true)
    by (destruct fc; [discriminate Hn|reflexivity]).
  rewrite Ht.
  rewrite bind_lift, (first_part_shape _ _ Hp).
  cbn [res_bind py_item]. rewrite Hfc.
  rewrite bind_lift. cbn [py_item]. rewrite Hn.
  rewrite bind_lift. cbn [py_item]. rewrite Hargs.
  unfold ret.
  destruct (py_eq_str name "get_stock_info"); [|reflexivity].
  destruct (tool_round E url _ (PDict fc) args w1) as [[r w2] t]. reflexivity.
Qed.

(** The tool round when the arguments are a dict. *)
Lemma tool_round_run (E : Env) (prompt url : string) (fc : pyval)
  (a : list (string * pyval)) (w1 : World E) :
  let T := get_or_none a "ticker" in
  let parsed := canon (stock_result E T (fst (yf_info E T w1))) in
  tool_round E url [user_entry AGENT_INSTRUCTION; user_entry prompt] fc (PDict a) w1
  = let '(r, w3, t) :=
      bind (completion E url
              (make_payload [user_entry AGENT_INSTRUCTION; user_entry prompt;
                             model_entry fc; function_entry parsed]))
           (final_answer E) (snd (yf_info E T w1)) in
    (r, w3, EvInfo ("Agent wants to fetch stock info for: " ++ py_str T)
              :: EvFetch T :: t).
Proof.
  intros T parsed. unfold tool_round. cbv zeta.
  rewrite bind_lift. cbn [py_get]. fold (get_or_none a "ticker"). fold T.
  rewrite bind_info, bind_lift.
  rewrite (bind_ok _ _ _ _ _ _ _ _ _ (get_stock_info_run E T w1)).
  rewrite bind_lift, loads_dumps. fold parsed. cbn [app].
  destruct (bind _ (final_answer E) (snd (yf_info E T w1))) as [[r w3] t].
  reflexivity.
Qed.

(** What the two [except] clauses make of the outcome of the [try]. *)
Lemma handled (E : Env) (m : M E pyval) (w w1 : World E)
  (r : res pyval) (t : list event) :
  m w = (r, w1, t) ->
  try_except m (on_exception E) w
  = match r with
    | Ok v => (Ok v, w1, t)
    | Raise e =>
        if is_request_exception e then
          (Ok (PStr (technical_issue_reply e)), w1,
           (t ++ [EvError ("Error communicating with the Gemini API: " ++ exn_str e)])%list)
        else
          (Ok (PStr unexpected_reply), w1,
           (t ++ [EvError ("An unexpected error occurred: " ++ exn_str e)])%list)
    end.
Proof.
  intros H. unfold try_except. rewrite H. destruct r as [v|e]; [reflexivity|].
  unfold on_exception. destruct (is_request_exception e); reflexivity.
Qed.

Lemma py_eq_str_false (v : pyval) (s : string) :
  v <> PStr s -> py_eq_str v s = false.
Proof.
  intros H. destruct v; try reflexivity. simpl.
  destruct (String.eqb_spec s0 s); [subst; congruence|reflexivity].
Qed.

(** C7. Without a credential ([None] or the empty string) the turn returns
    the explanatory string as a normal value, with no request and no
    fetch: the world is untouched and the trace is empty. *)
Theorem C7_missing_credential (E : Env) (prompt : string) (w : World E) :
  get_agent_response E prompt None w
  = (Ok (PStr "Gemini API Key is missing. Please provide it to use the assistant."),
     w, []) /\
  get_agent_response E prompt (Some "") w
  = (Ok (PStr "Gemini API Key is missing. Please provide it to use the assistant."),
     w, []) /\
  "Gemini API Key is missing. Please provide it to use the assistant." <> "".
Proof.
  repeat split. discriminate.
Qed.

(** The first round when the function call has a name and no [args]:
    the subscript of line 138 raises. *)
Lemma first_round_no_args (E : Env) (prompt url : string) (w w1 : World E)
  (result : pyval) (part fc : list (string * pyval)) (name : pyval) :
  answers E url (first_body prompt) w result w1 ->
  first_part_dict result = Some part ->
  dict_get part "functionCall" = Some (PDict fc) ->
  dict_get fc "name" = Some name ->
  dict_get fc "args" = None ->
  first_round E prompt url w
  = (Raise (KeyError "'args'"), w1, [EvPost url (first_body prompt)]).
Proof.
  intros Ha Hp Hfc Hn Hargs.
  pose proof (completion_ok E url
                (make_payload [user_entry AGENT_INSTRUCTION; user_entry prompt])
                w w1 result Ha) as Hc.
  unfold first_round. cbv zeta. rewrite (bind_ok _ _ _ _ _ _ _ _ _ Hc).
  rewrite bind_lift, (part_field_shape _ _ _ Hp).
  unfold get_or_none. rewrite Hfc.
  assert (Ht : py_truthy (PDict fc) = true)
    by (destruct fc; [discriminate Hn|reflexivity]).
  rewrite Ht.
  rewrite bind_lift, (first_part_shape _ _ Hp).
  cbn [res_bind py_item]. rewrite Hfc.
  rewrite bind_lift. cbn [py_item]. rewrite Hn.
  rewrite bind_lift. cbn [py_item]. rewrite Hargs. reflexivity.
Qed.

(** C3. When the first part of the first response is a [functionCall]
    whose [name] is not [get_stock_info], [get_stock_info] is never
    called: the turn makes the first request and nothing else, no fetch
    and no second request.  When the call carries [args], the turn returns
    the string that names the unknown function and the first request is
    its only effect; when it carries none, line 138 raises before the name
    is looked at and the turn returns "An unexpected error occurred."
    instead. *)
Theorem C3_unknown_tool (E : Env) (prompt : string) (key : option string)
  (w w1 : World E) (result : pyval) (part fc : list (string * pyval))
  (name : pyval) :
  key_missing key = false ->
  answers E (make_url key) (first_body prompt) w result w1 ->
  first_part_dict result = Some part ->
  dict_get part "functionCall" = Some (PDict fc) ->
  dict_get fc "name" = Some name ->
  name <> PStr "get_stock_info" ->
  count_fetches (trace (get_agent_response E prompt key w)) = 0 /\
  count_posts (trace (get_agent_response E prompt key w)) = 1 /\
  (forall args, dict_get fc "args" = Some args ->
     get_agent_response E prompt key w
     = (Ok (PStr ("Agent tried to call an unknown function: " ++ py_str name)),
        w1, [EvPost (make_url key) (first_body prompt)])) /\
  (dict_get fc "args" = None ->
     get_agent_response E prompt key w
     = (Ok (PStr "An unexpected error occurred."), w1,
        [EvPost (make_url key) (first_body prompt);
         EvError "An unexpected error occurred: 'args'"])).
Proof.
  intros Hk Ha Hp Hfc Hn Hne.
  assert (Hsome : forall args, dict_get fc "args" = Some args ->
            get_agent_response E prompt key w
            = (Ok (PStr ("Agent tried to call an unknown function: " ++ py_str name)),
               w1, [EvPost (make_url key) (first_body prompt)])).
  { intros args Hargs. unfold get_agent_response. rewrite Hk.
    erewrite handled
      by (erewrite first_round_tool_request by eassumption;
          rewrite (py_eq_str_false _ _ Hne); reflexivity).
    reflexivity. }
  assert (Hnone : dict_get fc "args" = None ->
            get_agent_response E prompt key w
            = (Ok (PStr "An unexpected error occurred."), w1,
               [EvPost (make_url key) (first_body prompt);
                EvError "An unexpected error occurred: 'args'"])).
  { intros Hargs. unfold get_agent_response. rewrite Hk.
    rewrite (handled _ _ _ _ _ _
               (first_round_no_args E prompt (make_url key) w w1 result part fc name
                  Ha Hp Hfc Hn Hargs)).
    reflexivity. }
  destruct (dict_get fc "args") as [args|] eqn:Hargs.
  - rewrite (Hsome args eq_refl).
    split; [reflexivity|]. split; [reflexivity|]. split; [reflexivity|discriminate].
  - rewrite (Hnone eq_refl).
    split; [reflexivity|]. split; [reflexivity|]. split; [discriminate|reflexivity].
Qed.

Lemma C3_witness :
  count_fetches
    (trace (get_agent_response (scripted aapl_provider) "What is AAPL?" (Some "K")
              [ok_reply (response_with (call_part (PStr "do_something_else")
                                                  (PDict [])))])) = 0 /\
  count_posts
    (trace (get_agent_response (scripted aapl_provider) "What is AAPL?" (Some "K")
              [ok_reply (response_with (call_part (PStr "do_something_else")
                                                  (PDict [])))])) = 1 /\
  outcome (get_agent_response (scripted aapl_provider) "What is AAPL?" (Some "K")
             [ok_reply (response_with (call_part (PStr "do_something_else")
                                                 (PDict [])))])
  = Ok (PStr "Agent tried to call an unknown function: do_something_else").
Proof.
  destruct (C3_unknown_tool (scripted aapl_provider) "What is AAPL?" (Some "K")
              [ok_reply (response_with (call_part (PStr "do_something_else")
                                                  (PDict [])))]
              []
              (response_with (call_part (PStr "do_something_else") (PDict [])))
              [("functionCall",
                PDict [("name", PStr "do_something_else"); ("args", PDict [])])]
              [("name", PStr "do_something_else"); ("args", PDict [])]
              (PStr "do_something_else")) as (Hf & Hp & Hs & _).
  - reflexivity.
  - eexists. repeat split.
  - reflexivity.
  - reflexivity.
  - reflexivity.
  - discriminate.
  - split; [exact Hf|]. split; [exact Hp|].
    rewrite (Hs (PDict []) eq_refl). reflexivity.
Defined.

Lemma substring_middle (pre t post : string) :
  substring (String.length pre) (String.length t) (pre ++ t ++ post) = t.
Proof.
  induction pre as [|c pre IH]; [|exact IH].
  cbn [String.length String.append]. clear. induction t as [|c t IH].
  - destruct post; reflexivity.
  - cbn [String.length String.append substring]. now rewrite IH.
Qed.

Lemma absent (t s : string) :
  t <> "" -> String.index 0 t s = None -> ~ occurs_in t s.
Proof.
  intros Ht Hi (pre & post & ->).
  apply (index_correct3 0 (String.length pre) t _ Hi Ht); [lia|].
  apply substring_middle.
Qed.

(** The first response asks for the tool [do_something_else] and gives no
    [args]: the turn returns the generic error string, which does not name
    the function. *)
Lemma C3_counterexample :
  first_part_dict
    (response_with (PDict [("functionCall", PDict [("name", PStr "do_something_else")])]))
  = Some [("functionCall", PDict [("name", PStr "do_something_else")])] /\
  outcome (get_agent_response (scripted aapl_provider) "What is AAPL?" (Some "K")
             [ok_reply (response_with
                          (PDict [("functionCall",
                                   PDict [("name", PStr "do_something_else")])]))])
  = Ok (PStr "An unexpected error occurred.") /\
  ~ occurs_in "do_something_else" "An unexpected error occurred." /\
  count_fetches
    (trace (get_agent_response (scripted aapl_provider) "What is AAPL?" (Some "K")
              [ok_reply (response_with
                           (PDict [("functionCall",
                                    PDict [("name", PStr "do_something_else")])]))]))
  = 0.
Proof.
  split; [reflexivity|]. split; [vm_compute; reflexivity|].
  split; [apply absent; [discriminate|reflexivity]|vm_compute; reflexivity].
Qed.

(** C9, as amended. When the first part of the first response is a
    non-empty plain text and requests no tool, the turn returns that text
    unchanged, and the only effect is the first request. *)
Theorem C9_plain_text (E : Env) (prompt : string) (key : option string)
  (w w1 : World E) (result : pyval) (part : list (string * pyval)) (text : string) :
  key_missing key = false ->
  answers E (make_url key) (first_body prompt) w result w1 ->
  first_part_dict result = Some part ->
  py_truthy (get_or_none part "functionCall") = false ->
  dict_get part "text" = Some (PStr text) ->
  text <> "" ->
  get_agent_response E prompt key w
  = (Ok (PStr text), w1, [EvPost (make_url key) (first_body prompt)]).
Proof.
  intros Hk Ha Hp Hfc Ht Hne.
  pose proof (completion_ok E (make_url key)
                (make_payload [user_entry AGENT_INSTRUCTION; user_entry prompt])
                w w1 result Ha) as Hc.
  unfold get_agent_response. rewrite Hk.
  enough (Hfr : first_round E prompt (make_url key) w
                = (Ok (PStr text), w1, [EvPost (make_url key) (first_body prompt)]))
    by (rewrite (handled _ _ _ _ _ _ Hfr); reflexivity).
  unfold first_round. cbv zeta. rewrite (bind_ok _ _ _ _ _ _ _ _ _ Hc).
  rewrite bind_lift, (part_field_shape _ _ _ Hp), Hfc.
  unfold direct_answer.
  rewrite bind_lift, (part_field_shape _ _ _ Hp).
  unfold get_or_none. rewrite Ht.
  assert (Hv : py_truthy (PStr text) = true)
    by (simpl; destruct (String.eqb_spec text ""); [congruence|reflexivity]).
  rewrite Hv. unfold lift. rewrite (first_part_shape _ _ Hp).
  cbn [res_bind py_item]. rewrite Ht. reflexivity.
Qed.

Lemma C9_witness :
  get_agent_response (scripted aapl_provider) "Hello" (Some "K")
    [ok_reply (response_with (text_part (PStr "Hi, ask me about a stock.")))]
  = (Ok (PStr "Hi, ask me about a stock."), [],
     [EvPost (make_url (Some "K")) (first_body "Hello")]).
Proof.
  apply (C9_plain_text (scripted aapl_provider) "Hello" (Some "K")
           [ok_reply (response_with (text_part (PStr "Hi, ask me about a stock.")))]
           [] (response_with (text_part (PStr "Hi, ask me about a stock.")))
           [("text", PStr "Hi, ask me about a stock.")]).
  - reflexivity.
  - eexists. repeat split.
  - reflexivity.
  - reflexivity.
  - reflexivity.
  - discriminate.
Defined.

(** The first part is the plain text [""] and no tool is requested, yet
    the turn returns the "no clear response" string instead of that
    text. *)
Lemma C9_counterexample :
  first_part_dict (response_with (text_part (PStr ""))) = Some [("text", PStr "")] /\
  outcome (get_agent_response (scripted aapl_provider) "Hello" (Some "K")
             [ok_reply (response_with (text_part (PStr "")))])
  = Ok (PStr "I couldn't get a clear response from the model. Please try again.") /\
  outcome (get_agent_response (scripted aapl_provider) "Hello" (Some "K")
             [ok_reply (response_with (text_part (PStr "")))])
  <> Ok (PStr "").
Proof.
  split; [reflexivity|]. split; [vm_compute; reflexivity|].
  vm_compute. discriminate.
Qed.

(* ----------------------------------------------------------------- *)
(** ** What a turn returns *)

Lemma yields_bind (E : Env) (A B : Type) (m : M E A) (k : A -> M E B)
  (P : A -> Prop) (Q : B -> Prop) :
  yields m P -> (forall a, P a -> yields (k a) Q) -> yields (bind m k) Q.
Proof.
  intros Hm Hk w b w2 t H. unfold bind in H.
  destruct (m w) as [[[a|e] w1] t1] eqn:Hmw; [|discriminate H].
  destruct (k a w1) as [[r w2'] t2] eqn:Hka. injection H as -> -> _.
  eapply Hk; [eapply Hm|]; eassumption.
Qed.

Lemma yields_lift (E : Env) (A : Type) (r : res A) (Q : A -> Prop) :
  (forall a, r = Ok a -> Q a) -> yields (lift (E := E) r) Q.
Proof.
  intros H w a w1 t Hr. unfold lift in Hr. injection Hr as -> _ _. now apply H.
Qed.

Lemma yields_ret (E : Env) (A : Type) (a : A) (Q : A -> Prop) :
  Q a -> yields (ret (E := E) a) Q.
Proof.
  intros H w b w1 t Hr. unfold ret in Hr. injection Hr as <- _ _. exact H.
Qed.

Lemma yields_true (E : Env) (A : Type) (m : M E A) : yields m (fun _ => True).
Proof. intros w a w1 t _. exact I. Qed.

Lemma yields_completion (E : Env) (url : string) (payload : pyval) :
  yields (completion E url payload) (from_endpoint E).
Proof.
  intros w result w1 t H. unfold completion, bind, post, lift in H.
  destruct (requests_post E url (json_dumps payload) w) as [[resp|e] w'] eqn:Hp;
    [|discriminate H].
  destruct (raise_for_status url resp); [|discriminate H].
  destruct (json_body resp) as [r|e] eqn:Hj; [|discriminate H].
  injection H as <- _ _. exists url, (json_dumps payload), w, resp, w'. now split.
Qed.

Lemma nonempty_displayable (E : Env) (s : string) :
  s <> "" -> displayable E (PStr s).
Proof. intros H. left. eauto. Qed.

(** The text step of lines 169-174 and 179-184. *)
Lemma yields_text (E : Env) (result : pyval) (fallback : string) :
  from_endpoint E result -> fallback <> "" ->
  yields (E := E)
         (bind (lift (part_field result "text"))
               (fun text =>
                  if py_truthy text then
                    lift (p <- first_part result ;; py_item p "text")%res
                  else ret (PStr fallback)))
         (displayable E).
Proof.
  intros Hr Hf.
  apply yields_bind with (P := fun text => part_field result "text" = Ok text).
  - apply yields_lift. auto.
  - intros text Ht. destruct (py_truthy text) eqn:Hv.
    + apply yields_lift. intros v Hv'.
      pose proof (part_field_truthy _ _ _ Ht Hv) as Hc.
      rewrite Hc in Hv'. injection Hv' as <-.
      right. split; [exact Hv|]. exists result. split; [exact Hr|exact Hc].
    + apply yields_ret. now apply nonempty_displayable.
Qed.

Lemma yields_first_round (E : Env) (prompt url : string) :
  yields (first_round E prompt url) (displayable E).
Proof.
  unfold first_round. cbv zeta.
  eapply yields_bind; [apply yields_completion|]. intros result Hr.
  eapply yields_bind; [apply yields_true|]. intros call _.
  destruct (py_truthy call).
  - eapply yields_bind; [apply yields_true|]. intros function_call _.
    eapply yields_bind; [apply yields_true|]. intros function_name _.
    eapply yields_bind; [apply yields_true|]. intros function_args _.
    destruct (py_eq_str function_name "get_stock_info").
    + unfold tool_round. cbv zeta.
      do 5 (eapply yields_bind; [apply yields_true|]; intros ? _).
      eapply yields_bind; [apply yields_completion|]. intros result_final Hf.
      apply yields_text; [exact Hf|discriminate].
    + apply yields_ret. apply nonempty_displayable. discriminate.
  - apply yields_text; [exact Hr|discriminate].
Qed.

Lemma displayable_truthy (E : Env) (v : pyval) : displayable E v -> py_truthy v = true.
Proof.
  intros [(s & -> & Hs)|[H _]]; [|exact H].
  simpl. destruct (String.eqb_spec s ""); [congruence|reflexivity].
Qed.

(** C1, as amended. Whatever the user text, the credential, the endpoint
    and the provider do, the turn returns a value without raising, and the
    value is truthy: it is a non-empty string, or else it is the truthy
    [text] entry of the first part of a response of the endpoint, returned
    as it is (a non-empty string whenever that entry is a string). *)
Theorem C1_always_returns (E : Env) (prompt : string) (key : option string)
  (w : World E) :
  exists v,
    outcome (get_agent_response E prompt key w) = Ok v /\
    py_truthy v = true /\
    ((exists s, v = PStr s /\ s <> "") \/
     (exists result, from_endpoint E result /\ response_text result v)).
Proof.
  assert (H : exists v, outcome (get_agent_response E prompt key w) = Ok v /\
                        displayable E v).
  { unfold get_agent_response. destruct (key_missing key).
    - eexists. split; [reflexivity|]. apply nonempty_displayable. discriminate.
    - destruct (first_round E prompt (make_url key) w) as [[[v|e] w1] t] eqn:Hf;
        rewrite (handled _ _ _ _ _ _ Hf).
      + exists v. split; [reflexivity|]. eapply yields_first_round. exact Hf.
      + destruct (is_request_exception e);
          (eexists; split; [reflexivity|]; apply nonempty_displayable; discriminate). }
  destruct H as (v & Ho & Hd). exists v. split; [exact Ho|].
  split; [exact (displayable_truthy _ _ Hd)|].
  destruct Hd as [Hs|[_ Hr]]; [left|right]; assumption.
Qed.

(** The text entry [42] is truthy and not a string: the turn returns the
    integer, not a string. *)
Lemma C1_counterexample :
  outcome (get_agent_response (scripted aapl_provider) "Hello" (Some "K")
             [ok_reply (response_with (text_part (PInt 42)))])
  = Ok (PInt 42) /\
  ~ exists s,
      outcome (get_agent_response (scripted aapl_provider) "Hello" (Some "K")
                 [ok_reply (response_with (text_part (PInt 42)))])
      = Ok (PStr s).
Proof.
  split; [vm_compute; reflexivity|].
  intros (s & H). vm_compute in H. discriminate H.
Qed.

(* ----------------------------------------------------------------- *)
(** ** How many requests and fetches a turn makes *)

Lemma count_posts_app (t1 t2 : list event) :
  count_posts (t1 ++ t2) = count_posts t1 + count_posts t2.
Proof.
  unfold count_posts. now rewrite filter_app, length_app.
Qed.

Lemma count_fetches_app (t1 t2 : list event) :
  count_fetches (t1 ++ t2) = count_fetches t1 + count_fetches t2.
Proof.
  unfold count_fetches. now rewrite filter_app, length_app.
Qed.

Lemma bounded_bind (E : Env) (A B : Type) (m : M E A) (k : A -> M E B)
  (p1 f1 p2 f2 : nat) :
  bounded m p1 f1 -> (forall a, bounded (k a) p2 f2) ->
  bounded (bind m k) (p1 + p2) (f1 + f2).
Proof.
  intros Hm Hk w. unfold bind. specialize (Hm w).
  destruct (m w) as [[[a|e] w1] t1]; unfold trace in *; cbn [snd] in *; [|lia].
  specialize (Hk a w1). destruct (k a w1) as [[r w2] t2].
  unfold trace in Hk. cbn [snd] in *.
  rewrite count_posts_app, count_fetches_app. lia.
Qed.

Lemma bounded_bind_pure (E : Env) (A B : Type) (m : M E A) (k : A -> M E B)
  (p f : nat) :
  bounded m 0 0 -> (forall a, bounded (k a) p f) -> bounded (bind m k) p f.
Proof.
  intros Hm Hk. exact (bounded_bind E A B m k 0 0 p f Hm Hk).
Qed.

Lemma bounded_try (E : Env) (A : Type) (m : M E A) (h : exn -> M E A) (p f : nat) :
  bounded m p f -> (forall e, bounded (h e) 0 0) -> bounded (try_except m h) p f.
Proof.
  intros Hm Hh w. unfold try_except. specialize (Hm w).
  destruct (m w) as [[[a|e] w1] t1]; unfold trace in *; cbn [snd] in *; [lia|].
  specialize (Hh e w1). destruct (h e w1) as [[r w2] t2].
  unfold trace in Hh. cbn [snd] in *.
  rewrite count_posts_app, count_fetches_app. lia.
Qed.

Lemma bounded_weaken (E : Env) (A : Type) (m : M E A) (p f p' f' : nat) :
  bounded m p f -> p <= p' -> f <= f' -> bounded m p' f'.
Proof.
  intros Hm Hp Hf w. specialize (Hm w). lia.
Qed.

Lemma bounded_lift (E : Env) (A : Type) (r : res A) : bounded (lift (E := E) r) 0 0.
Proof. intros w. split; apply Nat.le_refl. Qed.

Lemma bounded_ret (E : Env) (A : Type) (a : A) (p f : nat) :
  bounded (ret (E := E) a) p f.
Proof. intros w. split; apply Nat.le_0_l. Qed.

Lemma bounded_info (E : Env) (msg : string) : bounded (st_info E msg) 0 0.
Proof. intros w. split; apply Nat.le_refl. Qed.

Lemma bounded_error (E : Env) (msg : string) : bounded (st_error E msg) 0 0.
Proof. intros w. split; apply Nat.le_refl. Qed.

Lemma bounded_completion (E : Env) (url : string) (payload : pyval) :
  bounded (completion E url payload) 1 0.
Proof.
  intros w. rewrite completion_trace. split; [apply Nat.le_refl|apply Nat.le_0_l].
Qed.

Lemma bounded_get_stock_info (E : Env) (ticker : pyval) :
  bounded (get_stock_info E ticker) 0 1.
Proof.
  intros w. rewrite get_stock_info_run. split; [apply Nat.le_refl|apply Nat.le_refl].
Qed.

Lemma bounded_final_answer (E : Env) (result : pyval) :
  bounded (final_answer E result) 0 0.
Proof.
  intros w. destruct (final_answer_pure E result w) as (r & ->).
  split; apply Nat.le_refl.
Qed.

Lemma bounded_direct_answer (E : Env) (result : pyval) (p f : nat) :
  bounded (direct_answer E result) p f.
Proof.
  intros w. destruct (direct_answer_pure E result w) as (r & ->).
  split; apply Nat.le_0_l.
Qed.

Lemma bounded_on_exception (E : Env) (e : exn) : bounded (on_exception E e) 0 0.
Proof.
  intros w. unfold on_exception. destruct (is_request_exception e);
    split; apply Nat.le_refl.
Qed.

Lemma bounded_tool_round (E : Env) (url : string) (hist : list pyval)
  (fc args : pyval) :
  bounded (tool_round E url hist fc args) 1 1.
Proof.
  unfold tool_round. cbv zeta.
  apply bounded_bind_pure; [apply bounded_lift|]. intros shown.
  apply bounded_bind_pure; [apply bounded_info|]. intros _.
  apply bounded_bind_pure; [apply bounded_lift|]. intros ticker.
  apply (bounded_bind E _ _ _ _ 0 1 1 0); [apply bounded_get_stock_info|].
  intros tool_output.
  apply bounded_bind_pure; [apply bounded_lift|]. intros parsed.
  apply (bounded_bind E _ _ _ _ 1 0 0 0); [apply bounded_completion|].
  intros result_final. apply bounded_final_answer.
Qed.

Lemma bounded_first_round (E : Env) (prompt url : string) :
  bounded (first_round E prompt url) 2 1.
Proof.
  unfold first_round. cbv zeta.
  apply (bounded_bind E _ _ _ _ 1 0 1 1); [apply bounded_completion|].
  intros result.
  apply bounded_bind_pure; [apply bounded_lift|]. intros call.
  destruct (py_truthy call); [|apply bounded_direct_answer].
  apply bounded_bind_pure; [apply bounded_lift|]. intros function_call.
  apply bounded_bind_pure; [apply bounded_lift|]. intros function_name.
  apply bounded_bind_pure; [apply bounded_lift|]. intros function_args.
  destruct (py_eq_str function_name "get_stock_info");
    [apply bounded_tool_round|apply bounded_ret].
Qed.

Lemma bounded_turn (E : Env) (prompt : string) (key : option string) :
  bounded (get_agent_response E prompt key) 2 1.
Proof.
  unfold get_agent_response. destruct (key_missing key); [apply bounded_ret|].
  apply bounded_try; [apply bounded_first_round|apply bounded_on_exception].
Qed.

(* ----------------------------------------------------------------- *)
(** ** The tool round trip *)

Lemma tool_output_parsed (E : Env) (T : pyval) (w1 w2 : World E)
  (out : string) (parsed : pyval) (t : list event) :
  get_stock_info E T w1 = (Ok out, w2, t) ->
  json_loads out = Ok parsed ->
  w2 = snd (yf_info E T w1) /\
  parsed = canon (stock_result E T (fst (yf_info E T w1))).
Proof.
  rewrite get_stock_info_run. intros [= <- <- _] Hl.
  rewrite loads_dumps in Hl. injection Hl as <-. split; reflexivity.
Qed.

(** The first round when the response asks for [get_stock_info]. *)
Lemma tool_turn (E : Env) (prompt url : string) (w w1 w2 : World E)
  (result : pyval) (part fc a : list (string * pyval))
  (out : string) (parsed : pyval) :
  answers E url (first_body prompt) w result w1 ->
  first_part_dict result = Some part ->
  dict_get part "functionCall" = Some (PDict fc) ->
  dict_get fc "name" = Some (PStr "get_stock_info") ->
  dict_get fc "args" = Some (PDict a) ->
  get_stock_info E (get_or_none a "ticker") w1
  = (Ok out, w2, [EvFetch (get_or_none a "ticker")]) ->
  json_loads out = Ok parsed ->
  first_round E prompt url w
  = let '(r, w3, t) :=
      bind (completion E url
              (make_payload [user_entry AGENT_INSTRUCTION; user_entry prompt;
                             model_entry (PDict fc); function_entry parsed]))
           (final_answer E) w2 in
    (r, w3,
     EvPost url (first_body prompt)
       :: EvInfo ("Agent wants to fetch stock info for: "
                  ++ py_str (get_or_none a "ticker"))
       :: EvFetch (get_or_none a "ticker") :: t).
Proof.
  intros Ha Hp Hfc Hn Hargs Hg Hl.
  destruct (tool_output_parsed _ _ _ _ _ _ _ Hg Hl) as [-> ->].
  rewrite (first_round_tool_request _ _ _ _ _ _ _ _ _ _ Ha Hp Hfc Hn Hargs).
  cbn [py_eq_str String.eqb Ascii.eqb Bool.eqb].
  rewrite tool_round_run. cbv zeta.
  destruct (bind _ (final_answer E) _) as [[r w3] t]. reflexivity.
Qed.

Lemma second_stage_trace (E : Env) (url : string) (payload : pyval) (w : World E) :
  exists r w', bind (completion E url payload) (final_answer E) w
               = (r, w', [EvPost url (json_dumps payload)]).
Proof.
  pose proof (completion_trace E url payload w) as Ht. unfold bind.
  destruct (completion E url payload w) as [[[result|e] w1] t].
  - destruct (final_answer_pure E result w1) as (r & ->).
    unfold trace in Ht. cbn [snd] in Ht. subst t. eauto.
  - unfold trace in Ht. cbn [snd] in Ht. subst t. eauto.
Qed.

(** The trace of a turn that goes through the tool. *)
Lemma tool_round_trip_trace (E : Env) (prompt : string) (key : option string)
  (w w1 : World E) (result : pyval) (part fc args : list (string * pyval))
  (T : pyval) :
  key_missing key = false ->
  answers E (make_url key) (first_body prompt) w result w1 ->
  first_part_dict result = Some part ->
  dict_get part "functionCall" = Some (PDict fc) ->
  dict_get fc "name" = Some (PStr "get_stock_info") ->
  dict_get fc "args" = Some (PDict args) ->
  dict_get args "ticker" = Some T ->
  exists out w2 parsed tail,
    get_stock_info E T w1 = (Ok out, w2, [EvFetch T]) /\
    json_loads out = Ok parsed /\
    trace (get_agent_response E prompt key w)
    = ([EvPost (make_url key) (first_body prompt);
        EvInfo ("Agent wants to fetch stock info for: " ++ py_str T);
        EvFetch T;
        EvPost (make_url key) (second_body prompt (PDict fc) parsed)] ++ tail)%list /\
    count_posts tail = 0 /\ count_fetches tail = 0 /\
    count_posts (trace (get_agent_response E prompt key w)) = 2 /\
    count_fetches (trace (get_agent_response E prompt key w)) = 1.
Proof.
  intros Hk Ha Hp Hfc Hn Hargs HT.
  assert (HTe : get_or_none args "ticker" = T) by (unfold get_or_none; now rewrite HT).
  clear HT. subst T. set (T := get_or_none args "ticker") in *.
  pose proof (get_stock_info_run E T w1) as Hg.
  pose proof (loads_dumps (stock_result E T (fst (yf_info E T w1)))) as Hl.
  exists (json_dumps (stock_result E T (fst (yf_info E T w1)))),
         (snd (yf_info E T w1)),
         (canon (stock_result E T (fst (yf_info E T w1)))).
  pose proof (tool_turn E prompt (make_url key) w w1 _ result part fc args _ _
                Ha Hp Hfc Hn Hargs Hg Hl) as Hfr.
  fold T in Hfr.
  destruct (second_stage_trace E (make_url key)
              (make_payload [user_entry AGENT_INSTRUCTION; user_entry prompt;
                             model_entry (PDict fc);
                             function_entry
                               (canon (stock_result E T (fst (yf_info E T w1))))])
              (snd (yf_info E T w1))) as (r & w3 & Hs).
  rewrite Hs in Hfr.
  unfold get_agent_response. rewrite Hk. rewrite (handled _ _ _ _ _ _ Hfr).
  destruct r as [v|e].
  - exists []. repeat split; try assumption.
  - destruct (is_request_exception e); eexists [_]; repeat split; assumption.
Qed.

(** C2. When the first part of the first response is a [functionCall]
    naming [get_stock_info] with the ticker argument [T], the turn runs
    [get_stock_info] once, on [T], and issues one second request; its body
    is the payload whose contents are the two entries of the first request
    (the instruction, then the user text) followed by the model entry with
    the function call as received and the function entry with the decoded
    tool output under the name [get_stock_info], with the same [tools]
    list.  Nothing else is requested or fetched in the turn. *)
Theorem C2_tool_round_trip (E : Env) (prompt : string) (key : option string)
  (w w1 : World E) (result : pyval) (part fc args : list (string * pyval))
  (T : pyval) :
  let instruction :=
    PDict [("role", PStr "user");
           ("parts", PList [PDict [("text", PStr AGENT_INSTRUCTION)]])] in
  let question :=
    PDict [("role", PStr "user"); ("parts", PList [PDict [("text", PStr prompt)]])] in
  let declarations :=
    PList [PDict [("functionDeclarations", PList [STOCK_INFO_TOOL_SCHEMA])]] in
  let first_request :=
    json_dumps (PDict [("contents", PList [instruction; question]);
                       ("tools", declarations)]) in
  key_missing key = false ->
  answers E (make_url key) first_request w result w1 ->
  first_part_dict result = Some part ->
  dict_get part "functionCall" = Some (PDict fc) ->
  dict_get fc "name" = Some (PStr "get_stock_info") ->
  dict_get fc "args" = Some (PDict args) ->
  dict_get args "ticker" = Some T ->
  exists out w2 parsed tail,
    get_stock_info E T w1 = (Ok out, w2, [EvFetch T]) /\
    json_loads out = Ok parsed /\
    trace (get_agent_response E prompt key w)
    = ([EvPost (make_url key) first_request;
        EvInfo ("Agent wants to fetch stock info for: " ++ py_str T);
        EvFetch T;
        EvPost (make_url key)
          (json_dumps
             (PDict [("contents",
                      PList [instruction;
                             question;
                             PDict [("role", PStr "model");
                                    ("parts",
                                     PList [PDict [("functionCall", PDict fc)]])];
                             PDict [("role", PStr "function");
                                    ("parts",
                                     PList [PDict [("functionResponse",
                                                    PDict [("name", PStr "get_stock_info");
                                                           ("response", parsed)])]])]]);
                     ("tools", declarations)]))] ++ tail)%list /\
    count_posts tail = 0 /\ count_fetches tail = 0 /\
    count_posts (trace (get_agent_response E prompt key w)) = 2 /\
    count_fetches (trace (get_agent_response E prompt key w)) = 1.
Proof.
  intros instruction question declarations first_request Hk Ha Hp Hfc Hn Hargs HT.
  exact (tool_round_trip_trace E prompt key w w1 result part fc args T
           Hk Ha Hp Hfc Hn Hargs HT).
Qed.

Lemma C2_witness :
  exists out w2 parsed tail,
    get_stock_info (scripted aapl_provider) (PStr "AAPL")
      [ok_reply (response_with (text_part (PStr "AAPL trades at 189.5 USD.")))]
    = (Ok out, w2, [EvFetch (PStr "AAPL")]) /\
    json_loads out = Ok parsed /\
    trace (get_agent_response (scripted aapl_provider) "What is AAPL?" (Some "K")
             [ok_reply (response_with
                          (call_part (PStr "get_stock_info")
                                     (PDict [("ticker", PStr "AAPL")])));
              ok_reply (response_with (text_part (PStr "AAPL trades at 189.5 USD.")))])
    = ([EvPost (make_url (Some "K")) (json_dumps
           (PDict [("contents",
                    PList [PDict [("role", PStr "user");
                                  ("parts", PList [PDict [("text", PStr AGENT_INSTRUCTION)]])];
                           PDict [("role", PStr "user");
                                  ("parts", PList [PDict [("text", PStr "What is AAPL?")]])]]);
                   ("tools",
                    PList [PDict [("functionDeclarations",
                                   PList [STOCK_INFO_TOOL_SCHEMA])]])]));
        EvInfo ("Agent wants to fetch stock info for: " ++ py_str (PStr "AAPL"));
        EvFetch (PStr "AAPL");
        EvPost (make_url (Some "K"))
          (json_dumps
             (PDict [("contents",
                      PList [PDict [("role", PStr "user");
                                    ("parts",
                                     PList [PDict [("text", PStr AGENT_INSTRUCTION)]])];
                             PDict [("role", PStr "user");
                                    ("parts",
                                     PList [PDict [("text", PStr "What is AAPL?")]])];
                             PDict [("role", PStr "model");
                                    ("parts",
                                     PList [PDict [("functionCall",
                                                    PDict [("name", PStr "get_stock_info");
                                                           ("args",
                                                            PDict [("ticker", PStr "AAPL")])])]])];
                             PDict [("role", PStr "function");
                                    ("parts",
                                     PList [PDict [("functionResponse",
                                                    PDict [("name", PStr "get_stock_info");
                                                           ("response", parsed)])]])]]);
                     ("tools",
                      PList [PDict [("functionDeclarations",
                                     PList [STOCK_INFO_TOOL_SCHEMA])]])]))] ++ tail)%list /\
    count_posts tail = 0 /\ count_fetches tail = 0 /\
    count_posts
      (trace (get_agent_response (scripted aapl_provider) "What is AAPL?" (Some "K")
                [ok_reply (response_with
                             (call_part (PStr "get_stock_info")
                                        (PDict [("ticker", PStr "AAPL")])));
                 ok_reply (response_with
                             (text_part (PStr "AAPL trades at 189.5 USD.")))])) = 2 /\
    count_fetches
      (trace (get_agent_response (scripted aapl_provider) "What is AAPL?" (Some "K")
                [ok_reply (response_with
                             (call_part (PStr "get_stock_info")
                                        (PDict [("ticker", PStr "AAPL")])));
                 ok_reply (response_with
                             (text_part (PStr "AAPL trades at 189.5 USD.")))])) = 1.
Proof.
  apply (C2_tool_round_trip (scripted aapl_provider) "What is AAPL?" (Some "K")
           [ok_reply (response_with
                        (call_part (PStr "get_stock_info")
                                   (PDict [("ticker", PStr "AAPL")])));
            ok_reply (response_with (text_part (PStr "AAPL trades at 189.5 USD.")))]
           [ok_reply (response_with (text_part (PStr "AAPL trades at 189.5 USD.")))]
           (response_with (call_part (PStr "get_stock_info")
                                     (PDict [("ticker", PStr "AAPL")])))
           [("functionCall",
             PDict [("name", PStr "get_stock_info");
                    ("args", PDict [("ticker", PStr "AAPL")])])]
           [("name", PStr "get_stock_info");
            ("args", PDict [("ticker", PStr "AAPL")])]
           [("ticker", PStr "AAPL")]
           (PStr "AAPL")).
  - reflexivity.
  - eexists. repeat split.
  - reflexivity.
  - reflexivity.
  - reflexivity.
  - reflexivity.
  - reflexivity.
Defined.

(** C4. A turn makes at most two completion requests and at most one
    fetch.  When the second response asks for a tool again instead of
    giving text, nothing more is run: the turn returns the "received data
    but could not formulate a response" string after exactly two requests
    and one fetch. *)
Theorem C4_single_round_trip (E : Env) (prompt : string) (key : option string)
  (w : World E) :
  (count_posts (trace (get_agent_response E prompt key w)) <= 2 /\
   count_fetches (trace (get_agent_response E prompt key w)) <= 1) /\
  (forall (w1 w2 w3 : World E) (result result2 T parsed : pyval)
          (part fc args part2 : list (string * pyval)) (out : string),
      key_missing key = false ->
      answers E (make_url key) (first_body prompt) w result w1 ->
      first_part_dict result = Some part ->
      dict_get part "functionCall" = Some (PDict fc) ->
      dict_get fc "name" = Some (PStr "get_stock_info") ->
      dict_get fc "args" = Some (PDict args) ->
      dict_get args "ticker" = Some T ->
      get_stock_info E T w1 = (Ok out, w2, [EvFetch T]) ->
      json_loads out = Ok parsed ->
      answers E (make_url key) (second_body prompt (PDict fc) parsed) w2 result2 w3 ->
      first_part_dict result2 = Some part2 ->
      py_truthy (get_or_none part2 "functionCall") = true ->
      dict_get part2 "text" = None ->
      get_agent_response E prompt key w
      = (Ok (PStr "I received data from the stock tool, but couldn't formulate a clear response."),
         w3,
         [EvPost (make_url key) (first_body prompt);
          EvInfo ("Agent wants to fetch stock info for: " ++ py_str T);
          EvFetch T;
          EvPost (make_url key) (second_body prompt (PDict fc) parsed)])).
Proof.
  split; [apply bounded_turn|].
  intros w1 w2 w3 result result2 T parsed part fc args part2 out
         Hk Ha Hp Hfc Hn Hargs HT Hg Hl Ha2 Hp2 _ Ht2.
  assert (HTe : get_or_none args "ticker" = T) by (unfold get_or_none; now rewrite HT).
  clear HT. subst T.
  pose proof (tool_turn E prompt (make_url key) w w1 w2 result part fc args out parsed
                Ha Hp Hfc Hn Hargs Hg Hl) as Hfr.
  pose proof (completion_ok E (make_url key)
                (make_payload [user_entry AGENT_INSTRUCTION; user_entry prompt;
                               model_entry (PDict fc); function_entry parsed])
                w2 w3 result2 Ha2) as Hc.
  rewrite (bind_ok _ _ _ _ _ _ _ _ _ Hc) in Hfr.
  unfold final_answer in Hfr.
  rewrite bind_lift, (part_field_shape _ _ _ Hp2) in Hfr.
  unfold get_or_none in Hfr at 1. rewrite Ht2 in Hfr.
  cbn [py_truthy ret app] in Hfr.
  unfold get_agent_response. rewrite Hk. rewrite (handled _ _ _ _ _ _ Hfr).
  reflexivity.
Qed.

Lemma C4_witness :
  get_agent_response (scripted aapl_provider) "What is AAPL?" (Some "K")
    [ok_reply (response_with (call_part (PStr "get_stock_info")
                                        (PDict [("ticker", PStr "AAPL")])));
     ok_reply (response_with (call_part (PStr "get_stock_info")
                                        (PDict [("ticker", PStr "MSFT")])))]
  = (Ok (PStr "I received data from the stock tool, but couldn't formulate a clear response."),
     [],
     [EvPost (make_url (Some "K")) (first_body "What is AAPL?");
      EvInfo ("Agent wants to fetch stock info for: " ++ py_str (PStr "AAPL"));
      EvFetch (PStr "AAPL");
      EvPost (make_url (Some "K"))
        (second_body "What is AAPL?"
           (PDict [("name", PStr "get_stock_info");
                   ("args", PDict [("ticker", PStr "AAPL")])])
           (canon (quote_of (scripted aapl_provider) "AAPL"
                     [("longName", PStr "Apple Inc."); ("currency", PStr "USD");
                      ("regularMarketPrice", PFloat (FFin false 189 (D5 Nil) None));
                      ("volume", PInt 51234000)])))]).
Proof.
  apply (proj2 (C4_single_round_trip (scripted aapl_provider) "What is AAPL?" (Some "K")
                  [ok_reply (response_with (call_part (PStr "get_stock_info")
                                                      (PDict [("ticker", PStr "AAPL")])));
                   ok_reply (response_with (call_part (PStr "get_stock_info")
                                                      (PDict [("ticker", PStr "MSFT")])))])
           [ok_reply (response_with (call_part (PStr "get_stock_info")
                                               (PDict [("ticker", PStr "MSFT")])))]
           [ok_reply (response_with (call_part (PStr "get_stock_info")
                                               (PDict [("ticker", PStr "MSFT")])))]
           []
           (response_with (call_part (PStr "get_stock_info")
                                     (PDict [("ticker", PStr "AAPL")])))
           (response_with (call_part (PStr "get_stock_info")
                                     (PDict [("ticker", PStr "MSFT")])))
           (PStr "AAPL")
           (canon (quote_of (scripted aapl_provider) "AAPL"
                     [("longName", PStr "Apple Inc."); ("currency", PStr "USD");
                      ("regularMarketPrice", PFloat (FFin false 189 (D5 Nil) None));
                      ("volume", PInt 51234000)]))
           [("functionCall",
             PDict [("name", PStr "get_stock_info");
                    ("args", PDict [("ticker", PStr "AAPL")])])]
           [("name", PStr "get_stock_info");
            ("args", PDict [("ticker", PStr "AAPL")])]
           [("ticker", PStr "AAPL")]
           [("functionCall",
             PDict [("name", PStr "get_stock_info");
                    ("args", PDict [("ticker", PStr "MSFT")])])]
           (json_dumps (quote_of (scripted aapl_provider) "AAPL"
                          [("longName", PStr "Apple Inc."); ("currency", PStr "USD");
                           ("regularMarketPrice", PFloat (FFin false 189 (D5 Nil) None));
                           ("volume", PInt 51234000)]))).
  - reflexivity.
  - eexists. repeat split.
  - reflexivity.
  - reflexivity.
  - reflexivity.
  - reflexivity.
  - reflexivity.
  - reflexivity.
  - vm_compute. reflexivity.
  - eexists. repeat split.
  - reflexivity.
  - reflexivity.
  - reflexivity.
Defined.

(** The status check raises exactly for the statuses from 400 to 599,
    and what it raises is a [RequestException] ([HTTPError]). *)
Lemma raise_for_status_spec (url : string) (r : http_response) :
  ((400 <= status_code r < 600)%Z ->
   exists descr, raise_for_status url r = Raise (RequestException descr)) /\
  (~ (400 <= status_code r < 600)%Z -> raise_for_status url r = Ok tt).
Proof.
  unfold raise_for_status.
  destruct (400 <=? status_code r)%Z eqn:H1; destruct (status_code r <? 500)%Z eqn:H2;
    destruct (500 <=? status_code r)%Z eqn:H3; destruct (status_code r <? 600)%Z eqn:H4;
    cbn [andb]; split; intros H; eauto;
    rewrite ?Z.leb_le, ?Z.leb_gt, ?Z.ltb_lt, ?Z.ltb_ge in *; lia.
Qed.

(** C8, as amended. When a completion request fails at transport level
    ([requests.post] raises a [RequestException], or the response has a
    4xx or 5xx status), the failure ends the turn: the request is not
    repeated, nothing else is requested, and the turn returns the string
    that describes the failure and names the model [gemini-2.0-flash].
    This holds for the first request and for the second. *)
Theorem C8_transport_failure_terminal (E : Env) (prompt : string)
  (key : option string) (w : World E) :
  key_missing key = false ->
  (forall (descr : string) (w1 : World E),
      transport_failure E (make_url key) (first_body prompt) w descr w1 ->
      get_agent_response E prompt key w
      = (Ok (PStr ("I'm currently unable to provide a response due to a technical issue: "
                   ++ descr ++
                   ". Please ensure your API key is correct and has access to the 'gemini-2.0-flash' model.")),
         w1,
         [EvPost (make_url key) (first_body prompt);
          EvError ("Error communicating with the Gemini API: " ++ descr)])) /\
  (forall (w1 w2 w3 : World E) (result T parsed : pyval)
          (part fc args : list (string * pyval)) (out descr : string),
      answers E (make_url key) (first_body prompt) w result w1 ->
      first_part_dict result = Some part ->
      dict_get part "functionCall" = Some (PDict fc) ->
      dict_get fc "name" = Some (PStr "get_stock_info") ->
      dict_get fc "args" = Some (PDict args) ->
      dict_get args "ticker" = Some T ->
      get_stock_info E T w1 = (Ok out, w2, [EvFetch T]) ->
      json_loads out = Ok parsed ->
      transport_failure E (make_url key) (second_body prompt (PDict fc) parsed)
                        w2 descr w3 ->
      get_agent_response E prompt key w
      = (Ok (PStr ("I'm currently unable to provide a response due to a technical issue: "
                   ++ descr ++
                   ". Please ensure your API key is correct and has access to the 'gemini-2.0-flash' model.")),
         w3,
         [EvPost (make_url key) (first_body prompt);
          EvInfo ("Agent wants to fetch stock info for: " ++ py_str T);
          EvFetch T;
          EvPost (make_url key) (second_body prompt (PDict fc) parsed);
          EvError ("Error communicating with the Gemini API: " ++ descr)])).
Proof.
  intros Hk. split.
  - intros descr w1 Hf.
    pose proof (completion_failure E (make_url key)
                  (make_payload [user_entry AGENT_INSTRUCTION; user_entry prompt])
                  w w1 descr Hf) as Hc.
    unfold get_agent_response. rewrite Hk.
    assert (Hfr : first_round E prompt (make_url key) w
                  = (Raise (RequestException descr), w1,
                     [EvPost (make_url key) (first_body prompt)])).
    { unfold first_round. cbv zeta. now rewrite (bind_raise _ _ _ _ _ _ _ _ _ Hc). }
    rewrite (handled _ _ _ _ _ _ Hfr). reflexivity.
  - intros w1 w2 w3 result T parsed part fc args out descr
           Ha Hp Hfc Hn Hargs HT Hg Hl Hf.
    assert (HTe : get_or_none args "ticker" = T) by (unfold get_or_none; now rewrite HT).
    clear HT. subst T.
    pose proof (tool_turn E prompt (make_url key) w w1 w2 result part fc args out parsed
                  Ha Hp Hfc Hn Hargs Hg Hl) as Hfr.
    pose proof (completion_failure E (make_url key)
                  (make_payload [user_entry AGENT_INSTRUCTION; user_entry prompt;
                                 model_entry (PDict fc); function_entry parsed])
                  w2 w3 descr Hf) as Hc.
    rewrite (bind_raise _ _ _ _ _ _ _ _ _ Hc) in Hfr.
    unfold get_agent_response. rewrite Hk. rewrite (handled _ _ _ _ _ _ Hfr).
    reflexivity.
Qed.

Lemma C8_witness :
  get_agent_response (scripted aapl_provider) "What is AAPL?" (Some "K")
    [Raise (RequestException "Connection refused")]
  = (Ok (PStr ("I'm currently unable to provide a response due to a technical issue: "
               ++ "Connection refused" ++
               ". Please ensure your API key is correct and has access to the 'gemini-2.0-flash' model.")),
     [],
     [EvPost (make_url (Some "K")) (first_body "What is AAPL?");
      EvError ("Error communicating with the Gemini API: " ++ "Connection refused")]).
Proof.
  apply (proj1 (C8_transport_failure_terminal (scripted aapl_provider) "What is AAPL?"
                  (Some "K") [Raise (RequestException "Connection refused")] eq_refl)).
  left. reflexivity.
Defined.

(** The status 300 is not a 2xx status, yet the turn goes on: the text of
    the response is returned, and it names neither a failure nor the
    model. *)
Lemma C8_counterexample :
  let reply := {| status_code := 300; reason := "Multiple Choices";
                  json_body := Ok (response_with (text_part (PStr "hello"))) |} in
  ~ (200 <= status_code reply < 300)%Z /\
  get_agent_response (scripted aapl_provider) "Hello" (Some "K") [Ok reply]
  = (Ok (PStr "hello"), [], [EvPost (make_url (Some "K")) (first_body "Hello")]) /\
  ~ occurs_in "gemini-2.0-flash" "hello".
Proof.
  cbv zeta. split; [cbn; lia|]. split; [vm_compute; reflexivity|].
  intros (pre & post & H). apply (f_equal String.length) in H.
  rewrite !length_append in H. cbn in H. lia.
Qed.

(* ----------------------------------------------------------------- *)
(** ** Values that the round trip leaves unchanged *)

Lemma distinct_NoDup (l : list string) : distinct l = true -> NoDup l.
Proof.
  induction l as [|k l IH]; [constructor|]. cbn [distinct]. intros H.
  apply andb_true_iff in H. destruct H as [Hk Hl]. constructor; [|auto].
  intros Hin. apply negb_true_iff in Hk.
  assert (He : existsb (String.eqb k) l = true)
    by (apply existsb_exists; exists k; split; [exact Hin|apply String.eqb_refl]).
  congruence.
Qed.

Lemma dict_set_fresh (d : list (string * pyval)) (k : string) (v : pyval) :
  ~ In k (map fst d) -> dict_set d k v = (d ++ [(k, v)])%list.
Proof.
  induction d as [|[k' v'] d IH]; [reflexivity|]. cbn [map fst In dict_set app].
  intros H. destruct (String.eqb_spec k' k) as [->|_]; [tauto|].
  rewrite IH by tauto. reflexivity.
Qed.

Lemma fold_dict_set_distinct (l acc : list (string * pyval)) :
  NoDup (map fst (acc ++ l)) ->
  fold_left (fun d kv => dict_set d (fst kv) (snd kv)) l acc = (acc ++ l)%list.
Proof.
  revert acc. induction l as [|[k v] l IH]; intros acc H.
  - now rewrite List.app_nil_r.
  - cbn [fold_left fst snd]. rewrite dict_set_fresh.
    + rewrite IH; rewrite <- List.app_assoc; [reflexivity|exact H].
    + rewrite map_app in H. cbn [map fst] in H. apply NoDup_remove_2 in H.
      intros Hin. apply H. apply in_or_app. now left.
Qed.

Lemma dict_of_pairs_distinct (l : list (string * pyval)) :
  distinct (map fst l) = true -> dict_of_pairs l = l.
Proof.
  intros H. unfold dict_of_pairs. rewrite fold_dict_set_distinct; [reflexivity|].
  now apply distinct_NoDup.
Qed.

Lemma canon_plain (v : pyval) : plain v = true -> canon v = v.
Proof.
  induction v as [ | b | z | f | s | l Hl | d Hd ] using pyval_nested_ind;
    cbn [plain canon]; intros H; try reflexivity.
  - destruct f as [ | neg | neg ip fp ex]; try reflexivity.
    destruct fp, ex; try reflexivity. discriminate H.
  - f_equal. induction Hl as [|x l Hx Hl IH]; [reflexivity|].
    cbn [forallb] in H. apply andb_true_iff in H. destruct H as [H1 H2].
    cbn [map]. now rewrite Hx, IH.
  - apply andb_true_iff in H. destruct H as [Hk Hv]. f_equal.
    assert (Hm : map (fun kv : string * pyval => (fst kv, canon (snd kv))) d = d).
    { clear Hk. induction Hd as [|[k x] d Hx Hd IH]; [reflexivity|].
      cbn [forallb snd] in Hv. apply andb_true_iff in Hv. destruct Hv as [H1 H2].
      cbn [map fst snd] in *. now rewrite Hx, IH. }
    rewrite Hm. now apply dict_of_pairs_distinct.
Qed.

Lemma loads_dumps_plain (v : pyval) :
  plain v = true -> json_loads (json_dumps v) = Ok v.
Proof.
  intros H. rewrite loads_dumps. now rewrite canon_plain.
Qed.

(** X1. For a value whose dicts have distinct keys and whose finite
    floats are written as [repr] writes them, [json.loads] gives back
    exactly the value [json.dumps] was given. *)
Theorem X1_json_round_trip (v : pyval) :
  plain v = true -> json_loads (json_dumps v) = Ok v.
Proof.
  intros H. pose proof (loads_dumps v) as L. pose proof (canon_plain v H) as C.
  rewrite C in L. exact L.
Qed.

Lemma X1_witness :
  json_loads (json_dumps aapl_info) = Ok aapl_info.
Proof.
  apply (X1_json_round_trip aapl_info). reflexivity.
Defined.

(* ----------------------------------------------------------------- *)
(** ** More on [get_stock_info] *)

Lemma dict_get_plain (d : list (string * pyval)) (k : string) (x : pyval) :
  forallb (fun kv => plain (snd kv)) d = true ->
  dict_get d k = Some x -> plain x = true.
Proof.
  induction d as [|[k' v] d IH]; [discriminate|]. cbn [forallb dict_get snd].
  intros H. apply andb_true_iff in H. destruct H as [Hv Hd].
  destruct (String.eqb k' k); [intros [= <-]; exact Hv|now apply IH].
Qed.

Lemma field_or_na_plain (d : list (string * pyval)) (k : string) :
  forallb (fun kv => plain (snd kv)) d = true -> plain (field_or_na d k) = true.
Proof.
  intros H. unfold field_or_na. destruct (dict_get d k) eqn:Hk; [|reflexivity].
  eapply dict_get_plain; eassumption.
Qed.

Lemma quote_of_plain (E : Env) (t : string) (d : list (string * pyval)) :
  forallb (fun kv => plain (snd kv)) d = true -> plain (quote_of E t d) = true.
Proof.
  intros H. unfold quote_of. cbn [plain map fst snd forallb].
  assert (Hc : plain (current_price d) = true).
  { unfold current_price. destruct (dict_get d "currentPrice") eqn:Hk.
    - eapply dict_get_plain; eassumption.
    - now apply field_or_na_plain. }
  rewrite Hc, !field_or_na_plain by assumption. reflexivity.
Qed.

(** X2. For a ticker string and a non-empty provider mapping whose values
    are plain JSON data, the text [get_stock_info] returns decodes to
    exactly the record of lines 67-79: the upper-cased ticker and the ten
    provider fields with their fallbacks, in that order. *)
Theorem X2_quote_record_round_trip
  (E : Env) (t : string) (d : list (string * pyval)) (w w' : World E) :
  d <> [] ->
  forallb (fun kv => plain (snd kv)) d = true ->
  yf_info E (PStr t) w = (Ok (PDict d), w') ->
  exists out,
    get_stock_info E (PStr t) w = (Ok out, w', [EvFetch (PStr t)]) /\
    json_loads out
    = Ok (PDict [("ticker", PStr (str_upper E t));
                 ("longName", field_or_na d "longName");
                 ("currency", field_or_na d "currency");
                 ("exchange", field_or_na d "exchange");
                 ("currentPrice", current_price d);
                 ("previousClose", field_or_na d "previousClose");
                 ("open", field_or_na d "open");
                 ("dayHigh", field_or_na d "dayHigh");
                 ("dayLow", field_or_na d "dayLow");
                 ("volume", field_or_na d "volume");
                 ("marketCap", field_or_na d "marketCap")]).
Proof.
  intros Hd Hp Hy. eexists. split.
  - rewrite get_stock_info_run, Hy. cbn [fst snd stock_result].
    destruct d as [|kv d]; [congruence|]. cbn [py_truthy negb].
    rewrite quote_record_str_dict. reflexivity.
  - apply loads_dumps_plain. now apply quote_of_plain.
Qed.

Lemma X2_witness :
  exists out,
    get_stock_info (scripted aapl_provider) (PStr "AAPL") []
    = (Ok out, [], [EvFetch (PStr "AAPL")]) /\
    json_loads out
    = Ok (PDict [("ticker", PStr "AAPL");
                 ("longName", PStr "Apple Inc.");
                 ("currency", PStr "USD");
                 ("exchange", PStr "N/A");
                 ("currentPrice", PFloat (FFin false 189 (D5 Nil) None));
                 ("previousClose", PStr "N/A");
                 ("open", PStr "N/A");
                 ("dayHigh", PStr "N/A");
                 ("dayLow", PStr "N/A");
                 ("volume", PInt 51234000);
                 ("marketCap", PStr "N/A")]).
Proof.
  apply (X2_quote_record_round_trip (scripted aapl_provider) "AAPL"
           [("longName", PStr "Apple Inc."); ("currency", PStr "USD");
            ("regularMarketPrice", PFloat (FFin false 189 (D5 Nil) None));
            ("volume", PInt 51234000)] [] []).
  - discriminate.
  - reflexivity.
  - reflexivity.
Defined.

Lemma ok_injective (A : Type) (a b : A) : Ok a = Ok b -> a = b.
Proof. intros H. now injection H. Qed.

(** X3. [get_stock_info] returns a quote record exactly when the ticker
    is a string and the provider returns a non-empty mapping: in every
    other case (a ticker that is not a string, such as [None]; an empty or
    falsy [info]; an [info] that is not a mapping; an exception) the text
    decodes to a dict without the eleven quote fields. *)
Theorem X3_quote_record_iff (E : Env) (ticker : pyval) (w : World E) :
  (exists out rec,
      outcome (get_stock_info E ticker w) = Ok out /\
      json_loads out = Ok (PDict rec) /\ dict_keys rec = quote_fields)
  <->
  (exists t d,
      ticker = PStr t /\ d <> [] /\ fst (yf_info E ticker w) = Ok (PDict d)).
Proof.
  rewrite get_stock_info_run. unfold outcome. cbn [fst].
  destruct (yf_info E ticker w) as [[info|e] w']; cbn [fst snd stock_result].
  - destruct (py_truthy info) eqn:Ht; cbn [negb].
    + destruct (quote_record E ticker info) as [data|e] eqn:Hq.
      * apply quote_record_ok in Hq. destruct Hq as (t & d & -> & -> & ->).
        split.
        -- intros _. exists t, d. repeat split.
           intros ->. discriminate Ht.
        -- intros _. destruct (canon_quote_keys E t d) as (rec & Hc & Hk & _).
           eexists _, rec. split; [reflexivity|]. split; [|exact Hk].
           rewrite loads_dumps. exact (f_equal Ok Hc).
      * split.
        -- intros (out & rec & Ho & Hl & Hk). apply ok_injective in Ho. subst out.
           rewrite loads_dumps in Hl. injection Hl as <-. discriminate Hk.
        -- intros (t & d & -> & _ & [= ->]). discriminate Hq.
    + split.
      * intros (out & rec & Ho & Hl & Hk). apply ok_injective in Ho. subst out.
        rewrite loads_dumps in Hl. injection Hl as <-. discriminate Hk.
      * intros (t & d & -> & Hd & [= ->]).
        destruct d; [congruence|discriminate Ht].
  - split.
    + intros (out & rec & Ho & Hl & Hk). apply ok_injective in Ho. subst out.
      rewrite loads_dumps in Hl. injection Hl as <-. discriminate Hk.
    + intros (t & d & _ & _ & H). discriminate H.
Qed.

(** X4. A ticker that is not a string ([None] when the argument is
    missing) never yields a quote: when the provider returns non-empty
    data all the same, the result is the error record that reports the
    failed [ticker.upper()] of line 68. *)
Theorem X4_ticker_not_a_string
  (E : Env) (ticker info : pyval) (w w' : World E) :
  (forall t, ticker <> PStr t) ->
  py_truthy info = true ->
  yf_info E ticker w = (Ok info, w') ->
  get_stock_info E ticker w
  = (Ok (json_dumps
           (PDict [("error",
                    PStr ("An error occurred while fetching data for " ++
                          py_str ticker ++ ": '" ++ type_name ticker ++
                          "' object has no attribute 'upper'"))])),
     w', [EvFetch ticker]).
Proof.
  intros Hs Ht Hy. rewrite get_stock_info_run, Hy. cbn [fst snd stock_result].
  rewrite Ht. cbn [negb].
  destruct ticker; try reflexivity. exfalso. eapply Hs. reflexivity.
Qed.

Lemma X4_witness :
  get_stock_info (scripted (fun _ => Ok aapl_info)) PNone []
  = (Ok (json_dumps
           (PDict [("error",
                    PStr "An error occurred while fetching data for None: 'NoneType' object has no attribute 'upper'")])),
     [], [EvFetch PNone]).
Proof.
  apply (X4_ticker_not_a_string (scripted (fun _ => Ok aapl_info)) PNone aapl_info [] []).
  - discriminate.
  - reflexivity.
  - reflexivity.
Defined.

(** X5. When the provider returns data that is truthy but not a mapping,
    the first [info.get] of line 69 fails and the result is the error
    record that reports it. *)
Theorem X5_info_not_a_mapping
  (E : Env) (t : string) (info : pyval) (w w' : World E) :
  (forall d, info <> PDict d) ->
  py_truthy info = true ->
  yf_info E (PStr t) w = (Ok info, w') ->
  get_stock_info E (PStr t) w
  = (Ok (json_dumps
           (PDict [("error",
                    PStr ("An error occurred while fetching data for " ++ t ++
                          ": '" ++ type_name info ++
                          "' object has no attribute 'get'"))])),
     w', [EvFetch (PStr t)]).
Proof.
  intros Hs Ht Hy. rewrite get_stock_info_run, Hy. cbn [fst snd stock_result].
  rewrite Ht. cbn [negb].
  destruct info; try reflexivity. exfalso. eapply Hs. reflexivity.
Qed.

Lemma X5_witness :
  get_stock_info (scripted (fun _ => Ok (PList [PInt 1]))) (PStr "AAPL") []
  = (Ok (json_dumps
           (PDict [("error",
                    PStr "An error occurred while fetching data for AAPL: 'list' object has no attribute 'get'")])),
     [], [EvFetch (PStr "AAPL")]).
Proof.
  apply (X5_info_not_a_mapping (scripted (fun _ => Ok (PList [PInt 1])))
           "AAPL" (PList [PInt 1]) [] []).
  - discriminate.
  - reflexivity.
  - reflexivity.
Defined.

(* ----------------------------------------------------------------- *)
(** ** The shape of a turn *)

Lemma py_eq_str_true (v : pyval) (s : string) : py_eq_str v s = true -> v = PStr s.
Proof.
  destruct v; try discriminate. simpl. intros H.
  apply String.eqb_eq in H. now subst.
Qed.

(** Either the first round stops after its request, or it goes through
    the tool round for a function call that the endpoint sent. *)
Lemma first_round_cases (E : Env) (prompt url : string) (w : World E) :
  trace (first_round E prompt url w) = [EvPost url (first_body prompt)] \/
  exists w1 result fc args T,
    completion E url
      (make_payload [user_entry AGENT_INSTRUCTION; user_entry prompt]) w
    = (Ok result, w1, [EvPost url (first_body prompt)]) /\
    (p <- first_part result ;; py_item p "functionCall")%res = Ok fc /\
    py_item fc "name" = Ok (PStr "get_stock_info") /\
    py_item fc "args" = Ok args /\
    py_get args "ticker" PNone = Ok T /\
    trace (first_round E prompt url w)
    = [EvPost url (first_body prompt);
       EvInfo ("Agent wants to fetch stock info for: " ++ py_str T);
       EvFetch T;
       EvPost url (second_body prompt fc
                     (canon (stock_result E T (fst (yf_info E T w1)))))].
Proof.
  unfold first_round. cbv zeta.
  pose proof (completion_trace E url
                (make_payload [user_entry AGENT_INSTRUCTION; user_entry prompt]) w) as Ht.
  destruct (completion E url
              (make_payload [user_entry AGENT_INSTRUCTION; user_entry prompt]) w)
    as [[[result|e] w1] tc] eqn:Hc; unfold trace in Ht; cbn [snd] in Ht; subst tc.
  2:{ left. rewrite (bind_raise _ _ _ _ _ _ _ _ _ Hc). reflexivity. }
  rewrite (bind_ok _ _ _ _ _ _ _ _ _ Hc). rewrite bind_lift.
  destruct (part_field result "functionCall") as [call|e]; [|left; reflexivity].
  destruct (py_truthy call).
  2:{ left. destruct (direct_answer_pure E result w1) as (r & ->). reflexivity. }
  rewrite bind_lift.
  destruct (res_bind (first_part result) (fun p => py_item p "functionCall"))
    as [fc|e] eqn:Hfc; [|left; reflexivity].
  rewrite bind_lift.
  destruct (py_item fc "name") as [name|e] eqn:Hn; [|left; reflexivity].
  rewrite bind_lift.
  destruct (py_item fc "args") as [args|e] eqn:Ha; [|left; reflexivity].
  destruct (py_eq_str name "get_stock_info") eqn:He; [|left; reflexivity].
  apply py_eq_str_true in He. subst name.
  destruct args as [ | | | | | |a]; try (left; reflexivity).
  rewrite (tool_round_run E prompt url fc a w1). cbv zeta.
  destruct (second_stage_trace E url
              (make_payload [user_entry AGENT_INSTRUCTION; user_entry prompt;
                             model_entry fc;
                             function_entry
                               (canon (stock_result E (get_or_none a "ticker")
                                         (fst (yf_info E (get_or_none a "ticker") w1))))])
              (snd (yf_info E (get_or_none a "ticker") w1))) as (r & w3 & Hs).
  rewrite Hs. right. exists w1, result, fc, (PDict a), (get_or_none a "ticker").
  repeat split; assumption.
Qed.

Lemma turn_trace (E : Env) (prompt : string) (key : option string) (w : World E) :
  key_missing key = false ->
  exists err,
    (err = [] \/ exists msg, err = [EvError msg]) /\
    trace (get_agent_response E prompt key w)
    = (trace (first_round E prompt (make_url key) w) ++ err)%list.
Proof.
  intros Hk. unfold get_agent_response. rewrite Hk.
  destruct (first_round E prompt (make_url key) w) as [[[v|e] w1] t] eqn:Hf;
    rewrite (handled _ _ _ _ _ _ Hf).
  - exists []. split; [now left|]. unfold trace. cbn [snd]. now rewrite List.app_nil_r.
  - destruct (is_request_exception e); eexists; (split; [right; eauto|reflexivity]).
Qed.

(** X6. The effects of a turn have one of three shapes.  Without a
    credential there are none.  Otherwise the turn makes the first request
    and stops, or it makes the first request, announces the ticker with
    [st.info], fetches it and makes the second request; in both cases at
    most one [st.error] follows, and it comes last. *)
Theorem X6_trace_shapes (E : Env) (prompt : string) (key : option string)
  (w : World E) :
  (key_missing key = true /\ trace (get_agent_response E prompt key w) = []) \/
  (key_missing key = false /\
   exists err,
     (err = [] \/ exists msg, err = [EvError msg]) /\
     (trace (get_agent_response E prompt key w)
      = EvPost (make_url key) (first_body prompt) :: err \/
      exists T fc parsed,
        trace (get_agent_response E prompt key w)
        = ([EvPost (make_url key) (first_body prompt);
            EvInfo ("Agent wants to fetch stock info for: " ++ py_str T);
            EvFetch T;
            EvPost (make_url key) (second_body prompt fc parsed)] ++ err)%list)).
Proof.
  destruct (key_missing key) eqn:Hk.
  - left. split; [reflexivity|]. unfold get_agent_response. now rewrite Hk.
  - right. split; [reflexivity|].
    destruct (turn_trace E prompt key w Hk) as (err & He & Ht).
    exists err. split; [exact He|]. rewrite Ht.
    destruct (first_round_cases E prompt (make_url key) w)
      as [H|(w1 & result & fc & args & T & _ & _ & _ & _ & _ & H)]; rewrite H.
    + left. reflexivity.
    + right. eexists T, fc, _. reflexivity.
Qed.

(** X7. With a credential, a turn makes exactly one request more than it
    makes fetches: the first request always, and a second request exactly
    when the tool has run. *)
Theorem X7_requests_follow_fetches (E : Env) (prompt : string)
  (key : option string) (w : World E) :
  key_missing key = false ->
  count_posts (trace (get_agent_response E prompt key w))
  = 1 + count_fetches (trace (get_agent_response E prompt key w)).
Proof.
  intros Hk. destruct (turn_trace E prompt key w Hk) as (err & He & Ht).
  rewrite Ht, count_posts_app, count_fetches_app.
  assert (Hp : count_posts err = 0 /\ count_fetches err = 0)
    by (destruct He as [->|(msg & ->)]; split; reflexivity).
  destruct Hp as [-> ->].
  destruct (first_round_cases E prompt (make_url key) w)
    as [H|(w1 & result & fc & args & T & _ & _ & _ & _ & _ & H)]; rewrite H;
    reflexivity.
Qed.

Lemma X7_witness :
  count_posts
    (trace (get_agent_response (scripted aapl_provider) "What is AAPL?" (Some "K")
              [ok_reply (response_with
                           (call_part (PStr "get_stock_info")
                                      (PDict [("ticker", PStr "AAPL")])))]))
  = 1 + count_fetches
          (trace (get_agent_response (scripted aapl_provider) "What is AAPL?" (Some "K")
                    [ok_reply (response_with
                                 (call_part (PStr "get_stock_info")
                                            (PDict [("ticker", PStr "AAPL")])))])).
Proof.
  apply (X7_requests_follow_fetches (scripted aapl_provider) "What is AAPL?" (Some "K")).
  reflexivity.
Defined.

Lemma completion_answers (E : Env) (url : string) (payload : pyval)
  (w w1 : World E) (result : pyval) (t : list event) :
  completion E url payload w = (Ok result, w1, t) ->
  answers E url (json_dumps payload) w result w1.
Proof.
  intros H. unfold completion, bind, post, lift in H.
  destruct (requests_post E url (json_dumps payload) w) as [[resp|e] w'] eqn:Hp;
    [|discriminate H].
  destruct (raise_for_status url resp) as [[]|e] eqn:Hs; [|discriminate H].
  destruct (json_body resp) as [r|e] eqn:Hj; [|discriminate H].
  injection H as <- <- _. exists resp. repeat split; assumption.
Qed.

(** X8. The market-data provider is only ever asked for the ticker the
    model supplied in this turn: when a turn fetches [T], there is a
    credential, the endpoint answered the first request of this very turn
    (the request with the turn's prompt, made in the world the turn
    started in) with a successful response whose first part holds a
    [functionCall] named [get_stock_info], and [T] is the [ticker] of its
    [args] ([None] when the args have no ticker). *)
Theorem X8_fetch_only_on_request (E : Env) (prompt : string)
  (key : option string) (w : World E) (T : pyval) :
  In (EvFetch T) (trace (get_agent_response E prompt key w)) ->
  key_missing key = false /\
  exists result w1 fc args,
    answers E (make_url key) (first_body prompt) w result w1 /\
    (p <- first_part result ;; py_item p "functionCall")%res = Ok fc /\
    py_item fc "name" = Ok (PStr "get_stock_info") /\
    py_item fc "args" = Ok args /\
    py_get args "ticker" PNone = Ok T.
Proof.
  intros Hin. destruct (key_missing key) eqn:Hk.
  - unfold get_agent_response in Hin. rewrite Hk in Hin. contradiction.
  - split; [reflexivity|].
    destruct (turn_trace E prompt key w Hk) as (err & He & Ht).
    rewrite Ht in Hin. apply in_app_or in Hin. destruct Hin as [Hin|Hin].
    + destruct (first_round_cases E prompt (make_url key) w)
        as [H|(w1 & result & fc & args & T' & Hc & Hfc & Hn & Ha & HT & H)];
        rewrite H in Hin.
      * destruct Hin as [Hin|[]]. discriminate Hin.
      * cbn [In] in Hin.
        destruct Hin as [Hin|[Hin|[Hin|[Hin|[]]]]]; try discriminate Hin.
        injection Hin as <-. exists result, w1, fc, args.
        split; [|repeat split; assumption].
        exact (completion_answers E _ _ _ _ _ _ Hc).
    + destruct He as [->|(msg & ->)]; [contradiction|].
      destruct Hin as [Hin|[]]. discriminate Hin.
Qed.

Lemma X8_witness :
  key_missing (Some "K") = false /\
  exists result w1 fc args,
    answers (scripted aapl_provider) (make_url (Some "K")) (first_body "What is AAPL?")
      [ok_reply (response_with
                   (call_part (PStr "get_stock_info")
                              (PDict [("ticker", PStr "AAPL")])))]
      result w1 /\
    (p <- first_part result ;; py_item p "functionCall")%res = Ok fc /\
    py_item fc "name" = Ok (PStr "get_stock_info") /\
    py_item fc "args" = Ok args /\
    py_get args "ticker" PNone = Ok (PStr "AAPL").
Proof.
  apply (X8_fetch_only_on_request (scripted aapl_provider) "What is AAPL?" (Some "K")
           [ok_reply (response_with
                        (call_part (PStr "get_stock_info")
                                   (PDict [("ticker", PStr "AAPL")])))]
           (PStr "AAPL")).
  vm_compute. right. right. left. reflexivity.
Defined.

(* ----------------------------------------------------------------- *)
(** ** More paths of a turn *)

(** X9. The successful tool round trip: when the first response asks for
    [get_stock_info] and the second response's first part holds a
    non-empty text, the turn returns that text unchanged, after exactly
    the first request, the [st.info] line, the fetch and the second
    request. *)
Theorem X9_final_answer (E : Env) (prompt : string) (key : option string)
  (w w1 w2 w3 : World E) (result result2 T parsed : pyval)
  (part fc args part2 : list (string * pyval)) (out text : string) :
  key_missing key = false ->
  answers E (make_url key) (first_body prompt) w result w1 ->
  first_part_dict result = Some part ->
  dict_get part "functionCall" = Some (PDict fc) ->
  dict_get fc "name" = Some (PStr "get_stock_info") ->
  dict_get fc "args" = Some (PDict args) ->
  dict_get args "ticker" = Some T ->
  get_stock_info E T w1 = (Ok out, w2, [EvFetch T]) ->
  json_loads out = Ok parsed ->
  answers E (make_url key) (second_body prompt (PDict fc) parsed) w2 result2 w3 ->
  first_part_dict result2 = Some part2 ->
  dict_get part2 "text" = Some (PStr text) ->
  text <> "" ->
  get_agent_response E prompt key w
  = (Ok (PStr text), w3,
     [EvPost (make_url key) (first_body prompt);
      EvInfo ("Agent wants to fetch stock info for: " ++ py_str T);
      EvFetch T;
      EvPost (make_url key) (second_body prompt (PDict fc) parsed)]).
Proof.
  intros Hk Ha Hp Hfc Hn Hargs HT Hg Hl Ha2 Hp2 Ht2 Hne.
  assert (HTe : get_or_none args "ticker" = T) by (unfold get_or_none; now rewrite HT).
  clear HT. subst T.
  pose proof (tool_turn E prompt (make_url key) w w1 w2 result part fc args out parsed
                Ha Hp Hfc Hn Hargs Hg Hl) as Hfr.
  pose proof (completion_ok E (make_url key)
                (make_payload [user_entry AGENT_INSTRUCTION; user_entry prompt;
                               model_entry (PDict fc); function_entry parsed])
                w2 w3 result2 Ha2) as Hc.
  rewrite (bind_ok _ _ _ _ _ _ _ _ _ Hc) in Hfr.
  unfold final_answer in Hfr.
  rewrite bind_lift, (part_field_shape _ _ _ Hp2) in Hfr.
  unfold get_or_none in Hfr at 1. rewrite Ht2 in Hfr.
  assert (Hv : py_truthy (PStr text) = true)
    by (simpl; destruct (String.eqb_spec text ""); [congruence|reflexivity]).
  rewrite Hv in Hfr. unfold lift in Hfr. rewrite (first_part_shape _ _ Hp2) in Hfr.
  cbn [res_bind py_item] in Hfr. rewrite Ht2 in Hfr. cbn [app] in Hfr.
  unfold get_agent_response. rewrite Hk. rewrite (handled _ _ _ _ _ _ Hfr).
  reflexivity.
Qed.

Lemma X9_witness :
  outcome
    (get_agent_response (scripted aapl_provider) "What is AAPL?" (Some "K")
       [ok_reply (response_with (call_part (PStr "get_stock_info")
                                           (PDict [("ticker", PStr "AAPL")])));
        ok_reply (response_with (text_part (PStr "AAPL trades at 189.5 USD.")))])
  = Ok (PStr "AAPL trades at 189.5 USD.").
Proof.
  refine (f_equal outcome
    (X9_final_answer (scripted aapl_provider) "What is AAPL?" (Some "K")
       [ok_reply (response_with (call_part (PStr "get_stock_info")
                                           (PDict [("ticker", PStr "AAPL")])));
        ok_reply (response_with (text_part (PStr "AAPL trades at 189.5 USD.")))]
       [ok_reply (response_with (text_part (PStr "AAPL trades at 189.5 USD.")))]
       [ok_reply (response_with (text_part (PStr "AAPL trades at 189.5 USD.")))]
       []
       (response_with (call_part (PStr "get_stock_info")
                                 (PDict [("ticker", PStr "AAPL")])))
       (response_with (text_part (PStr "AAPL trades at 189.5 USD.")))
       (PStr "AAPL")
       (canon (quote_of (scripted aapl_provider) "AAPL"
                 [("longName", PStr "Apple Inc."); ("currency", PStr "USD");
                  ("regularMarketPrice", PFloat (FFin false 189 (D5 Nil) None));
                  ("volume", PInt 51234000)]))
       [("functionCall",
         PDict [("name", PStr "get_stock_info");
                ("args", PDict [("ticker", PStr "AAPL")])])]
       [("name", PStr "get_stock_info");
        ("args", PDict [("ticker", PStr "AAPL")])]
       [("ticker", PStr "AAPL")]
       [("text", PStr "AAPL trades at 189.5 USD.")]
       (json_dumps (quote_of (scripted aapl_provider) "AAPL"
                      [("longName", PStr "Apple Inc."); ("currency", PStr "USD");
                       ("regularMarketPrice", PFloat (FFin false 189 (D5 Nil) None));
                       ("volume", PInt 51234000)]))
       "AAPL trades at 189.5 USD."
       eq_refl _ eq_refl eq_refl eq_refl eq_refl eq_refl eq_refl _ _ eq_refl eq_refl _)).
  - eexists. repeat split.
  - vm_compute. reflexivity.
  - eexists. repeat split.
  - discriminate.
Defined.

(** X10. A [functionCall] that lacks [args], or lacks [name], is not
    dispatched at all, whatever its name: the subscript of line 137 or 138
    raises [KeyError], the turn returns "An unexpected error occurred."
    and nothing is fetched or requested again. *)
Theorem X10_function_call_missing_key (E : Env) (prompt : string)
  (key : option string) (w w1 : World E) (result : pyval)
  (part fc : list (string * pyval)) (missing : string) :
  key_missing key = false ->
  answers E (make_url key) (first_body prompt) w result w1 ->
  first_part_dict result = Some part ->
  dict_get part "functionCall" = Some (PDict fc) ->
  fc <> [] ->
  (missing = "name" /\ dict_get fc "name" = None) \/
  (missing = "args" /\ dict_get fc "name" <> None /\ dict_get fc "args" = None) ->
  get_agent_response E prompt key w
  = (Ok (PStr "An unexpected error occurred."), w1,
     [EvPost (make_url key) (first_body prompt);
      EvError ("An unexpected error occurred: '" ++ missing ++ "'")]).
Proof.
  intros Hk Ha Hp Hfc Hne Hm.
  pose proof (completion_ok E (make_url key)
                (make_payload [user_entry AGENT_INSTRUCTION; user_entry prompt])
                w w1 result Ha) as Hc.
  assert (Hfr : first_round E prompt (make_url key) w
                = (Raise (KeyError ("'" ++ missing ++ "'")), w1,
                   [EvPost (make_url key) (first_body prompt)])).
  { unfold first_round. cbv zeta. rewrite (bind_ok _ _ _ _ _ _ _ _ _ Hc).
    rewrite bind_lift, (part_field_shape _ _ _ Hp).
    unfold get_or_none. rewrite Hfc.
    assert (Ht : py_truthy (PDict fc) = true) by (destruct fc; [congruence|reflexivity]).
    rewrite Ht. rewrite bind_lift, (first_part_shape _ _ Hp).
    cbn [res_bind py_item]. rewrite Hfc. rewrite bind_lift. cbn [py_item].
    destruct Hm as [[-> Hn]|(-> & Hn & Hargs)].
    - rewrite Hn. reflexivity.
    - destruct (dict_get fc "name") as [name|]; [|congruence].
      rewrite bind_lift. cbn [py_item]. rewrite Hargs. reflexivity. }
  unfold get_agent_response. rewrite Hk. rewrite (handled _ _ _ _ _ _ Hfr).
  reflexivity.
Qed.

Lemma X10_witness :
  get_agent_response (scripted aapl_provider) "What is AAPL?" (Some "K")
    [ok_reply (response_with
                 (PDict [("functionCall", PDict [("name", PStr "do_something_else")])]))]
  = (Ok (PStr "An unexpected error occurred."), [],
     [EvPost (make_url (Some "K")) (first_body "What is AAPL?");
      EvError ("An unexpected error occurred: '" ++ "args" ++ "'")]).
Proof.
  apply (X10_function_call_missing_key (scripted aapl_provider) "What is AAPL?"
           (Some "K")
           [ok_reply (response_with
                        (PDict [("functionCall",
                                 PDict [("name", PStr "do_something_else")])]))]
           []
           (response_with
              (PDict [("functionCall", PDict [("name", PStr "do_something_else")])]))
           [("functionCall", PDict [("name", PStr "do_something_else")])]
           [("name", PStr "do_something_else")]
           "args").
  - reflexivity.
  - eexists. repeat split.
  - reflexivity.
  - reflexivity.
  - discriminate.
  - right. split; [reflexivity|]. split; [discriminate|reflexivity].
Defined.

(** X11. When [get_stock_info] is requested with [args] that are not a
    dict ([null], a list, a string), [function_args.get] of line 141
    fails before anything is shown or fetched: the turn returns
    "An unexpected error occurred." after the first request alone. *)
Theorem X11_args_not_a_dict (E : Env) (prompt : string)
  (key : option string) (w w1 : World E) (result args : pyval)
  (part fc : list (string * pyval)) :
  key_missing key = false ->
  answers E (make_url key) (first_body prompt) w result w1 ->
  first_part_dict result = Some part ->
  dict_get part "functionCall" = Some (PDict fc) ->
  dict_get fc "name" = Some (PStr "get_stock_info") ->
  dict_get fc "args" = Some args ->
  (forall a, args <> PDict a) ->
  get_agent_response E prompt key w
  = (Ok (PStr "An unexpected error occurred."), w1,
     [EvPost (make_url key) (first_body prompt);
      EvError ("An unexpected error occurred: '" ++ type_name args ++
               "' object has no attribute 'get'")]).
Proof.
  intros Hk Ha Hp Hfc Hn Hargs Hnd.
  assert (Hfr : first_round E prompt (make_url key) w
                = (Raise (no_attribute args "get"), w1,
                   [EvPost (make_url key) (first_body prompt)])).
  { rewrite (first_round_tool_request _ _ _ _ _ _ _ _ _ _ Ha Hp Hfc Hn Hargs).
    cbn [py_eq_str String.eqb Ascii.eqb Bool.eqb].
    unfold tool_round. cbv zeta. rewrite bind_lift.
    destruct args; try reflexivity. exfalso. eapply Hnd. reflexivity. }
  unfold get_agent_response. rewrite Hk. rewrite (handled _ _ _ _ _ _ Hfr).
  reflexivity.
Qed.

Lemma X11_witness :
  get_agent_response (scripted aapl_provider) "What is AAPL?" (Some "K")
    [ok_reply (response_with (call_part (PStr "get_stock_info") (PStr "AAPL")))]
  = (Ok (PStr "An unexpected error occurred."), [],
     [EvPost (make_url (Some "K")) (first_body "What is AAPL?");
      EvError ("An unexpected error occurred: '" ++ type_name (PStr "AAPL") ++
               "' object has no attribute 'get'")]).
Proof.
  apply (X11_args_not_a_dict (scripted aapl_provider) "What is AAPL?" (Some "K")
           [ok_reply (response_with (call_part (PStr "get_stock_info") (PStr "AAPL")))]
           []
           (response_with (call_part (PStr "get_stock_info") (PStr "AAPL")))
           (PStr "AAPL")
           [("functionCall",
             PDict [("name", PStr "get_stock_info"); ("args", PStr "AAPL")])]
           [("name", PStr "get_stock_info"); ("args", PStr "AAPL")]).
  - reflexivity.
  - eexists. repeat split.
  - reflexivity.
  - reflexivity.
  - reflexivity.
  - reflexivity.
  - discriminate.
Defined.

Lemma stock_result_none (E : Env) (r : res pyval) :
  exists msg,
    stock_result E PNone r = PDict [("error", PStr msg)] /\ occurs_in "None" msg.
Proof.
  destruct r as [info|e]; cbn [stock_result].
  - destruct (py_truthy info); cbn [negb quote_record py_upper res_bind].
    + eexists. split; [reflexivity|].
      exists "An error occurred while fetching data for ",
             ": 'NoneType' object has no attribute 'upper'". reflexivity.
    + eexists. split; [reflexivity|].
      exists "Could not find information for ticker: ", ". Please check the symbol.".
      reflexivity.
  - eexists. split; [reflexivity|].
    exists "An error occurred while fetching data for ", (": " ++ exn_str e).
    reflexivity.
Qed.

(** X12. When [get_stock_info] is requested with args that hold no
    [ticker], the tool is still run, on [None]: the page announces
    "None", the provider is asked for [None], and whatever it does the
    second request carries an error record whose message names "None". *)
Theorem X12_missing_ticker (E : Env) (prompt : string) (key : option string)
  (w w1 : World E) (result : pyval) (part fc args : list (string * pyval)) :
  key_missing key = false ->
  answers E (make_url key) (first_body prompt) w result w1 ->
  first_part_dict result = Some part ->
  dict_get part "functionCall" = Some (PDict fc) ->
  dict_get fc "name" = Some (PStr "get_stock_info") ->
  dict_get fc "args" = Some (PDict args) ->
  dict_get args "ticker" = None ->
  exists msg tail,
    trace (get_agent_response E prompt key w)
    = ([EvPost (make_url key) (first_body prompt);
        EvInfo "Agent wants to fetch stock info for: None";
        EvFetch PNone;
        EvPost (make_url key)
          (second_body prompt (PDict fc) (PDict [("error", PStr msg)]))] ++ tail)%list /\
    occurs_in "None" msg /\
    count_posts tail = 0 /\ count_fetches tail = 0.
Proof.
  intros Hk Ha Hp Hfc Hn Hargs HT.
  assert (HTe : get_or_none args "ticker" = PNone) by (unfold get_or_none; now rewrite HT).
  pose proof (get_stock_info_run E PNone w1) as Hg.
  pose proof (loads_dumps (stock_result E PNone (fst (yf_info E PNone w1)))) as Hl.
  destruct (stock_result_none E (fst (yf_info E PNone w1))) as (msg & Hm & Ho).
  assert (Hcan : canon (stock_result E PNone (fst (yf_info E PNone w1)))
                 = PDict [("error", PStr msg)]) by (rewrite Hm; reflexivity).
  rewrite Hcan in Hl. clear Hm Hcan. rewrite <- HTe in Hg, Hl.
  pose proof (tool_turn E prompt (make_url key) w w1 _ result part fc args _ _
                Ha Hp Hfc Hn Hargs Hg Hl) as Hfr.
  rewrite HTe in Hfr.
  destruct (second_stage_trace E (make_url key)
              (make_payload [user_entry AGENT_INSTRUCTION; user_entry prompt;
                             model_entry (PDict fc);
                             function_entry (PDict [("error", PStr msg)])])
              (snd (yf_info E PNone w1))) as (r & w3 & Hs).
  rewrite Hs in Hfr.
  exists msg. unfold get_agent_response. rewrite Hk. rewrite (handled _ _ _ _ _ _ Hfr).
  destruct r as [v|e].
  - exists []. repeat split; assumption.
  - destruct (is_request_exception e); eexists [_]; repeat split; assumption.
Qed.

Lemma X12_witness :
  exists msg tail,
    trace (get_agent_response (scripted aapl_provider) "Price?" (Some "K")
             [ok_reply (response_with (call_part (PStr "get_stock_info") (PDict [])));
              ok_reply (response_with (text_part (PStr "Which ticker?")))])
    = ([EvPost (make_url (Some "K")) (first_body "Price?");
        EvInfo "Agent wants to fetch stock info for: None";
        EvFetch PNone;
        EvPost (make_url (Some "K"))
          (second_body "Price?"
             (PDict [("name", PStr "get_stock_info"); ("args", PDict [])])
             (PDict [("error", PStr msg)]))] ++ tail)%list /\
    occurs_in "None" msg /\
    count_posts tail = 0 /\ count_fetches tail = 0.
Proof.
  apply (X12_missing_ticker (scripted aapl_provider) "Price?" (Some "K")
           [ok_reply (response_with (call_part (PStr "get_stock_info") (PDict [])));
            ok_reply (response_with (text_part (PStr "Which ticker?")))]
           [ok_reply (response_with (text_part (PStr "Which ticker?")))]
           (response_with (call_part (PStr "get_stock_info") (PDict [])))
           [("functionCall",
             PDict [("name", PStr "get_stock_info"); ("args", PDict [])])]
           [("name", PStr "get_stock_info"); ("args", PDict [])]
           []).
  - reflexivity.
  - eexists. repeat split.
  - reflexivity.
  - reflexivity.
  - reflexivity.
  - reflexivity.
  - reflexivity.
Defined.

Lemma part_field_incomplete (result : pyval) (f : string) :
  incomplete result ->
  exists v, part_field result f = Ok v /\ py_truthy v = false.
Proof.
  intros (r & -> & [H|(c & rest & Hc & [H|(ct & Hct & Hne & H)])]);
    unfold part_field; cbn [py_get res_bind].
  - fold (get_or_none r "candidates"). rewrite H. cbn [negb]. eauto.
  - rewrite Hc. cbn [py_truthy negb py_item res_bind]. rewrite Hc.
    cbn [py_first res_bind py_get]. fold (get_or_none c "content").
    rewrite H. cbn [negb]. eauto.
  - rewrite Hc. cbn [py_truthy negb py_item res_bind]. rewrite Hc.
    cbn [py_first res_bind py_get py_item]. rewrite Hct.
    assert (Ht : py_truthy (PDict ct) = true) by (destruct ct; [congruence|reflexivity]).
    rewrite Ht. cbn [negb res_bind py_get]. fold (get_or_none ct "parts").
    rewrite H. cbn [negb]. eauto.
Qed.

(** X13. A response body that is a dict without a first part (no or
    empty [candidates], no [content], no or empty [parts]) raises nothing:
    the turn returns "I couldn't get a clear response from the model.
    Please try again." after the first request alone. *)
Theorem X13_incomplete_response (E : Env) (prompt : string)
  (key : option string) (w w1 : World E) (result : pyval) :
  key_missing key = false ->
  answers E (make_url key) (first_body prompt) w result w1 ->
  incomplete result ->
  get_agent_response E prompt key w
  = (Ok (PStr "I couldn't get a clear response from the model. Please try again."),
     w1, [EvPost (make_url key) (first_body prompt)]).
Proof.
  intros Hk Ha Hi.
  pose proof (completion_ok E (make_url key)
                (make_payload [user_entry AGENT_INSTRUCTION; user_entry prompt])
                w w1 result Ha) as Hc.
  destruct (part_field_incomplete result "functionCall" Hi) as (v1 & H1 & T1).
  destruct (part_field_incomplete result "text" Hi) as (v2 & H2 & T2).
  assert (Hfr : first_round E prompt (make_url key) w
                = (Ok (PStr no_clear_reply), w1,
                   [EvPost (make_url key) (first_body prompt)])).
  { unfold first_round. cbv zeta. rewrite (bind_ok _ _ _ _ _ _ _ _ _ Hc).
    rewrite bind_lift, H1, T1. unfold direct_answer.
    rewrite bind_lift, H2, T2. reflexivity. }
  unfold get_agent_response. rewrite Hk. rewrite (handled _ _ _ _ _ _ Hfr).
  reflexivity.
Qed.

Lemma X13_witness :
  get_agent_response (scripted aapl_provider) "Hello" (Some "K")
    [ok_reply (PDict [("candidates", PList [])])]
  = (Ok (PStr "I couldn't get a clear response from the model. Please try again."),
     [], [EvPost (make_url (Some "K")) (first_body "Hello")]).
Proof.
  apply (X13_incomplete_response (scripted aapl_provider) "Hello" (Some "K")
           [ok_reply (PDict [("candidates", PList [])])] []
           (PDict [("candidates", PList [])])).
  - reflexivity.
  - eexists. repeat split.
  - eexists. split; [reflexivity|]. left. reflexivity.
Defined.

(** X14. A response body that decodes to something other than a dict (a
    list, a string, a number, [null]) makes [result.get] of line 132
    fail: the turn returns "An unexpected error occurred." after the first
    request alone. *)
Theorem X14_body_not_a_dict (E : Env) (prompt : string)
  (key : option string) (w w1 : World E) (result : pyval) :
  key_missing key = false ->
  answers E (make_url key) (first_body prompt) w result w1 ->
  (forall r, result <> PDict r) ->
  get_agent_response E prompt key w
  = (Ok (PStr "An unexpected error occurred."), w1,
     [EvPost (make_url key) (first_body prompt);
      EvError ("An unexpected error occurred: '" ++ type_name result ++
               "' object has no attribute 'get'")]).
Proof.
  intros Hk Ha Hnd.
  pose proof (completion_ok E (make_url key)
                (make_payload [user_entry AGENT_INSTRUCTION; user_entry prompt])
                w w1 result Ha) as Hc.
  assert (Hfr : first_round E prompt (make_url key) w
                = (Raise (no_attribute result "get"), w1,
                   [EvPost (make_url key) (first_body prompt)])).
  { unfold first_round. cbv zeta. rewrite (bind_ok _ _ _ _ _ _ _ _ _ Hc).
    rewrite bind_lift.
    destruct result; try reflexivity. exfalso. eapply Hnd. reflexivity. }
  unfold get_agent_response. rewrite Hk. rewrite (handled _ _ _ _ _ _ Hfr).
  reflexivity.
Qed.

Lemma X14_witness :
  get_agent_response (scripted aapl_provider) "Hello" (Some "K")
    [ok_reply (PList [PStr "hello"])]
  = (Ok (PStr "An unexpected error occurred."), [],
     [EvPost (make_url (Some "K")) (first_body "Hello");
      EvError ("An unexpected error occurred: '" ++ type_name (PList [PStr "hello"]) ++
               "' object has no attribute 'get'")]).
Proof.
  apply (X14_body_not_a_dict (scripted aapl_provider) "Hello" (Some "K")
           [ok_reply (PList [PStr "hello"])] [] (PList [PStr "hello"])).
  - reflexivity.
  - eexists. repeat split.
  - discriminate.
Defined.

(** X15. An exception that is not a [RequestException], raised by
    [requests.post] or by [response.json()] of the first request, ends the
    turn with "An unexpected error occurred."; a [RequestException] raised
    by [response.json()] ends it with the string that names the model.  In
    both cases the first request is the only one. *)
Theorem X15_exception_classes (E : Env) (prompt : string)
  (key : option string) (w w1 : World E) (e : exn) :
  key_missing key = false ->
  requests_post E (make_url key) (first_body prompt) w = (Raise e, w1) \/
  (exists resp,
      requests_post E (make_url key) (first_body prompt) w = (Ok resp, w1) /\
      raise_for_status (make_url key) resp = Ok tt /\
      json_body resp = Raise e) ->
  get_agent_response E prompt key w
  = if is_request_exception e then
      (Ok (PStr ("I'm currently unable to provide a response due to a technical issue: "
                 ++ exn_str e ++
                 ". Please ensure your API key is correct and has access to the 'gemini-2.0-flash' model.")),
       w1,
       [EvPost (make_url key) (first_body prompt);
        EvError ("Error communicating with the Gemini API: " ++ exn_str e)])
    else
      (Ok (PStr "An unexpected error occurred."), w1,
       [EvPost (make_url key) (first_body prompt);
        EvError ("An unexpected error occurred: " ++ exn_str e)]).
Proof.
  intros Hk Hr.
  assert (Hfr : first_round E prompt (make_url key) w
                = (Raise e, w1, [EvPost (make_url key) (first_body prompt)])).
  { unfold first_round, completion. cbv zeta. unfold bind at 1. unfold bind at 1.
    unfold post.
    change (json_dumps (make_payload [user_entry AGENT_INSTRUCTION; user_entry prompt]))
      with (first_body prompt).
    destruct Hr as [Hp|(resp & Hp & Hs & Hj)]; rewrite Hp; [reflexivity|].
    unfold bind, lift. rewrite Hs, Hj. reflexivity. }
  unfold get_agent_response. rewrite Hk. rewrite (handled _ _ _ _ _ _ Hfr).
  destruct (is_request_exception e); reflexivity.
Qed.

Lemma X15_witness :
  get_agent_response (scripted aapl_provider) "Hello" (Some "K")
    [Ok {| status_code := 200; reason := "OK";
           json_body := Raise (OtherException "Expecting value") |}]
  = (Ok (PStr "An unexpected error occurred."), [],
     [EvPost (make_url (Some "K")) (first_body "Hello");
      EvError ("An unexpected error occurred: " ++ "Expecting value")]).
Proof.
  apply (X15_exception_classes (scripted aapl_provider) "Hello" (Some "K")
           [Ok {| status_code := 200; reason := "OK";
                  json_body := Raise (OtherException "Expecting value") |}]
           [] (OtherException "Expecting value")).
  - reflexivity.
  - right. eexists. repeat split.
Defined.

(* ----------------------------------------------------------------- *)
(** ** The chat page *)

Lemma turn_returns (E : Env) (prompt : string) (key : option string) (w : World E) :
  exists v w1 t, get_agent_response E prompt key w = (Ok v, w1, t).
Proof.
  unfold get_agent_response. destruct (key_missing key); [unfold ret; eauto|].
  destruct (first_round E prompt (make_url key) w) as [[[v|e] w1] t] eqn:Hf;
    rewrite (handled _ _ _ _ _ _ Hf); [eauto|].
  destruct (is_request_exception e); eauto.
Qed.

Lemma typed_some (prompt : string) : prompt <> "" -> typed (Some prompt) = Some prompt.
Proof.
  intros H. unfold typed. destruct (String.eqb_spec prompt ""); [congruence|reflexivity].
Qed.

Lemma typed_nonempty (input : option string) (prompt : string) :
  typed input = Some prompt -> input = Some prompt /\ prompt <> "".
Proof.
  unfold typed. destruct input as [p|]; [|discriminate].
  destruct (String.eqb_spec p ""); [discriminate|]. intros [= <-]. now split.
Qed.

(** What one rerun does to the stored messages. *)
Lemma run_script_messages (E : Env) (key : option string)
  (session : option (list message)) (input : option string) (w : World E) :
  match typed input with
  | None => messages (run_script E key session input w) = stored session
  | Some prompt =>
      exists v,
        outcome (get_agent_response E prompt key w) = Ok v /\
        raised (run_script E key session input w) = None /\
        messages (run_script E key session input w)
        = (stored session ++ [{| role := "user"; content := PStr prompt |};
                              {| role := "assistant"; content := v |}])%list
  end.
Proof.
  unfold run_script. destruct (typed input) as [prompt|]; [|reflexivity].
  destruct (turn_returns E prompt key w) as (v & w1 & t & ->).
  exists v. cbn [outcome fst raised messages]. rewrite <- List.app_assoc.
  repeat split.
Qed.

(** X16. A rerun with a non-empty input never ends in an exception, and
    it records the turn as exactly two messages appended to the stored
    history: the user's text, then the value the turn returned. *)
Theorem X16_turn_recorded (E : Env) (key : option string)
  (session : option (list message)) (prompt : string) (w : World E) :
  prompt <> "" ->
  exists v,
    outcome (get_agent_response E prompt key w) = Ok v /\
    raised (run_script E key session (Some prompt) w) = None /\
    messages (run_script E key session (Some prompt) w)
    = (stored session ++ [{| role := "user"; content := PStr prompt |};
                          {| role := "assistant"; content := v |}])%list.
Proof.
  intros Hp. pose proof (run_script_messages E key session (Some prompt) w) as H.
  rewrite (typed_some _ Hp) in H. exact H.
Qed.

Lemma X16_witness :
  exists v,
    outcome (get_agent_response (scripted aapl_provider) "Hello" (Some "K")
               [ok_reply (response_with (text_part (PStr "Hi.")))]) = Ok v /\
    raised (run_script (scripted aapl_provider) (Some "K") None (Some "Hello")
              [ok_reply (response_with (text_part (PStr "Hi.")))]) = None /\
    messages (run_script (scripted aapl_provider) (Some "K") None (Some "Hello")
                [ok_reply (response_with (text_part (PStr "Hi.")))])
    = (stored None ++ [{| role := "user"; content := PStr "Hello" |};
                       {| role := "assistant"; content := v |}])%list.
Proof.
  apply (X16_turn_recorded (scripted aapl_provider) (Some "K") None "Hello"
           [ok_reply (response_with (text_part (PStr "Hi.")))]).
  discriminate.
Defined.

Lemma run_session_suffix (E : Env)
  (reruns : list (option string * option string))
  (session : option (list message)) (w : World E) :
  exists suffix,
    stored (fst (run_session E session reruns w)) = (stored session ++ suffix)%list /\
    List.length suffix = 2 * turns reruns /\
    paired suffix.
Proof.
  revert session w. induction reruns as [|[key input] reruns IH]; intros session w.
  - exists []. cbn [run_session fst turns]. rewrite List.app_nil_r. repeat split.
  - cbn [run_session turns].
    destruct (IH (Some (messages (run_script E key session input w)))
                 (world_after (run_script E key session input w)))
      as (suffix & Hs & Hl & Hp).
    rewrite Hs. cbn [stored].
    pose proof (run_script_messages E key session input w) as Hm.
    destruct (typed input) as [prompt|].
    + destruct Hm as (v & _ & _ & ->). rewrite <- List.app_assoc.
      eexists. split; [reflexivity|]. cbn [List.app List.length paired role].
      split; [lia|]. repeat split. exact Hp.
    + rewrite Hm. exists suffix. repeat split; assumption.
Qed.

(** X18. The history of a session is append-only: after any number of
    reruns the stored messages are the earlier ones followed by two new
    messages for each rerun that had a non-empty input, and by nothing for
    the others. *)
Theorem X18_history_append_only (E : Env)
  (reruns : list (option string * option string))
  (session : option (list message)) (w : World E) :
  exists suffix,
    stored (fst (run_session E session reruns w)) = (stored session ++ suffix)%list /\
    List.length suffix = 2 * turns reruns.
Proof.
  destruct (run_session_suffix E reruns session w) as (suffix & Hs & Hl & _).
  exists suffix. now split.
Qed.

Lemma paired_app (a b : list message) : paired a -> paired b -> paired (a ++ b).
Proof.
  revert a. fix IH 1. intros [|u [|x rest]] Ha Hb.
  - exact Hb.
  - contradiction.
  - cbn [List.app paired] in *. destruct Ha as (Hu & Hx & Hr).
    repeat split; [exact Hu|exact Hx|]. now apply IH.
Qed.

(** X19. Messages stay in pairs: if the stored history is a sequence of
    (user, assistant) pairs, as it is in a new session, it still is after
    any number of reruns. *)
Theorem X19_history_paired (E : Env)
  (reruns : list (option string * option string))
  (session : option (list message)) (w : World E) :
  paired (stored session) ->
  paired (stored (fst (run_session E session reruns w))).
Proof.
  intros Hp. destruct (run_session_suffix E reruns session w) as (suffix & -> & _ & Hs).
  now apply paired_app.
Qed.

Lemma X19_witness :
  paired (stored (fst (run_session (scripted aapl_provider) None
                         [(Some "K", Some "Hello"); (Some "K", None);
                          (None, Some "What is AAPL?")]
                         [ok_reply (response_with (text_part (PStr "Hi.")))]))).
Proof.
  apply (X19_history_paired (scripted aapl_provider)
           [(Some "K", Some "Hello"); (Some "K", None); (None, Some "What is AAPL?")]
           None
           [ok_reply (response_with (text_part (PStr "Hi.")))]).
  exact I.
Defined.

(** X20. What a turn showed is shown again by the next rerun, without its
    alerts: the turn draws the assistant's container with the [st.info]
    and [st.error] lines of the turn above the answer, and the rerun that
    follows draws the stored answer alone. *)
Theorem X20_redisplay (E : Env) (key : option string)
  (session : option (list message)) (prompt : string) (w : World E) :
  prompt <> "" ->
  let r := run_script E key session (Some prompt) w in
  exists v,
    page r
    = (page_head key ++ map show_message (stored session) ++
       [ChatMessage "user" [ItemMarkdown (PStr prompt)];
        ChatMessage "assistant" (alerts (effects r) ++ [ItemMarkdown v])])%list /\
    page (run_script E key (Some (messages r)) None (world_after r))
    = (page_head key ++ map show_message (stored session) ++
       [ChatMessage "user" [ItemMarkdown (PStr prompt)];
        ChatMessage "assistant" [ItemMarkdown v]])%list.
Proof.
  intros Hp r. subst r. unfold run_script at 1 2 3 4.
  rewrite (typed_some _ Hp).
  destruct (turn_returns E prompt key w) as (v & w1 & t & ->).
  exists v. cbn [page effects messages world_after]. split.
  - rewrite <- !List.app_assoc. reflexivity.
  - unfold run_script. cbn [typed page stored].
    rewrite !map_app. cbn [map show_message role content].
    rewrite <- !List.app_assoc. reflexivity.
Qed.

Lemma X20_witness :
  exists v,
    page (run_script (scripted aapl_provider) (Some "K") None (Some "What is AAPL?")
            [ok_reply (response_with (call_part (PStr "get_stock_info")
                                                (PDict [("ticker", PStr "AAPL")])));
             ok_reply (response_with (text_part (PStr "AAPL trades at 189.5 USD.")))])
    = (page_head (Some "K") ++ map show_message (stored None) ++
       [ChatMessage "user" [ItemMarkdown (PStr "What is AAPL?")];
        ChatMessage "assistant"
          (alerts (effects
                     (run_script (scripted aapl_provider) (Some "K") None
                        (Some "What is AAPL?")
                        [ok_reply (response_with
                                     (call_part (PStr "get_stock_info")
                                                (PDict [("ticker", PStr "AAPL")])));
                         ok_reply (response_with
                                     (text_part (PStr "AAPL trades at 189.5 USD.")))]))
           ++ [ItemMarkdown v])])%list /\
    page (run_script (scripted aapl_provider) (Some "K")
            (Some (messages
                     (run_script (scripted aapl_provider) (Some "K") None
                        (Some "What is AAPL?")
                        [ok_reply (response_with
                                     (call_part (PStr "get_stock_info")
                                                (PDict [("ticker", PStr "AAPL")])));
                         ok_reply (response_with
                                     (text_part (PStr "AAPL trades at 189.5 USD.")))])))
            None
            (world_after
               (run_script (scripted aapl_provider) (Some "K") None
                  (Some "What is AAPL?")
                  [ok_reply (response_with
                               (call_part (PStr "get_stock_info")
                                          (PDict [("ticker", PStr "AAPL")])));
                   ok_reply (response_with
                               (text_part (PStr "AAPL trades at 189.5 USD.")))])))
    = (page_head (Some "K") ++ map show_message (stored None) ++
       [ChatMessage "user" [ItemMarkdown (PStr "What is AAPL?")];
        ChatMessage "assistant" [ItemMarkdown v]])%list.
Proof.
  apply (X20_redisplay (scripted aapl_provider) (Some "K") None "What is AAPL?"
           [ok_reply (response_with (call_part (PStr "get_stock_info")
                                               (PDict [("ticker", PStr "AAPL")])));
            ok_reply (response_with (text_part (PStr "AAPL trades at 189.5 USD.")))]).
  discriminate.
Defined.
